(** * Voting, reputation and answer acceptance of the Q&A server

    A shallow embedding of the vote methods of the Question and Answer
    schemas (questionSchema, and answerSchema in server/models/Answer.js),
    of the vote and accept routes (server/routes/questions.js,
    server/routes/answers.js) and of the notification statics they call
    (notificationSchema), followed by the properties the specification
    states about them.

    Requests are taken after the [authenticate] middleware and with a
    well-formed [req.params.id]; the store answers every operation (no
    timeout, no concurrent request between two awaits of one handler).
    The server runs on mongoose ^7.0.3 (server/package.json): [save()]
    validates the document before it writes, and sends only the paths that
    were modified. *)

From Stdlib Require Import ZArith List Bool Lia Permutation.
From stdpp Require Import gmap strings.

Import ListNotations.
Open Scope string_scope.

(** ** Identifiers, dates, vote entries *)

(** A MongoDB ObjectId: a 12-byte value, here the number it encodes. *)
Definition ObjectId := N.
Bind Scope N_scope with ObjectId.

(** [ObjectId.prototype.equals]. *)
Definition equals (a b : ObjectId) : bool := N.eqb a b.

(** [a.toString() === b.toString()] on ObjectIds: the 24-digit hexadecimal
    rendering is injective, so the comparison is equality of the ids. *)
Definition sameIdString (a b : ObjectId) : bool := N.eqb a b.

(** A JavaScript [Date], in milliseconds since the epoch. *)
Definition Date := Z.
Bind Scope Z_scope with Date.

(** One element of the [upvotes] / [downvotes] arrays:
    [{ user: ObjectId, createdAt: { type: Date, default: Date.now } }]. *)
Record Vote := { user : ObjectId; createdAt : Date }.

#[global] Instance Vote_eq_dec : EqDecision Vote.
Proof. solve_decision. Defined.

(** The users recorded in a vote array. *)
Definition voters (l : list Vote) : list ObjectId := List.map user l.

(** ** Mongoose change tracking

    A document obtained from the store remembers which of its paths were
    assigned a value different from the one they held; [save()] sends a
    [$set] of those paths only (a [$push] for an array that was pushed to),
    and every other path of the stored document stays as the store has it.
    Assigning a path the value it already holds does not mark it modified.
    In the code below no path is assigned twice with different values
    between a load and the [save()] that follows, so a path is modified
    exactly when its value at [save()] differs from its value at load; and
    no write to the same document separates a load from the [save()] of an
    array path, so [$push] and [$set] leave the same array.
    [persisted loaded current stored] is the value of one path after
    [save()]. *)
Definition persisted {A : Type} `{EqDecision A}
    (loaded current stored : A) : A :=
  if decide (current = loaded) then stored else current.

(** ** The Question model

    The collection maps a document's [_id] to its other paths; of these the
    record keeps the ones the vote and accept code reads or writes, and
    [closedReason], on which the validation of every [save()] depends
    ([None] is [null]). *)
Module Question.

Record t := {
  author : ObjectId;
  votes : Z;
  upvotes : list Vote;
  downvotes : list Vote;
  acceptedAnswer : option ObjectId;
  isClosed : bool;
  closedReason : option string
}.

Definition set_votes (v : Z) (this : t) : t :=
  {| author := author this; votes := v; upvotes := upvotes this;
     downvotes := downvotes this; acceptedAnswer := acceptedAnswer this;
     isClosed := isClosed this; closedReason := closedReason this |}.

Definition set_upvotes (l : list Vote) (this : t) : t :=
  {| author := author this; votes := votes this; upvotes := l;
     downvotes := downvotes this; acceptedAnswer := acceptedAnswer this;
     isClosed := isClosed this; closedReason := closedReason this |}.

Definition set_downvotes (l : list Vote) (this : t) : t :=
  {| author := author this; votes := votes this; upvotes := upvotes this;
     downvotes := l; acceptedAnswer := acceptedAnswer this;
     isClosed := isClosed this; closedReason := closedReason this |}.

Definition set_acceptedAnswer (a : option ObjectId) (this : t) : t :=
  {| author := author this; votes := votes this; upvotes := upvotes this;
     downvotes := downvotes this; acceptedAnswer := a;
     isClosed := isClosed this; closedReason := closedReason this |}.

Definition set_closedReason (r : option string) (this : t) : t :=
  {| author := author this; votes := votes this; upvotes := upvotes this;
     downvotes := downvotes this; acceptedAnswer := acceptedAnswer this;
     isClosed := isClosed this; closedReason := r |}.

(** [new Question({ title, content, tags, author, lastActivityBy })]:
    every other path takes its schema default, [closedReason] the default
    [null]. *)
Definition create (authorId : ObjectId) : t :=
  {| author := authorId; votes := 0; upvotes := []; downvotes := [];
     acceptedAnswer := None; isClosed := false; closedReason := None |}.

(** The values [closedReason: { type: String, enum: [...] }] lists. *)
Definition closedReasonEnum : list string :=
  ["duplicate"; "off-topic"; "too-broad"; "unclear"; "spam"].

(** The validation [save()] runs before its pre-save hooks and before it
    writes, on every path of a loaded document, modified or not.  The
    server depends on mongoose ^7.0.3 (server/package.json), whose enum
    validator of a string path accepts [undefined] and the listed values
    and refuses [null]; a loaded document has [null] where the store has
    no value, as the default is applied on loading.  Of the validated
    paths the record has [closedReason] only: [title], [content], [tags]
    and [bounty.amount] are taken to hold values their validators accept,
    and no modelled code assigns them. *)
Definition validate (this : t) : bool :=
  match closedReason this with
  | Some reason => existsb (String.eqb reason) closedReasonEnum
  | None => false
  end.

(** [questionSchema.virtual('netVotes')]. *)
Definition netVotes (this : t) : Z :=
  Z.of_nat (length (upvotes this)) - Z.of_nat (length (downvotes this)).

(** [questionSchema.pre('save', ...)]: the hook every [save()] runs. *)
Definition preSave (this : t) : t :=
  set_votes (Z.of_nat (length (upvotes this))
             - Z.of_nat (length (downvotes this))) this.

(** [questionSchema.methods.addUpvote]: the document the method hands to
    the store, the pre-save hook of its final [this.save()] included.
    [now] is the [Date.now] default of the pushed entry. *)
Definition addUpvote (now : Date) (userId : ObjectId) (this : t) : t :=
  let this :=
    set_downvotes
      (List.filter (fun vote => negb (equals (user vote) userId))
                   (downvotes this)) this in
  let existingUpvote :=
    List.find (fun vote => equals (user vote) userId) (upvotes this) in
  let this :=
    match existingUpvote with
    | Some _ =>
        set_upvotes
          (List.filter (fun vote => negb (equals (user vote) userId))
                       (upvotes this)) this
    | None =>
        set_upvotes
          (upvotes this ++ [{| user := userId; createdAt := now |}]) this
    end in
  let this :=
    set_votes (Z.of_nat (length (upvotes this))
               - Z.of_nat (length (downvotes this))) this in
  preSave this.

(** [questionSchema.methods.addDownvote]. *)
Definition addDownvote (now : Date) (userId : ObjectId) (this : t) : t :=
  let this :=
    set_upvotes
      (List.filter (fun vote => negb (equals (user vote) userId))
                   (upvotes this)) this in
  let existingDownvote :=
    List.find (fun vote => equals (user vote) userId) (downvotes this) in
  let this :=
    match existingDownvote with
    | Some _ =>
        set_downvotes
          (List.filter (fun vote => negb (equals (user vote) userId))
                       (downvotes this)) this
    | None =>
        set_downvotes
          (downvotes this ++ [{| user := userId; createdAt := now |}]) this
    end in
  let this :=
    set_votes (Z.of_nat (length (upvotes this))
               - Z.of_nat (length (downvotes this))) this in
  preSave this.

(** What [this.save()] leaves in the store: [loaded] is the document as
    [findById] returned it, [this] the document at [save()], [stored] the
    document the store holds at that moment. *)
Definition applyChanges (loaded this stored : t) : t :=
  {| author := persisted (author loaded) (author this) (author stored);
     votes := persisted (votes loaded) (votes this) (votes stored);
     upvotes := persisted (upvotes loaded) (upvotes this) (upvotes stored);
     downvotes :=
       persisted (downvotes loaded) (downvotes this) (downvotes stored);
     acceptedAnswer :=
       persisted (acceptedAnswer loaded) (acceptedAnswer this)
                 (acceptedAnswer stored);
     isClosed :=
       persisted (isClosed loaded) (isClosed this) (isClosed stored);
     closedReason :=
       persisted (closedReason loaded) (closedReason this)
                 (closedReason stored) |}.

End Question.

(** ** The Answer model *)
Module Answer.

Record t := {
  author : ObjectId;
  question : ObjectId;
  votes : Z;
  upvotes : list Vote;
  downvotes : list Vote;
  isAccepted : bool;
  acceptedAt : option Date;
  isDeleted : bool
}.

Definition set_votes (v : Z) (this : t) : t :=
  {| author := author this; question := question this; votes := v;
     upvotes := upvotes this; downvotes := downvotes this;
     isAccepted := isAccepted this; acceptedAt := acceptedAt this;
     isDeleted := isDeleted this |}.

Definition set_upvotes (l : list Vote) (this : t) : t :=
  {| author := author this; question := question this;
     votes := votes this; upvotes := l; downvotes := downvotes this;
     isAccepted := isAccepted this; acceptedAt := acceptedAt this;
     isDeleted := isDeleted this |}.

Definition set_downvotes (l : list Vote) (this : t) : t :=
  {| author := author this; question := question this;
     votes := votes this; upvotes := upvotes this; downvotes := l;
     isAccepted := isAccepted this; acceptedAt := acceptedAt this;
     isDeleted := isDeleted this |}.

Definition set_isAccepted (b : bool) (this : t) : t :=
  {| author := author this; question := question this;
     votes := votes this; upvotes := upvotes this;
     downvotes := downvotes this; isAccepted := b;
     acceptedAt := acceptedAt this; isDeleted := isDeleted this |}.

Definition set_acceptedAt (d : option Date) (this : t) : t :=
  {| author := author this; question := question this;
     votes := votes this; upvotes := upvotes this;
     downvotes := downvotes this; isAccepted := isAccepted this;
     acceptedAt := d; isDeleted := isDeleted this |}.

(** [new Answer({ content, question: questionId, author })]. *)
Definition create (questionId authorId : ObjectId) : t :=
  {| author := authorId; question := questionId; votes := 0;
     upvotes := []; downvotes := []; isAccepted := false;
     acceptedAt := None; isDeleted := false |}.

(** [answerSchema.virtual('netVotes')]. *)
Definition netVotes (this : t) : Z :=
  Z.of_nat (length (upvotes this)) - Z.of_nat (length (downvotes this)).

(** [answerSchema.pre('save', ...)]. *)
Definition preSave (this : t) : t :=
  set_votes (Z.of_nat (length (upvotes this))
             - Z.of_nat (length (downvotes this))) this.

(** [answerSchema.methods.addUpvote]. *)
Definition addUpvote (now : Date) (userId : ObjectId) (this : t) : t :=
  let this :=
    set_downvotes
      (List.filter (fun vote => negb (equals (user vote) userId))
                   (downvotes this)) this in
  let existingUpvote :=
    List.find (fun vote => equals (user vote) userId) (upvotes this) in
  let this :=
    match existingUpvote with
    | Some _ =>
        set_upvotes
          (List.filter (fun vote => negb (equals (user vote) userId))
                       (upvotes this)) this
    | None =>
        set_upvotes
          (upvotes this ++ [{| user := userId; createdAt := now |}]) this
    end in
  let this :=
    set_votes (Z.of_nat (length (upvotes this))
               - Z.of_nat (length (downvotes this))) this in
  preSave this.

(** [answerSchema.methods.addDownvote]. *)
Definition addDownvote (now : Date) (userId : ObjectId) (this : t) : t :=
  let this :=
    set_upvotes
      (List.filter (fun vote => negb (equals (user vote) userId))
                   (upvotes this)) this in
  let existingDownvote :=
    List.find (fun vote => equals (user vote) userId) (downvotes this) in
  let this :=
    match existingDownvote with
    | Some _ =>
        set_downvotes
          (List.filter (fun vote => negb (equals (user vote) userId))
                       (downvotes this)) this
    | None =>
        set_downvotes
          (downvotes this ++ [{| user := userId; createdAt := now |}]) this
    end in
  let this :=
    set_votes (Z.of_nat (length (upvotes this))
               - Z.of_nat (length (downvotes this))) this in
  preSave this.

(** [answerSchema.methods.accept]; [now] is [new Date()]. *)
Definition accept (now : Date) (this : t) : t :=
  let this := set_isAccepted true this in
  let this := set_acceptedAt (Some now) this in
  preSave this.


(** What [this.save()] leaves in the store (see [Question.applyChanges]). *)
Definition applyChanges (loaded this stored : t) : t :=
  {| author := persisted (author loaded) (author this) (author stored);
     question :=
       persisted (question loaded) (question this) (question stored);
     votes := persisted (votes loaded) (votes this) (votes stored);
     upvotes := persisted (upvotes loaded) (upvotes this) (upvotes stored);
     downvotes :=
       persisted (downvotes loaded) (downvotes this) (downvotes stored);
     isAccepted :=
       persisted (isAccepted loaded) (isAccepted this) (isAccepted stored);
     acceptedAt :=
       persisted (acceptedAt loaded) (acceptedAt this) (acceptedAt stored);
     isDeleted :=
       persisted (isDeleted loaded) (isDeleted this) (isDeleted stored) |}.

End Answer.

(** ** The User model *)
Module User.

Record t := { username : string; reputation : Z }.

Definition set_reputation (r : Z) (this : t) : t :=
  {| username := username this; reputation := r |}.

(** Modelled from the spec: [userSchema.methods.updateReputation], called by
    the routes as [author.updateReputation(points)]; server/models/User.js is
    not among the sources.  The spec's ReputationLedger entry: the score is a
    running integer of unbounded sign, mutated only by applying signed
    deltas, and the update persists. *)
Definition updateReputation (points : Z) (this : t) : t :=
  set_reputation (reputation this + points) this.

Definition applyChanges (loaded this stored : t) : t :=
  {| username :=
       persisted (username loaded) (username this) (username stored);
     reputation :=
       persisted (reputation loaded) (reputation this) (reputation stored) |}.

End User.

(** ** The Notification model

    Of the paths [createNotification] receives, the record keeps those that
    identify the event. *)
Module Notification.

Record t := {
  recipient : ObjectId;
  sender : ObjectId;
  type : string;
  relatedQuestion : option ObjectId;
  relatedAnswer : option ObjectId
}.

End Notification.

(** ** The store and the handlers' effects *)

Record Store := {
  questions : gmap N Question.t;
  answers : gmap N Answer.t;
  users : gmap N User.t;
  notifications : list Notification.t
}.

Definition set_questions (m : gmap N Question.t) (s : Store) : Store :=
  {| questions := m; answers := answers s; users := users s;
     notifications := notifications s |}.

Definition set_answers (m : gmap N Answer.t) (s : Store) : Store :=
  {| questions := questions s; answers := m; users := users s;
     notifications := notifications s |}.

Definition set_users (m : gmap N User.t) (s : Store) : Store :=
  {| questions := questions s; answers := answers s; users := m;
     notifications := notifications s |}.

Definition set_notifications (l : list Notification.t) (s : Store) : Store :=
  {| questions := questions s; answers := answers s; users := users s;
     notifications := l |}.

(** An awaited operation either yields a value or rejects with an error of
    the given [name]. *)
Inductive Outcome (A : Type) : Type :=
| Returned (a : A)
| Thrown (name : string).
Arguments Returned {A} a.
Arguments Thrown {A} name.

(** One run of an async function from a store: the store it leaves, the
    stores persisted on the way (one per completed write, oldest first) and
    its outcome. *)
Record Run (A : Type) : Type := {
  final : Store;
  history : list Store;
  outcome : Outcome A
}.
Arguments final {A} _.
Arguments history {A} _.
Arguments outcome {A} _.

Definition Async (A : Type) : Type := Store -> Run A.

Definition ret {A : Type} (a : A) : Async A :=
  fun s => {| final := s; history := []; outcome := Returned a |}.

Definition throw {A : Type} (name : string) : Async A :=
  fun s => {| final := s; history := []; outcome := Thrown name |}.

(** [const x = await m; k]. *)
Definition bind {A B : Type} (m : Async A) (k : A -> Async B) : Async B :=
  fun s =>
    let r := m s in
    match outcome r with
    | Returned a =>
        let r' := k a (final r) in
        {| final := final r'; history := history r ++ history r';
           outcome := outcome r' |}
    | Thrown name =>
        {| final := final r; history := history r; outcome := Thrown name |}
    end.

Notation "'let!' x ':=' m 'in' k" := (bind m (fun x => k))
  (at level 10, x name, m at level 100, k at level 200).
Notation "m ';;' k" := (bind m (fun _ => k))
  (at level 100, k at level 200, right associativity).

Definition read {A : Type} (f : Store -> A) : Async A :=
  fun s => {| final := s; history := []; outcome := Returned (f s) |}.

Definition write (f : Store -> Store) : Async unit :=
  fun s => {| final := f s; history := [f s]; outcome := Returned tt |}.

(** [r] preceded by one more persisted store. *)
Definition logged {A : Type} (s : Store) (r : Run A) : Run A :=
  {| final := final r; history := s :: history r; outcome := outcome r |}.

(** The JSON body and status a handler answers with. *)
Record Response := {
  status : nat;
  success : bool;
  message : string;
  votes : option Z
}.

Definition json (code : nat) (msg : string) (v : option Z) : Response :=
  {| status := code; success := Nat.eqb code 200; message := msg;
     votes := v |}.

(** The [try { ... } catch (error) { ... }] every route wraps its body in:
    a [CastError] answers 404, any other error 500. *)
Definition handle (notFound serverError : string)
    (body : Async Response) : Async Response :=
  fun s =>
    let r := body s in
    match outcome r with
    | Returned _ => r
    | Thrown name =>
        {| final := final r; history := history r;
           outcome :=
             Returned (if String.eqb name "CastError"
                       then json 404 notFound None
                       else json 500 serverError None) |}
    end.

(** [Question.findById] and [question.save()]: a document that fails
    validation is rejected with a [ValidationError] before anything is
    written. *)
Module QuestionModel.

Definition findById (id : ObjectId) : Async (option Question.t) :=
  read (fun s => questions s !! id).

Definition save (id : ObjectId) (loaded this : Question.t) : Async unit :=
  fun s =>
    if negb (Question.validate this) then throw "ValidationError" s
    else
      match questions s !! id with
      | Some stored =>
          write (set_questions
                   (<[id := Question.applyChanges loaded this stored]>
                      (questions s))) s
      | None => throw "DocumentNotFoundError" s
      end.

End QuestionModel.

(** [Answer.findById], [Answer.findByIdAndUpdate] and [answer.save()]. *)
Module AnswerModel.

Definition findById (id : ObjectId) : Async (option Answer.t) :=
  read (fun s => answers s !! id).

(** [Answer.findByIdAndUpdate(id, update)]: the update is applied to the
    stored document, if there is one; documents already loaded by the
    handler are not refreshed. *)
Definition findByIdAndUpdate (id : ObjectId)
    (update : Answer.t -> Answer.t) : Async unit :=
  fun s =>
    match answers s !! id with
    | Some stored => write (set_answers (<[id := update stored]> (answers s))) s
    | None => ret tt s
    end.

Definition save (id : ObjectId) (loaded this : Answer.t) : Async unit :=
  fun s =>
    match answers s !! id with
    | Some stored =>
        write (set_answers
                 (<[id := Answer.applyChanges loaded this stored]>
                    (answers s))) s
    | None => throw "DocumentNotFoundError" s
    end.

End AnswerModel.

(** [User.findById] (what [.populate('author')] performs) and the store
    side of [author.updateReputation(points)]. *)
Module UserModel.

Definition findById (id : ObjectId) : Async (option User.t) :=
  read (fun s => users s !! id).

Definition save (id : ObjectId) (loaded this : User.t) : Async unit :=
  fun s =>
    match users s !! id with
    | Some stored =>
        write (set_users
                 (<[id := User.applyChanges loaded this stored]> (users s))) s
    | None => throw "DocumentNotFoundError" s
    end.

Definition updateReputation (id : ObjectId) (this : User.t)
    (points : Z) : Async unit :=
  save id this (User.updateReputation points this).

End UserModel.

(** The statics of the Notification model the routes call. *)
Module NotificationModel.

(** [notificationSchema.statics.createNotification]. *)
Definition createNotification (data : Notification.t) : Async unit :=
  if sameIdString (Notification.sender data) (Notification.recipient data)
  then ret tt
  else write (fun s => set_notifications (notifications s ++ [data]) s).

(** [notificationSchema.statics.notifyUpvote]; [contentType] is
    ['question'] or ['answer'], [contentId] is [content._id] and
    [contentQuestion] is [content.question]. *)
Definition notifyUpvote (contentAuthor voter : ObjectId)
    (contentId : ObjectId) (contentQuestion : option ObjectId)
    (contentType : string) : Async unit :=
  createNotification
    {| Notification.recipient := contentAuthor;
       Notification.sender := voter;
       Notification.type := "upvote";
       Notification.relatedQuestion :=
         if String.eqb contentType "question" then Some contentId
         else contentQuestion;
       Notification.relatedAnswer :=
         if String.eqb contentType "answer" then Some contentId else None |}.

(** [notificationSchema.statics.notifyAcceptedAnswer]. *)
Definition notifyAcceptedAnswer (answerAuthor questionAuthor : ObjectId)
    (answerId answerQuestion : ObjectId) : Async unit :=
  createNotification
    {| Notification.recipient := answerAuthor;
       Notification.sender := questionAuthor;
       Notification.type := "accept";
       Notification.relatedQuestion := Some answerQuestion;
       Notification.relatedAnswer := Some answerId |}.

End NotificationModel.

(** [body('type').isIn(['upvote', 'downvote'])]. *)
Definition isIn (value : string) (allowed : list string) : bool :=
  existsb (String.eqb value) allowed.

(** ** server/routes/questions.js *)
Module QuestionsRoute.

(** [POST /api/questions/:id/vote]; [reqUser] is [req.user._id] of the
    authenticated user, [id] is [req.params.id], [type] is [req.body.type]. *)
Definition vote (now : Date) (reqUser id : ObjectId)
    (type : string) : Async Response :=
  handle "Question not found" "Server error while voting"
    (if negb (isIn type ["upvote"; "downvote"]) then
       ret (json 400 "Validation failed" None)
     else
       let! found := QuestionModel.findById id in
       match found with
       | None => ret (json 404 "Question not found" None)
       | Some question =>
           let! populated := UserModel.findById (Question.author question) in
           match populated with
           | None => throw "TypeError"
           | Some author =>
               if sameIdString (Question.author question) reqUser then
                 ret (json 400 "You cannot vote on your own question" None)
               else if String.eqb type "upvote" then
                 let voted := Question.addUpvote now reqUser question in
                 QuestionModel.save id question voted ;;
                 NotificationModel.notifyUpvote
                   (Question.author question) reqUser id None "question" ;;
                 UserModel.updateReputation
                   (Question.author question) author 5 ;;
                 ret (json 200 (type ++ " recorded successfully")
                           (Some (Question.votes voted)))
               else
                 let voted := Question.addDownvote now reqUser question in
                 QuestionModel.save id question voted ;;
                 UserModel.updateReputation
                   (Question.author question) author (-2) ;;
                 ret (json 200 (type ++ " recorded successfully")
                           (Some (Question.votes voted)))
           end
       end).

End QuestionsRoute.

(** ** server/routes/answers.js *)
Module AnswersRoute.

(** [POST /api/answers/:id/vote]. *)
Definition vote (now : Date) (reqUser id : ObjectId)
    (type : string) : Async Response :=
  handle "Answer not found" "Server error while voting"
    (if negb (isIn type ["upvote"; "downvote"]) then
       ret (json 400 "Validation failed" None)
     else
       let! found := AnswerModel.findById id in
       match found with
       | None => ret (json 404 "Answer not found" None)
       | Some answer =>
           if Answer.isDeleted answer then
             ret (json 404 "Answer not found" None)
           else
             let! populated := UserModel.findById (Answer.author answer) in
             match populated with
             | None => throw "TypeError"
             | Some author =>
                 if sameIdString (Answer.author answer) reqUser then
                   ret (json 400 "You cannot vote on your own answer" None)
                 else if String.eqb type "upvote" then
                   let voted := Answer.addUpvote now reqUser answer in
                   AnswerModel.save id answer voted ;;
                   NotificationModel.notifyUpvote
                     (Answer.author answer) reqUser id
                     (Some (Answer.question answer)) "answer" ;;
                   UserModel.updateReputation
                     (Answer.author answer) author 10 ;;
                   ret (json 200 (type ++ " recorded successfully")
                             (Some (Answer.votes voted)))
                 else
                   let voted := Answer.addDownvote now reqUser answer in
                   AnswerModel.save id answer voted ;;
                   UserModel.updateReputation
                     (Answer.author answer) author (-2) ;;
                   ret (json 200 (type ++ " recorded successfully")
                             (Some (Answer.votes voted)))
             end
       end).

(** [POST /api/answers/:id/accept]. *)
Definition accept (now : Date) (reqUser id : ObjectId) : Async Response :=
  handle "Answer not found" "Server error while accepting answer"
    (let! found := AnswerModel.findById id in
     match found with
     | None => ret (json 404 "Answer not found" None)
     | Some answer =>
         if Answer.isDeleted answer then
           ret (json 404 "Answer not found" None)
         else
           let! populated := UserModel.findById (Answer.author answer) in
           let! foundQuestion :=
             QuestionModel.findById (Answer.question answer) in
           match foundQuestion with
           | None => ret (json 404 "Question not found" None)
           | Some question =>
               if negb (sameIdString (Question.author question) reqUser) then
                 ret (json 403 "Only the question author can accept answers"
                           None)
               else
                 match Question.acceptedAnswer question with
                 | Some previous =>
                     AnswerModel.findByIdAndUpdate previous
                       (fun stored =>
                          Answer.set_acceptedAt None
                            (Answer.set_isAccepted false stored))
                 | None => ret tt
                 end ;;
                 AnswerModel.save id answer (Answer.accept now answer) ;;
                 QuestionModel.save (Answer.question answer) question
                   (Question.preSave
                      (Question.set_acceptedAnswer (Some id) question)) ;;
                 match populated with
                 | None => throw "TypeError"
                 | Some author =>
                     (if negb (sameIdString (Answer.author answer) reqUser)
                      then
                        NotificationModel.notifyAcceptedAnswer
                          (Answer.author answer) reqUser id
                          (Answer.question answer)
                      else ret tt) ;;
                     UserModel.updateReputation
                       (Answer.author answer) author 15 ;;
                     ret (json 200 "Answer accepted successfully" None)
                 end
           end
     end).

End AnswersRoute.

(** ** Vocabulary of the properties *)

(** [l] with every entry of [userId] removed: the [filter] both vote
    methods apply. *)
Definition without (userId : ObjectId) (l : list Vote) : list Vote :=
  List.filter (fun vote => negb (equals (user vote) userId)) l.

(** The toggle both vote methods perform on the array of the requested
    direction. *)
Definition toggle (now : Date) (userId : ObjectId)
    (l : list Vote) : list Vote :=
  match List.find (fun vote => equals (user vote) userId) l with
  | Some _ => without userId l
  | None => l ++ [{| user := userId; createdAt := now |}]
  end.

(** Invariant I1 on a pair of vote arrays: no user is recorded in both. *)
Definition exclusive (up down : list Vote) : Prop :=
  forall u : ObjectId, In u (voters up) -> In u (voters down) -> False.

(** Invariant I2 on a ledger and its cached tally. *)
Definition tallied (tally : Z) (up down : list Vote) : Prop :=
  tally = (Z.of_nat (length up) - Z.of_nat (length down))%Z.

(** One call of a vote method. *)
Inductive VoteCall : Type :=
| CallUpvote (now : Date) (userId : ObjectId)
| CallDownvote (now : Date) (userId : ObjectId).

Definition questionCall (c : VoteCall) (this : Question.t) : Question.t :=
  match c with
  | CallUpvote now userId => Question.addUpvote now userId this
  | CallDownvote now userId => Question.addDownvote now userId this
  end.

Definition answerCall (c : VoteCall) (this : Answer.t) : Answer.t :=
  match c with
  | CallUpvote now userId => Answer.addUpvote now userId this
  | CallDownvote now userId => Answer.addDownvote now userId this
  end.

(** The documents a sequence of calls produces, one per call, in order. *)
Fixpoint questionStates (this : Question.t)
    (calls : list VoteCall) : list Question.t :=
  match calls with
  | [] => []
  | c :: rest =>
      let next := questionCall c this in next :: questionStates next rest
  end.

Fixpoint answerStates (this : Answer.t)
    (calls : list VoteCall) : list Answer.t :=
  match calls with
  | [] => []
  | c :: rest =>
      let next := answerCall c this in next :: answerStates next rest
  end.

(** ** Sample data

    Users 1 (asker), 2 and 3; question 10 asked by user 1; answers 20 (by
    user 2) and 21 (by user 3) to question 10. *)

Definition sampleUsers : gmap N User.t :=
  <[1%N := {| User.username := "asker"; User.reputation := 0 |}]>
    (<[2%N := {| User.username := "first"; User.reputation := 0 |}]>
       (<[3%N := {| User.username := "second"; User.reputation := 0 |}]> ∅)).

(** Answer 20 as accepted at time 100, answer 21 as created. *)
Definition acceptedAnswer20 : Answer.t :=
  Answer.set_acceptedAt (Some 100%Z)
    (Answer.set_isAccepted true (Answer.create 10 2)).

Definition sampleAnswers : gmap N Answer.t :=
  <[20%N := acceptedAnswer20]> (<[21%N := Answer.create 10 3]> ∅).

(** Question 10 pointing at its accepted answer 20; it was once closed as
    a duplicate and is open again, so that [closedReason] holds a listed
    value. *)
Definition question10 : Question.t :=
  Question.set_closedReason (Some "duplicate")
    (Question.set_acceptedAnswer (Some 20%N) (Question.create 1)).

Definition sampleStore : Store :=
  {| questions := <[10%N := question10]> ∅;
     answers := sampleAnswers;
     users := sampleUsers;
     notifications := [] |}.

(** Question 10 closed by a moderator as a duplicate. *)
Definition closedQuestion10 : Question.t :=
  {| Question.author := 1; Question.votes := 0; Question.upvotes := [];
     Question.downvotes := []; Question.acceptedAnswer := None;
     Question.isClosed := true; Question.closedReason := Some "duplicate" |}.

Definition closedStore : Store :=
  {| questions := <[10%N := closedQuestion10]> ∅;
     answers := ∅;
     users := sampleUsers;
     notifications := [] |}.

(** Question 10 with the [closedReason] every question gets when it is
    created, and the store that holds it. *)
Definition defaultQuestion10 : Question.t :=
  Question.set_acceptedAnswer (Some 20%N) (Question.create 1).

Definition defaultStore : Store :=
  {| questions := <[10%N := defaultQuestion10]> ∅;
     answers := sampleAnswers;
     users := sampleUsers;
     notifications := [] |}.

(** The stored answer [id] is marked accepted. *)
Definition markedAccepted (s : Store) (id : ObjectId) : bool :=
  match answers s !! id with
  | Some a => Answer.isAccepted a
  | None => false
  end.

(** Question [questionId], if it points at an answer, points at one that is
    marked accepted. *)
Definition pointsAtAccepted (s : Store) (questionId : ObjectId) : bool :=
  match questions s !! questionId with
  | Some q =>
      match Question.acceptedAnswer q with
      | Some id => markedAccepted s id
      | None => true
      end
  | None => true
  end.

(** ** Store-wide vocabulary *)

(** [s'] holds the documents [s] holds, none more and none fewer, each with
    the paths no vote or accept request assigns as [s] has them, and the
    notifications of [s] followed by the ones added since. *)
Definition sameDocuments (s s' : Store) : Prop :=
  (forall id : ObjectId,
      match questions s !! id, questions s' !! id with
      | Some q, Some q' =>
          Question.author q' = Question.author q /\
          Question.isClosed q' = Question.isClosed q
      | None, None => True
      | _, _ => False
      end) /\
  (forall id : ObjectId,
      match answers s !! id, answers s' !! id with
      | Some a, Some a' =>
          Answer.author a' = Answer.author a /\
          Answer.question a' = Answer.question a /\
          Answer.isDeleted a' = Answer.isDeleted a
      | None, None => True
      | _, _ => False
      end) /\
  (forall id : ObjectId,
      match users s !! id, users s' !! id with
      | Some u, Some u' => User.username u' = User.username u
      | None, None => True
      | _, _ => False
      end) /\
  (exists added : list Notification.t,
      notifications s' = (notifications s ++ added)%list).

(** Invariant I1 over the whole store. *)
Definition ledgersExclusive (s : Store) : Prop :=
  (forall (id : ObjectId) (q : Question.t),
      questions s !! id = Some q ->
      exclusive (Question.upvotes q) (Question.downvotes q)) /\
  (forall (id : ObjectId) (a : Answer.t),
      answers s !! id = Some a ->
      exclusive (Answer.upvotes a) (Answer.downvotes a)).

(** Invariant I2 over the whole store. *)
Definition ledgersTallied (s : Store) : Prop :=
  (forall (id : ObjectId) (q : Question.t),
      questions s !! id = Some q ->
      tallied (Question.votes q) (Question.upvotes q)
              (Question.downvotes q)) /\
  (forall (id : ObjectId) (a : Answer.t),
      answers s !! id = Some a ->
      tallied (Answer.votes a) (Answer.upvotes a) (Answer.downvotes a)).

(** No stored notification was sent by its own recipient. *)
Definition noSelfNotification (s : Store) : Prop :=
  Forall (fun n => Notification.sender n <> Notification.recipient n)
         (notifications s).

(** The status a run answered with, if it answered. *)
Definition statusOf (r : Run Response) : option nat :=
  match outcome r with
  | Returned body => Some (status body)
  | Thrown _ => None
  end.

(** One vote request on a given question: when, by whom, of which type. *)
Record VoteRequest := {
  requestedAt : Date;
  requestedBy : ObjectId;
  requestedType : string
}.

(** The store after serving vote requests on question [id] one after the
    other. *)
Fixpoint serveQuestionVotes (id : ObjectId) (requests : list VoteRequest)
    (s : Store) : Store :=
  match requests with
  | [] => s
  | r :: rest =>
      serveQuestionVotes id rest
        (final (QuestionsRoute.vote (requestedAt r) (requestedBy r) id
                  (requestedType r) s))
  end.

(** The sum of the deltas the questions route applies for the given
    requests: 5 for an upvote, -2 otherwise. *)
Fixpoint questionDeltas (requests : list VoteRequest) : Z :=
  match requests with
  | [] => 0
  | r :: rest =>
      (if String.eqb (requestedType r) "upvote" then 5 else -2)
      + questionDeltas rest
  end.

(** What a request may do to one stored question: the paths it never
    assigns stay, and a ledger that satisfied I1 (I2) still does. *)
Definition questionStep (q q' : Question.t) : Prop :=
  Question.author q' = Question.author q /\
  Question.isClosed q' = Question.isClosed q /\
  (exclusive (Question.upvotes q) (Question.downvotes q) ->
   exclusive (Question.upvotes q') (Question.downvotes q')) /\
  (tallied (Question.votes q) (Question.upvotes q) (Question.downvotes q) ->
   tallied (Question.votes q') (Question.upvotes q')
           (Question.downvotes q')).

(** The same for one stored answer. *)
Definition answerStep (a a' : Answer.t) : Prop :=
  Answer.author a' = Answer.author a /\
  Answer.question a' = Answer.question a /\
  Answer.isDeleted a' = Answer.isDeleted a /\
  (exclusive (Answer.upvotes a) (Answer.downvotes a) ->
   exclusive (Answer.upvotes a') (Answer.downvotes a')) /\
  (tallied (Answer.votes a) (Answer.upvotes a) (Answer.downvotes a) ->
   tallied (Answer.votes a') (Answer.upvotes a') (Answer.downvotes a')).

(** [s'] comes from [s] by steps of stored documents and by appending
    notifications not sent by their recipient. *)
Definition evolves (s s' : Store) : Prop :=
  (forall id : ObjectId,
      match questions s !! id, questions s' !! id with
      | Some q, Some q' => questionStep q q'
      | None, None => True
      | _, _ => False
      end) /\
  (forall id : ObjectId,
      match answers s !! id, answers s' !! id with
      | Some a, Some a' => answerStep a a'
      | None, None => True
      | _, _ => False
      end) /\
  (forall id : ObjectId,
      match users s !! id, users s' !! id with
      | Some u, Some u' => User.username u' = User.username u
      | None, None => True
      | _, _ => False
      end) /\
  (exists added : list Notification.t,
      notifications s' = (notifications s ++ added)%list /\
      Forall (fun n => Notification.sender n <> Notification.recipient n)
             added).

(** ** JavaScript numbers

    A [Number] is an IEEE 754 double.  The counters modelled below hold
    integers, and on integers the sum or difference of two doubles is the
    exact result rounded to 53 significant bits, ties to the even
    significand.  [round] is that rounding, for magnitudes below 2^1024
    (from there on a double is [Infinity]); it is the identity up to
    2^53. *)
Module Number.

Definition round (n : Z) : Z :=
  let exponent := Z.max 0 (Z.log2 (Z.abs n) - 52) in
  let ulp := (2 ^ exponent)%Z in
  let q := (n / ulp)%Z in
  let r := (n mod ulp)%Z in
  if (2 * r <? ulp)%Z then (q * ulp)%Z
  else if (ulp <? 2 * r)%Z then ((q + 1) * ulp)%Z
  else if Z.even q then (q * ulp)%Z
  else ((q + 1) * ulp)%Z.

(** [a + b], [a - b] and [a * b] on integer-valued doubles. *)
Definition add (a b : Z) : Z := round (a + b).

Definition sub (a b : Z) : Z := round (a - b).

Definition mul (a b : Z) : Z := round (a * b).

End Number.

(** ** The view counter of a question

    The paths of a question document that [addView] and the view branch of
    [GET /api/questions/:id] read and write ([views], [viewedBy]) and the
    path that decides whether its [save()] is accepted ([closedReason]);
    the vote and accept paths of the same document are in [Question.t].
    Requests are served one after the other, so the document a request
    loads is the stored one and what [save()] stores is the document
    handed to it. *)
Module QuestionViews.

Record View := { user : ObjectId; viewedAt : Date }.

Record t := {
  views : Z;
  viewedBy : list View;
  closedReason : option string
}.

(** A question as created: [views: 0], [viewedBy: []],
    [closedReason: null]. *)
Definition create : t :=
  {| views := 0; viewedBy := []; closedReason := None |}.

(** The validation [save()] runs (see [Question.validate]). *)
Definition validate (this : t) : bool :=
  match closedReason this with
  | Some reason => existsb (String.eqb reason) Question.closedReasonEnum
  | None => false
  end.

(** [questionSchema.methods.addView], up to its [this.save()]: the document
    handed to [save()].  [userId] is [None] for a null or undefined
    argument, [now] the [Date.now] default of the pushed entry. *)
Definition addView (now : Date) (userId : option ObjectId) (this : t) : t :=
  let this :=
    match userId with
    | Some u =>
        if negb (existsb (fun view => equals (user view) u) (viewedBy this))
        then {| views := views this;
                viewedBy :=
                  viewedBy this ++ [{| user := u; viewedAt := now |}];
                closedReason := closedReason this |}
        else this
    | None => this
    end in
  {| views := Z.of_nat (length (viewedBy this)); viewedBy := viewedBy this;
     closedReason := closedReason this |}.

(** [this.save()]: the stored document, or [None] when validation rejects
    with a [ValidationError] and nothing is written. *)
Definition save (this : t) : option t :=
  if validate this then Some this else None.

(** The view branch of [GET /api/questions/:id] on a question the store
    holds: the status answered and the stored document left.  [reqUser] is
    [req.user._id] when [optionalAuth] found a user. *)
Definition recordView (now : Date) (reqUser : option ObjectId)
    (question : t) : nat * t :=
  let viewed :=
    match reqUser with
    | Some u => addView now (Some u) question
    | None =>
        {| views := Number.add (views question) 1;
           viewedBy := viewedBy question;
           closedReason := closedReason question |}
    end in
  match save viewed with
  | Some saved => (200, saved)
  | None => (500, question)
  end.

(** The users recorded as viewers. *)
Definition viewers (this : t) : list ObjectId := List.map user (viewedBy this).

(** The stored question after serving views one after the other. *)
Fixpoint serve (requests : list (Date * option ObjectId))
    (question : t) : t :=
  match requests with
  | [] => question
  | (now, reqUser) :: rest =>
      serve rest (snd (recordView now reqUser question))
  end.

End QuestionViews.

(** ** The usage counters of a tag (server/models/Tag.js) *)
Module Tag.

(** The [usage] sub-document and [lastUsed]; the counters hold integers. *)
Record t := {
  questionCount : Z;
  totalViews : Z;
  weeklyQuestions : Z;
  lastUsed : Date
}.

(** [tagSchema.methods.incrementUsage], up to its [this.save()]; [now] is
    [new Date()]. *)
Definition incrementUsage (now : Date) (this : t) : t :=
  {| questionCount := Number.add (questionCount this) 1;
     totalViews := totalViews this;
     weeklyQuestions := weeklyQuestions this;
     lastUsed := now |}.

(** [tagSchema.methods.decrementUsage]. *)
Definition decrementUsage (this : t) : t :=
  {| questionCount := Z.max 0 (Number.sub (questionCount this) 1);
     totalViews := totalViews this;
     weeklyQuestions := weeklyQuestions this;
     lastUsed := lastUsed this |}.

(** [tagSchema.methods.addViews]; [None] stands for the omitted argument
    ([count = 1]). *)
Definition addViews (count : option Z) (this : t) : t :=
  {| questionCount := questionCount this;
     totalViews :=
       Number.add (totalViews this)
                  match count with Some c => c | None => 1%Z end;
     weeklyQuestions := weeklyQuestions this;
     lastUsed := lastUsed this |}.

(** One call on a tag: a question takes the tag, or a question that had it
    is deleted. *)
Inductive Call : Type :=
| Increment (now : Date)
| Decrement.

Definition call (c : Call) (this : t) : t :=
  match c with
  | Increment now => incrementUsage now this
  | Decrement => decrementUsage this
  end.

End Tag.

(** ** The authorization middleware (server/middleware/auth.js) *)
Module Auth.

(** The paths of [req.user] the middleware reads. *)
Record ReqUser := { _id : ObjectId; role : string; reputation : Z }.

(** What a middleware does: call [next()], answer with a status (the
    message texts are left out), or throw. *)
Inductive Verdict : Type :=
| Next
| Reply (code : nat)
| Raise (name : string).

(** [requireAdmin]. *)
Definition requireAdmin (reqUser : option ReqUser) : Verdict :=
  match reqUser with
  | None => Reply 403
  | Some u => if negb (String.eqb (role u) "admin") then Reply 403 else Next
  end.

(** [requireModerator]. *)
Definition requireModerator (reqUser : option ReqUser) : Verdict :=
  match reqUser with
  | None => Reply 403
  | Some u =>
      if negb (existsb (String.eqb (role u)) ["moderator"; "admin"])
      then Reply 403 else Next
  end.

(** [requireOwnershipOrModerator()] with its default resource field
    ['author']; [resourceAuthor] is [resource.author] of
    [req.resource || req.body], [None] when the resource or the field is
    missing. *)
Definition requireOwnershipOrModerator (resourceAuthor : option ObjectId)
    (reqUser : option ReqUser) : Verdict :=
  if match reqUser with
     | Some u => existsb (String.eqb (role u)) ["admin"; "moderator"]
     | None => false
     end
  then Next
  else
    match resourceAuthor with
    | None => Reply 404
    | Some author =>
        match reqUser with
        | None => Raise "TypeError"
        | Some u =>
            if negb (sameIdString author (_id u)) then Reply 403 else Next
        end
    end.

(** [requireReputation(minReputation)]. *)
Definition requireReputation (minReputation : Z)
    (reqUser : option ReqUser) : Verdict :=
  match reqUser with
  | None => Reply 401
  | Some u =>
      if Z.ltb (reputation u) minReputation then Reply 403 else Next
  end.

End Auth.

(** ** Read state of notifications

    A stored notification: the event [createNotification] received and the
    paths the read, archive and cleanup code uses, [createdAt] being the
    timestamp Mongoose sets.  A collection is the list of its documents. *)
Module Inbox.

Record t := {
  event : Notification.t;
  isRead : bool;
  readAt : option Date;
  isArchived : bool;
  archivedAt : option Date;
  createdAt : Date
}.

(** [notificationSchema.methods.markAsRead]. *)
Definition markAsRead (now : Date) (this : t) : t :=
  {| event := event this; isRead := true; readAt := Some now;
     isArchived := isArchived this; archivedAt := archivedAt this;
     createdAt := createdAt this |}.

(** [notificationSchema.methods.archive]. *)
Definition archive (now : Date) (this : t) : t :=
  {| event := event this; isRead := isRead this; readAt := readAt this;
     isArchived := true; archivedAt := Some now;
     createdAt := createdAt this |}.

(** [notificationSchema.statics.getUnreadCount]:
    [countDocuments({ recipient, isRead: false, isArchived: false })]. *)
Definition getUnreadCount (userId : ObjectId) (collection : list t) : nat :=
  length
    (List.filter
       (fun n =>
          equals (Notification.recipient (event n)) userId
          && negb (isRead n) && negb (isArchived n))
       collection).

(** [notificationSchema.statics.markAllAsReadForUser]:
    [updateMany({ recipient, isRead: false },
                { isRead: true, readAt: new Date() })]. *)
Definition markAllAsReadForUser (now : Date) (userId : ObjectId)
    (collection : list t) : list t :=
  List.map
    (fun n =>
       if equals (Notification.recipient (event n)) userId && negb (isRead n)
       then {| event := event n; isRead := true; readAt := Some now;
               isArchived := isArchived n; archivedAt := archivedAt n;
               createdAt := createdAt n |}
       else n)
    collection.

(** [notificationSchema.statics.cleanupOld]:
    [deleteMany({ createdAt: { $lt: cutoffDate }, isArchived: true })];
    [now] is [Date.now()], [None] stands for the omitted argument
    ([daysOld = 30]).  The collection left and the outcome: the number of
    documents deleted, or the [CastError] of the query when
    [new Date(...)] is an Invalid Date, its argument being beyond
    8.64e15 milliseconds from the epoch; nothing is deleted then. *)
Definition cleanupOld (now : Date) (daysOld : option Z)
    (collection : list t) : list t * Outcome nat :=
  let days := match daysOld with Some d => d | None => 30%Z end in
  let cutoffDate :=
    Number.sub now
      (Number.mul (Number.mul (Number.mul (Number.mul days 24) 60) 60)
                  1000) in
  if (Z.abs cutoffDate <=? 8640000000000000)%Z then
    let kept :=
      List.filter
        (fun n => negb (Z.ltb (createdAt n) cutoffDate && isArchived n))
        collection in
    (kept, Returned (length collection - length kept))
  else (collection, Thrown "CastError").

End Inbox.

(** * Proofs *)

(** ** Vote arrays *)

Lemma equals_spec (a b : ObjectId) : equals a b = true <-> a = b.
Proof. unfold equals. apply N.eqb_eq. Qed.

Lemma equals_false (a b : ObjectId) : equals a b = false <-> a <> b.
Proof. unfold equals. apply N.eqb_neq. Qed.

Lemma in_voters_without (u v : ObjectId) (l : list Vote) :
  In v (voters (without u l)) <-> In v (voters l) /\ v <> u.
Proof.
  unfold voters, without. rewrite !in_map_iff. split.
  - intros [x [Hx Hin]]. apply filter_In in Hin as [Hin Hne].
    apply negb_true_iff, equals_false in Hne. split; [eauto | congruence].
  - intros [[x [Hx Hin]] Hne]. exists x. split; [exact Hx |].
    apply filter_In. split; [exact Hin |].
    apply negb_true_iff, equals_false. congruence.
Qed.

Lemma find_voter_none (u : ObjectId) (l : list Vote) :
  List.find (fun vote => equals (user vote) u) l = None <->
  ~ In u (voters l).
Proof.
  induction l as [| x l IH]; simpl.
  - tauto.
  - destruct (equals (user x) u) eqn:E.
    + apply equals_spec in E. split; [discriminate | tauto].
    + apply equals_false in E. rewrite IH. tauto.
Qed.

Lemma find_voter_some (u : ObjectId) (l : list Vote) (x : Vote) :
  List.find (fun vote => equals (user vote) u) l = Some x ->
  In u (voters l).
Proof.
  intros H. destruct (in_dec N.eq_dec u (voters l)) as [Hin | Hout].
  - exact Hin.
  - apply find_voter_none in Hout. congruence.
Qed.

Lemma without_absent (u : ObjectId) (l : list Vote) :
  ~ In u (voters l) -> without u l = l.
Proof.
  induction l as [| x l IH]; simpl; intros H.
  - reflexivity.
  - destruct (equals (user x) u) eqn:E; simpl.
    + apply equals_spec in E. tauto.
    + f_equal. apply IH. tauto.
Qed.

Lemma without_pushed (now : Date) (u : ObjectId) (l : list Vote) :
  without u (l ++ [{| user := u; createdAt := now |}])%list = without u l.
Proof.
  unfold without. rewrite List.filter_app. simpl.
  replace (equals u u) with true by (symmetry; apply equals_spec; reflexivity).
  simpl. apply app_nil_r.
Qed.

Lemma toggle_absent (now : Date) (u : ObjectId) (l : list Vote) :
  ~ In u (voters l) ->
  toggle now u l = (l ++ [{| user := u; createdAt := now |}])%list.
Proof.
  intros H. unfold toggle. apply find_voter_none in H. rewrite H.
  reflexivity.
Qed.

Lemma toggle_present (now : Date) (u : ObjectId) (l : list Vote) :
  In u (voters l) -> toggle now u l = without u l.
Proof.
  intros H. unfold toggle.
  destruct (List.find _ l) eqn:E; [reflexivity |].
  apply find_voter_none in E. contradiction.
Qed.

Lemma in_voters_toggle (now : Date) (u v : ObjectId) (l : list Vote) :
  In v (voters (toggle now u l)) <->
  (In v (voters l) /\ v <> u) \/ (v = u /\ ~ In u (voters l)).
Proof.
  destruct (in_dec N.eq_dec u (voters l)) as [Hin | Hout].
  - rewrite toggle_present by exact Hin. rewrite in_voters_without. tauto.
  - rewrite toggle_absent by exact Hout. unfold voters.
    rewrite map_app, in_app_iff. simpl. fold (voters l).
    destruct (N.eq_dec v u) as [-> | Hne]; intuition congruence.
Qed.

Lemma exclusive_vote (now : Date) (u : ObjectId) (l other : list Vote) :
  exclusive l other -> exclusive (toggle now u l) (without u other).
Proof.
  intros Hex v Hin Hout. apply in_voters_without in Hout as [Hout Hne].
  apply in_voters_toggle in Hin as [[Hin _] | [-> _]].
  - exact (Hex v Hin Hout).
  - congruence.
Qed.

Lemma exclusive_sym (l other : list Vote) :
  exclusive l other -> exclusive other l.
Proof. intros H u H1 H2. exact (H u H2 H1). Qed.

Lemma without_nodup (u : ObjectId) (l : list Vote) :
  List.NoDup (voters l) -> List.NoDup (voters (without u l)).
Proof.
  induction l as [| x l IH]; simpl; intros Hnd; [constructor |].
  apply List.NoDup_cons_iff in Hnd as [Hx Hnd].
  destruct (equals (user x) u); simpl; [exact (IH Hnd) |].
  constructor; [| exact (IH Hnd)].
  intros Hx'. apply (in_voters_without u (user x) l) in Hx'. tauto.
Qed.

Lemma pushed_nodup (now : Date) (u : ObjectId) (l : list Vote) :
  List.NoDup (voters l) -> ~ In u (voters l) ->
  List.NoDup (voters (l ++ [{| user := u; createdAt := now |}])%list).
Proof.
  induction l as [| x l IH]; simpl; intros Hnd Hout.
  - constructor; [tauto | constructor].
  - apply List.NoDup_cons_iff in Hnd as [Hx Hnd].
    constructor; [| apply IH; tauto].
    unfold voters. rewrite map_app, in_app_iff. simpl.
    fold (voters l). intuition congruence.
Qed.

Lemma toggle_nodup (now : Date) (u : ObjectId) (l : list Vote) :
  List.NoDup (voters l) -> List.NoDup (voters (toggle now u l)).
Proof.
  intros Hnd. destruct (in_dec N.eq_dec u (voters l)) as [Hin | Hout].
  - rewrite toggle_present by exact Hin. apply without_nodup, Hnd.
  - rewrite toggle_absent by exact Hout. apply pushed_nodup; assumption.
Qed.

Lemma without_length (u : ObjectId) (l : list Vote) :
  List.NoDup (voters l) -> In u (voters l) ->
  S (length (without u l)) = length l.
Proof.
  induction l as [| x l IH]; simpl; intros Hnd Hin.
  - contradiction.
  - apply List.NoDup_cons_iff in Hnd as [Hx Hnd].
    destruct (equals (user x) u) eqn:E; simpl.
    + apply equals_spec in E. subst u.
      fold (without (user x) l). rewrite without_absent by exact Hx.
      reflexivity.
    + apply equals_false in E. f_equal. apply IH; [exact Hnd | tauto].
Qed.

Lemma without_pushed_perm (now : Date) (u : ObjectId) (l : list Vote) :
  List.NoDup (voters l) -> In u (voters l) ->
  Permutation
    (voters (without u l ++ [{| user := u; createdAt := now |}])%list)
    (voters l).
Proof.
  intros Hnd Hin. apply Permutation.NoDup_Permutation.
  - apply pushed_nodup; [apply without_nodup, Hnd |].
    rewrite in_voters_without. tauto.
  - exact Hnd.
  - intros v. unfold voters. rewrite map_app, in_app_iff. simpl.
    fold (voters (without u l)) (voters l). rewrite in_voters_without.
    destruct (N.eq_dec v u) as [-> | Hne]; intuition congruence.
Qed.

(** ** The vote methods, path by path *)

Lemma question_addUpvote_paths (now : Date) (u : ObjectId)
    (this : Question.t) :
  Question.upvotes (Question.addUpvote now u this)
    = toggle now u (Question.upvotes this) /\
  Question.downvotes (Question.addUpvote now u this)
    = without u (Question.downvotes this) /\
  Question.votes (Question.addUpvote now u this)
    = (Z.of_nat (length (toggle now u (Question.upvotes this)))
       - Z.of_nat (length (without u (Question.downvotes this))))%Z.
Proof.
  unfold Question.addUpvote, toggle, without. simpl.
  destruct (List.find _ (Question.upvotes this)); simpl; auto.
Qed.

Lemma question_addDownvote_paths (now : Date) (u : ObjectId)
    (this : Question.t) :
  Question.upvotes (Question.addDownvote now u this)
    = without u (Question.upvotes this) /\
  Question.downvotes (Question.addDownvote now u this)
    = toggle now u (Question.downvotes this) /\
  Question.votes (Question.addDownvote now u this)
    = (Z.of_nat (length (without u (Question.upvotes this)))
       - Z.of_nat (length (toggle now u (Question.downvotes this))))%Z.
Proof.
  unfold Question.addDownvote, toggle, without. simpl.
  destruct (List.find _ (Question.downvotes this)); simpl; auto.
Qed.

Lemma answer_addUpvote_paths (now : Date) (u : ObjectId) (this : Answer.t) :
  Answer.upvotes (Answer.addUpvote now u this)
    = toggle now u (Answer.upvotes this) /\
  Answer.downvotes (Answer.addUpvote now u this)
    = without u (Answer.downvotes this) /\
  Answer.votes (Answer.addUpvote now u this)
    = (Z.of_nat (length (toggle now u (Answer.upvotes this)))
       - Z.of_nat (length (without u (Answer.downvotes this))))%Z.
Proof.
  unfold Answer.addUpvote, toggle, without. simpl.
  destruct (List.find _ (Answer.upvotes this)); simpl; auto.
Qed.

Lemma answer_addDownvote_paths (now : Date) (u : ObjectId)
    (this : Answer.t) :
  Answer.upvotes (Answer.addDownvote now u this)
    = without u (Answer.upvotes this) /\
  Answer.downvotes (Answer.addDownvote now u this)
    = toggle now u (Answer.downvotes this) /\
  Answer.votes (Answer.addDownvote now u this)
    = (Z.of_nat (length (without u (Answer.upvotes this)))
       - Z.of_nat (length (toggle now u (Answer.downvotes this))))%Z.
Proof.
  unfold Answer.addDownvote, toggle, without. simpl.
  destruct (List.find _ (Answer.downvotes this)); simpl; auto.
Qed.

Lemma question_call_exclusive (c : VoteCall) (this : Question.t) :
  exclusive (Question.upvotes this) (Question.downvotes this) ->
  exclusive (Question.upvotes (questionCall c this))
            (Question.downvotes (questionCall c this)).
Proof.
  intros H. destruct c as [now u | now u]; cbn [questionCall].
  - destruct (question_addUpvote_paths now u this) as (-> & -> & _).
    apply exclusive_vote. exact H.
  - destruct (question_addDownvote_paths now u this) as (-> & -> & _).
    apply exclusive_sym, exclusive_vote, exclusive_sym. exact H.
Qed.

Lemma answer_call_exclusive (c : VoteCall) (this : Answer.t) :
  exclusive (Answer.upvotes this) (Answer.downvotes this) ->
  exclusive (Answer.upvotes (answerCall c this))
            (Answer.downvotes (answerCall c this)).
Proof.
  intros H. destruct c as [now u | now u]; cbn [answerCall].
  - destruct (answer_addUpvote_paths now u this) as (-> & -> & _).
    apply exclusive_vote. exact H.
  - destruct (answer_addDownvote_paths now u this) as (-> & -> & _).
    apply exclusive_sym, exclusive_vote, exclusive_sym. exact H.
Qed.

Lemma created_exclusive (questionId authorId : ObjectId) :
  exclusive (Question.upvotes (Question.create authorId))
            (Question.downvotes (Question.create authorId)) /\
  exclusive (Answer.upvotes (Answer.create questionId authorId))
            (Answer.downvotes (Answer.create questionId authorId)).
Proof. split; intros u H _; exact H. Qed.

(** ** Invariant I1 *)

Lemma question_states_exclusive (this : Question.t) (calls : list VoteCall) :
  exclusive (Question.upvotes this) (Question.downvotes this) ->
  Forall (fun q => exclusive (Question.upvotes q) (Question.downvotes q))
         (questionStates this calls).
Proof.
  revert this. induction calls as [| c rest IH]; intros this H; simpl.
  - constructor.
  - pose proof (question_call_exclusive c this H) as Hnext.
    constructor; [exact Hnext | exact (IH _ Hnext)].
Qed.

Lemma answer_states_exclusive (this : Answer.t) (calls : list VoteCall) :
  exclusive (Answer.upvotes this) (Answer.downvotes this) ->
  Forall (fun a => exclusive (Answer.upvotes a) (Answer.downvotes a))
         (answerStates this calls).
Proof.
  revert this. induction calls as [| c rest IH]; intros this H; simpl.
  - constructor.
  - pose proof (answer_call_exclusive c this H) as Hnext.
    constructor; [exact Hnext | exact (IH _ Hnext)].
Qed.

(** C1. On a question and on an answer alike, a ledger in which no user
    holds both directions stays so after every call of any sequence of
    [addUpvote] / [addDownvote] calls: each document the sequence produces
    has no user in both [upvotes] and [downvotes].  A document is created
    with both arrays empty, so this holds of every document any sequence of
    calls produces from a newly created question or answer. *)
Theorem vote_directions_exclusive :
  (forall (this : Question.t) (calls : list VoteCall),
      exclusive (Question.upvotes this) (Question.downvotes this) ->
      Forall (fun q => exclusive (Question.upvotes q) (Question.downvotes q))
             (questionStates this calls)) /\
  (forall (this : Answer.t) (calls : list VoteCall),
      exclusive (Answer.upvotes this) (Answer.downvotes this) ->
      Forall (fun a => exclusive (Answer.upvotes a) (Answer.downvotes a))
             (answerStates this calls)) /\
  (forall (authorId : ObjectId) (calls : list VoteCall),
      Forall (fun q => exclusive (Question.upvotes q) (Question.downvotes q))
             (questionStates (Question.create authorId) calls)) /\
  (forall (questionId authorId : ObjectId) (calls : list VoteCall),
      Forall (fun a => exclusive (Answer.upvotes a) (Answer.downvotes a))
             (answerStates (Answer.create questionId authorId) calls)).
Proof.
  split; [exact question_states_exclusive |].
  split; [exact answer_states_exclusive |].
  split.
  - intros authorId calls. apply question_states_exclusive.
    exact (proj1 (created_exclusive authorId authorId)).
  - intros questionId authorId calls. apply answer_states_exclusive.
    exact (proj2 (created_exclusive questionId authorId)).
Qed.

(** User 7 holds a downvote on a question, then upvotes it and user 8
    downvotes it; an answer goes through a downvote and two upvotes of
    user 7. *)
Lemma vote_directions_exclusive_witness :
  Forall (fun q => exclusive (Question.upvotes q) (Question.downvotes q))
         (questionStates (Question.addDownvote 5 7 (Question.create 1))
            [CallUpvote 10 7; CallDownvote 11 8]) /\
  Forall (fun a => exclusive (Answer.upvotes a) (Answer.downvotes a))
         (answerStates (Answer.create 2 1)
            [CallDownvote 10 7; CallUpvote 11 7; CallUpvote 12 7]).
Proof.
  split.
  - apply (proj1 vote_directions_exclusive).
    intros u H Hdown. simpl in H. exact H.
  - apply (proj1 (proj2 vote_directions_exclusive)).
    intros u H Hdown. simpl in H. exact H.
Defined.

(** ** Saving a document nothing else wrote in between *)

Lemma persisted_same {A : Type} `{EqDecision A} (loaded current : A) :
  persisted loaded current loaded = current.
Proof. unfold persisted. destruct (decide (current = loaded)); congruence. Qed.

Lemma question_applyChanges_same (loaded this : Question.t) :
  Question.applyChanges loaded this loaded = this.
Proof.
  unfold Question.applyChanges. rewrite !persisted_same.
  destruct this; reflexivity.
Qed.

Lemma answer_applyChanges_same (loaded this : Answer.t) :
  Answer.applyChanges loaded this loaded = this.
Proof.
  unfold Answer.applyChanges. rewrite !persisted_same.
  destruct this; reflexivity.
Qed.

Lemma user_applyChanges_same (loaded this : User.t) :
  User.applyChanges loaded this loaded = this.
Proof.
  unfold User.applyChanges. rewrite !persisted_same.
  destruct this; reflexivity.
Qed.

Lemma sameIdString_false (a b : ObjectId) :
  a <> b -> sameIdString a b = false.
Proof. intros H. unfold sameIdString. apply N.eqb_neq. exact H. Qed.

Lemma sameIdString_refl (a : ObjectId) : sameIdString a a = true.
Proof. unfold sameIdString. apply N.eqb_refl. Qed.

(** ** Running the routes *)

Lemma run_eta {A : Type} (r : Run A) :
  {| final := final r; history := history r; outcome := outcome r |} = r.
Proof. destruct r; reflexivity. Qed.

Lemma bind_ret {A B : Type} (a : A) (k : A -> Async B) (s : Store) :
  bind (ret a) k s = k a s.
Proof. unfold bind, ret. simpl. apply run_eta. Qed.

Lemma bind_read {A B : Type} (f : Store -> A) (k : A -> Async B)
    (s : Store) :
  bind (read f) k s = k (f s) s.
Proof. unfold bind, read. simpl. apply run_eta. Qed.

Lemma bind_throw {A B : Type} (name : string) (k : A -> Async B)
    (s : Store) :
  bind (throw name) k s = throw name s.
Proof. reflexivity. Qed.

Lemma bind_write {B : Type} (f : Store -> Store) (k : unit -> Async B)
    (s : Store) :
  bind (write f) k s = logged (f s) (k tt (f s)).
Proof. reflexivity. Qed.

Lemma bind_question_save {B : Type} (id : ObjectId)
    (loaded this stored : Question.t) (k : unit -> Async B) (s : Store) :
  Question.validate this = true ->
  questions s !! id = Some stored ->
  bind (QuestionModel.save id loaded this) k s =
  let s' :=
    set_questions
      (<[id := Question.applyChanges loaded this stored]> (questions s)) s in
  logged s' (k tt s').
Proof.
  intros Hv H. unfold bind, QuestionModel.save. rewrite Hv, H. reflexivity.
Qed.

Lemma bind_question_save_invalid {B : Type} (id : ObjectId)
    (loaded this : Question.t) (k : unit -> Async B) (s : Store) :
  Question.validate this = false ->
  bind (QuestionModel.save id loaded this) k s = throw "ValidationError" s.
Proof.
  intros Hv. unfold bind, QuestionModel.save. rewrite Hv. reflexivity.
Qed.

(** No vote method and no assignment of the accept route touches
    [closedReason]: the document handed to [save()] validates exactly when
    the loaded one does. *)
Lemma validate_addUpvote (now : Date) (u : ObjectId) (this : Question.t) :
  Question.validate (Question.addUpvote now u this) = Question.validate this.
Proof.
  unfold Question.addUpvote, Question.validate.
  destruct (List.find _ _); reflexivity.
Qed.

Lemma validate_addDownvote (now : Date) (u : ObjectId) (this : Question.t) :
  Question.validate (Question.addDownvote now u this) = Question.validate this.
Proof.
  unfold Question.addDownvote, Question.validate.
  destruct (List.find _ _); reflexivity.
Qed.

Lemma validate_set_acceptedAnswer (a : option ObjectId) (this : Question.t) :
  Question.validate (Question.preSave (Question.set_acceptedAnswer a this)) =
  Question.validate this.
Proof. reflexivity. Qed.

Lemma bind_answer_save {B : Type} (id : ObjectId)
    (loaded this stored : Answer.t) (k : unit -> Async B) (s : Store) :
  answers s !! id = Some stored ->
  bind (AnswerModel.save id loaded this) k s =
  let s' :=
    set_answers
      (<[id := Answer.applyChanges loaded this stored]> (answers s)) s in
  logged s' (k tt s').
Proof. intros H. unfold bind, AnswerModel.save. rewrite H. reflexivity. Qed.

Lemma bind_answer_update {B : Type} (id : ObjectId)
    (update : Answer.t -> Answer.t) (stored : Answer.t)
    (k : unit -> Async B) (s : Store) :
  answers s !! id = Some stored ->
  bind (AnswerModel.findByIdAndUpdate id update) k s =
  let s' := set_answers (<[id := update stored]> (answers s)) s in
  logged s' (k tt s').
Proof.
  intros H. unfold bind, AnswerModel.findByIdAndUpdate. rewrite H.
  reflexivity.
Qed.

Lemma bind_answer_update_missing {B : Type} (id : ObjectId)
    (update : Answer.t -> Answer.t) (k : unit -> Async B) (s : Store) :
  answers s !! id = None ->
  bind (AnswerModel.findByIdAndUpdate id update) k s = k tt s.
Proof.
  intros H. unfold bind, AnswerModel.findByIdAndUpdate. rewrite H.
  simpl. apply run_eta.
Qed.

Lemma bind_updateReputation {B : Type} (id : ObjectId) (this : User.t)
    (points : Z) (k : unit -> Async B) (s : Store) :
  users s !! id = Some this ->
  bind (UserModel.updateReputation id this points) k s =
  let s' :=
    set_users (<[id := User.updateReputation points this]> (users s)) s in
  logged s' (k tt s').
Proof.
  intros H. unfold bind, UserModel.updateReputation, UserModel.save.
  rewrite H, user_applyChanges_same. reflexivity.
Qed.

Lemma bind_createNotification {B : Type} (data : Notification.t)
    (k : unit -> Async B) (s : Store) :
  Notification.sender data <> Notification.recipient data ->
  bind (NotificationModel.createNotification data) k s =
  let s' := set_notifications (notifications s ++ [data])%list s in
  logged s' (k tt s').
Proof.
  intros H. unfold bind, NotificationModel.createNotification.
  rewrite (sameIdString_false _ _ H). reflexivity.
Qed.

Lemma question_upvote_run (now : Date) (reqUser id : ObjectId) (s : Store)
    (q : Question.t) (a : User.t) :
  questions s !! id = Some q ->
  users s !! Question.author q = Some a ->
  Question.author q <> reqUser ->
  Question.validate q = true ->
  let voted := Question.addUpvote now reqUser q in
  let s1 := set_questions (<[id := voted]> (questions s)) s in
  let s2 :=
    set_notifications
      (notifications s ++
         [{| Notification.recipient := Question.author q;
             Notification.sender := reqUser;
             Notification.type := "upvote";
             Notification.relatedQuestion := Some id;
             Notification.relatedAnswer := None |}])%list s1 in
  let s3 :=
    set_users
      (<[Question.author q := User.updateReputation 5 a]> (users s)) s2 in
  QuestionsRoute.vote now reqUser id "upvote" s =
  {| final := s3; history := [s1; s2; s3];
     outcome :=
       Returned (json 200 "upvote recorded successfully"
                      (Some (Question.votes voted))) |}.
Proof.
  intros Hq Ha Hne Hv. unfold QuestionsRoute.vote, handle.
  cbn [isIn existsb negb orb String.eqb Ascii.eqb Bool.eqb].
  unfold QuestionModel.findById, UserModel.findById.
  rewrite bind_read, Hq, bind_read, Ha, (sameIdString_false _ _ Hne).
  rewrite (bind_question_save _ _ _ q) by (rewrite ?validate_addUpvote, ?validate_addDownvote; assumption).
  rewrite question_applyChanges_same. cbv zeta.
  unfold NotificationModel.notifyUpvote.
  rewrite bind_createNotification by (simpl; congruence).
  cbv zeta.
  rewrite (bind_updateReputation _ a) by exact Ha.
  reflexivity.
Qed.

Lemma question_downvote_run (now : Date) (reqUser id : ObjectId)
    (s : Store) (q : Question.t) (a : User.t) :
  questions s !! id = Some q ->
  users s !! Question.author q = Some a ->
  Question.author q <> reqUser ->
  Question.validate q = true ->
  let voted := Question.addDownvote now reqUser q in
  let s1 := set_questions (<[id := voted]> (questions s)) s in
  let s2 :=
    set_users
      (<[Question.author q := User.updateReputation (-2) a]> (users s)) s1 in
  QuestionsRoute.vote now reqUser id "downvote" s =
  {| final := s2; history := [s1; s2];
     outcome :=
       Returned (json 200 "downvote recorded successfully"
                      (Some (Question.votes voted))) |}.
Proof.
  intros Hq Ha Hne Hv. unfold QuestionsRoute.vote, handle.
  cbn [isIn existsb negb orb String.eqb Ascii.eqb Bool.eqb].
  unfold QuestionModel.findById, UserModel.findById.
  rewrite bind_read, Hq, bind_read, Ha, (sameIdString_false _ _ Hne).
  rewrite (bind_question_save _ _ _ q) by (rewrite ?validate_addUpvote, ?validate_addDownvote; assumption).
  rewrite question_applyChanges_same. cbv zeta.
  rewrite (bind_updateReputation _ a) by exact Ha.
  reflexivity.
Qed.

(** A vote on a question that fails validation: [save()] rejects, the
    route answers 500 and nothing was written. *)
Lemma question_vote_run_invalid (now : Date) (reqUser id : ObjectId)
    (type : string) (s : Store) (q : Question.t) (a : User.t) :
  isIn type ["upvote"; "downvote"] = true ->
  questions s !! id = Some q ->
  users s !! Question.author q = Some a ->
  Question.author q <> reqUser ->
  Question.validate q = false ->
  QuestionsRoute.vote now reqUser id type s =
  {| final := s; history := [];
     outcome := Returned (json 500 "Server error while voting" None) |}.
Proof.
  intros Ht Hq Ha Hne Hv. unfold QuestionsRoute.vote, handle.
  rewrite Ht. cbn [negb].
  unfold QuestionModel.findById, UserModel.findById.
  rewrite bind_read, Hq, bind_read, Ha, (sameIdString_false _ _ Hne).
  destruct (String.eqb type "upvote").
  - rewrite bind_question_save_invalid
      by (rewrite validate_addUpvote; exact Hv).
    reflexivity.
  - rewrite bind_question_save_invalid
      by (rewrite validate_addDownvote; exact Hv).
    reflexivity.
Qed.

Lemma answer_upvote_run (now : Date) (reqUser id : ObjectId) (s : Store)
    (ans : Answer.t) (a : User.t) :
  answers s !! id = Some ans ->
  Answer.isDeleted ans = false ->
  users s !! Answer.author ans = Some a ->
  Answer.author ans <> reqUser ->
  let voted := Answer.addUpvote now reqUser ans in
  let s1 := set_answers (<[id := voted]> (answers s)) s in
  let s2 :=
    set_notifications
      (notifications s ++
         [{| Notification.recipient := Answer.author ans;
             Notification.sender := reqUser;
             Notification.type := "upvote";
             Notification.relatedQuestion := Some (Answer.question ans);
             Notification.relatedAnswer := Some id |}])%list s1 in
  let s3 :=
    set_users
      (<[Answer.author ans := User.updateReputation 10 a]> (users s)) s2 in
  AnswersRoute.vote now reqUser id "upvote" s =
  {| final := s3; history := [s1; s2; s3];
     outcome :=
       Returned (json 200 "upvote recorded successfully"
                      (Some (Answer.votes voted))) |}.
Proof.
  intros Hans Hlive Ha Hne. unfold AnswersRoute.vote, handle.
  cbn [isIn existsb negb orb String.eqb Ascii.eqb Bool.eqb].
  unfold AnswerModel.findById, UserModel.findById.
  rewrite bind_read, Hans, Hlive, bind_read, Ha,
    (sameIdString_false _ _ Hne).
  rewrite (bind_answer_save _ _ _ ans) by exact Hans.
  rewrite answer_applyChanges_same. cbv zeta.
  unfold NotificationModel.notifyUpvote.
  rewrite bind_createNotification by (simpl; congruence).
  cbv zeta.
  rewrite (bind_updateReputation _ a) by exact Ha.
  reflexivity.
Qed.

Lemma answer_downvote_run (now : Date) (reqUser id : ObjectId) (s : Store)
    (ans : Answer.t) (a : User.t) :
  answers s !! id = Some ans ->
  Answer.isDeleted ans = false ->
  users s !! Answer.author ans = Some a ->
  Answer.author ans <> reqUser ->
  let voted := Answer.addDownvote now reqUser ans in
  let s1 := set_answers (<[id := voted]> (answers s)) s in
  let s2 :=
    set_users
      (<[Answer.author ans := User.updateReputation (-2) a]> (users s)) s1 in
  AnswersRoute.vote now reqUser id "downvote" s =
  {| final := s2; history := [s1; s2];
     outcome :=
       Returned (json 200 "downvote recorded successfully"
                      (Some (Answer.votes voted))) |}.
Proof.
  intros Hans Hlive Ha Hne. unfold AnswersRoute.vote, handle.
  cbn [isIn existsb negb orb String.eqb Ascii.eqb Bool.eqb].
  unfold AnswerModel.findById, UserModel.findById.
  rewrite bind_read, Hans, Hlive, bind_read, Ha,
    (sameIdString_false _ _ Hne).
  rewrite (bind_answer_save _ _ _ ans) by exact Hans.
  rewrite answer_applyChanges_same. cbv zeta.
  rewrite (bind_updateReputation _ a) by exact Ha.
  reflexivity.
Qed.

(** ** Invariant I2 *)

Lemma question_vote_history_tallied (now : Date) (reqUser id : ObjectId)
    (type : string) (s s' : Store) (q : Question.t) :
  In s' (history (QuestionsRoute.vote now reqUser id type s)) ->
  questions s' !! id = Some q ->
  tallied (Question.votes q) (Question.upvotes q) (Question.downvotes q).
Proof.
  unfold QuestionsRoute.vote, handle.
  destruct (negb (isIn type ["upvote"; "downvote"])); [simpl; tauto |].
  unfold QuestionModel.findById, UserModel.findById.
  rewrite bind_read.
  destruct (questions s !! id) as [q0 |] eqn:Hq; [| simpl; tauto].
  rewrite bind_read.
  destruct (users s !! Question.author q0) as [a |] eqn:Ha; [| simpl; tauto].
  destruct (sameIdString (Question.author q0) reqUser) eqn:Hself;
    [simpl; tauto |].
  assert (Hne : Question.author q0 <> reqUser).
  { intros E. rewrite E, sameIdString_refl in Hself. discriminate. }
  destruct (Question.validate q0) eqn:Hv.
  2: { destruct (String.eqb type "upvote");
       rewrite bind_question_save_invalid
         by (rewrite ?validate_addUpvote, ?validate_addDownvote; exact Hv);
       simpl; tauto. }
  destruct (String.eqb type "upvote").
  - rewrite (bind_question_save _ _ _ q0)
      by (rewrite ?validate_addUpvote; assumption).
    rewrite question_applyChanges_same. cbv zeta.
    unfold NotificationModel.notifyUpvote.
    rewrite bind_createNotification by (simpl; congruence).
    cbv zeta. rewrite (bind_updateReputation _ a) by exact Ha.
    simpl. intros [<- | [<- | [<- | []]]]; simpl;
      rewrite lookup_insert_eq; intros [= <-]; reflexivity.
  - rewrite (bind_question_save _ _ _ q0)
      by (rewrite ?validate_addDownvote; assumption).
    rewrite question_applyChanges_same. cbv zeta.
    rewrite (bind_updateReputation _ a) by exact Ha.
    simpl. intros [<- | [<- | []]]; simpl;
      rewrite lookup_insert_eq; intros [= <-]; reflexivity.
Qed.

Lemma answer_vote_history_tallied (now : Date) (reqUser id : ObjectId)
    (type : string) (s s' : Store) (ans : Answer.t) :
  In s' (history (AnswersRoute.vote now reqUser id type s)) ->
  answers s' !! id = Some ans ->
  tallied (Answer.votes ans) (Answer.upvotes ans) (Answer.downvotes ans).
Proof.
  unfold AnswersRoute.vote, handle.
  destruct (negb (isIn type ["upvote"; "downvote"])); [simpl; tauto |].
  unfold AnswerModel.findById, UserModel.findById.
  rewrite bind_read.
  destruct (answers s !! id) as [a0 |] eqn:Hans; [| simpl; tauto].
  destruct (Answer.isDeleted a0); [simpl; tauto |].
  rewrite bind_read.
  destruct (users s !! Answer.author a0) as [a |] eqn:Ha; [| simpl; tauto].
  destruct (sameIdString (Answer.author a0) reqUser) eqn:Hself;
    [simpl; tauto |].
  assert (Hne : Answer.author a0 <> reqUser).
  { intros E. rewrite E, sameIdString_refl in Hself. discriminate. }
  destruct (String.eqb type "upvote").
  - rewrite (bind_answer_save _ _ _ a0) by exact Hans.
    rewrite answer_applyChanges_same. cbv zeta.
    unfold NotificationModel.notifyUpvote.
    rewrite bind_createNotification by (simpl; congruence).
    cbv zeta. rewrite (bind_updateReputation _ a) by exact Ha.
    simpl. intros [<- | [<- | [<- | []]]]; simpl;
      rewrite lookup_insert_eq; intros [= <-]; reflexivity.
  - rewrite (bind_answer_save _ _ _ a0) by exact Hans.
    rewrite answer_applyChanges_same. cbv zeta.
    rewrite (bind_updateReputation _ a) by exact Ha.
    simpl. intros [<- | [<- | []]]; simpl;
      rewrite lookup_insert_eq; intros [= <-]; reflexivity.
Qed.

(** C2. The document [addUpvote] / [addDownvote] hands to the store has
    [votes] equal to the number of upvotes minus the number of downvotes,
    whatever document the method started from; and in every store a vote
    request persists on its way (after the save of the content, after the
    notification, after the reputation update) the voted question or answer
    satisfies the same equation. *)
Theorem tally_matches_ledger :
  (forall (now : Date) (userId : ObjectId) (this : Question.t),
      let up := Question.addUpvote now userId this in
      let down := Question.addDownvote now userId this in
      tallied (Question.votes up) (Question.upvotes up)
              (Question.downvotes up) /\
      tallied (Question.votes down) (Question.upvotes down)
              (Question.downvotes down)) /\
  (forall (now : Date) (userId : ObjectId) (this : Answer.t),
      let up := Answer.addUpvote now userId this in
      let down := Answer.addDownvote now userId this in
      tallied (Answer.votes up) (Answer.upvotes up) (Answer.downvotes up) /\
      tallied (Answer.votes down) (Answer.upvotes down)
              (Answer.downvotes down)) /\
  (forall (now : Date) (reqUser id : ObjectId) (type : string)
          (s s' : Store) (q : Question.t),
      In s' (history (QuestionsRoute.vote now reqUser id type s)) ->
      questions s' !! id = Some q ->
      tallied (Question.votes q) (Question.upvotes q)
              (Question.downvotes q)) /\
  (forall (now : Date) (reqUser id : ObjectId) (type : string)
          (s s' : Store) (a : Answer.t),
      In s' (history (AnswersRoute.vote now reqUser id type s)) ->
      answers s' !! id = Some a ->
      tallied (Answer.votes a) (Answer.upvotes a) (Answer.downvotes a)).
Proof.
  split; [| split; [| split]].
  - intros now u this. split; reflexivity.
  - intros now u this. split; reflexivity.
  - exact question_vote_history_tallied.
  - exact answer_vote_history_tallied.
Qed.

(** After user 3 upvotes question 10 of the sample store, the stored
    question has one upvote and tally 1. *)
Lemma tally_matches_ledger_witness :
  tallied 1 [{| user := 3; createdAt := 50 |}] [].
Proof.
  apply (proj1 (proj2 (proj2 tally_matches_ledger)) 50%Z 3%N 10%N "upvote"
           sampleStore
           (final (QuestionsRoute.vote 50 3 10 "upvote" sampleStore))
           (Question.addUpvote 50 3 question10)).
  - vm_compute. right. right. left. reflexivity.
  - vm_compute. reflexivity.
Defined.

(** ** The reputation delta of an accepted vote request *)

(** C3. A vote request that passes the checks of its route (a well-formed
    type, content the store holds, an answer not deleted, an author who is a
    registered user other than the voter) is served as follows.  On an
    answer, and on a question whose [closedReason] is a listed value, it
    answers 200 and leaves the users collection as it was except for the
    author, whose document went through [updateReputation] exactly once,
    with +5 for a question upvote, +10 for an answer upvote and -2 for a
    downvote of either; nothing is assumed about the ledger, so this covers
    a fresh vote, a switch of direction and a toggle-off alike.  On a
    question that fails validation the [save()] of the vote method rejects:
    the route answers 500, records no vote and applies no delta; and every
    question is created with a [closedReason] that fails validation. *)
Theorem accepted_vote_applies_one_delta :
  (forall (now : Date) (reqUser id : ObjectId) (type : string) (s : Store)
          (q : Question.t) (a : User.t),
      type = "upvote" \/ type = "downvote" ->
      questions s !! id = Some q ->
      users s !! Question.author q = Some a ->
      Question.author q <> reqUser ->
      let r := QuestionsRoute.vote now reqUser id type s in
      let delta := if String.eqb type "upvote" then 5%Z else (-2)%Z in
      (Question.validate q = true ->
       (exists body, outcome r = Returned body /\ status body = 200) /\
       users (final r)
         = <[Question.author q := User.updateReputation delta a]> (users s) /\
       User.reputation (User.updateReputation delta a)
         = (User.reputation a + delta)%Z) /\
      (Question.validate q = false ->
       r = {| final := s; history := [];
              outcome :=
                Returned (json 500 "Server error while voting" None) |})) /\
  (forall authorId : ObjectId,
      Question.validate (Question.create authorId) = false) /\
  (forall (now : Date) (reqUser id : ObjectId) (type : string) (s : Store)
          (ans : Answer.t) (a : User.t),
      type = "upvote" \/ type = "downvote" ->
      answers s !! id = Some ans ->
      Answer.isDeleted ans = false ->
      users s !! Answer.author ans = Some a ->
      Answer.author ans <> reqUser ->
      let r := AnswersRoute.vote now reqUser id type s in
      let delta := if String.eqb type "upvote" then 10%Z else (-2)%Z in
      (exists body, outcome r = Returned body /\ status body = 200) /\
      users (final r)
        = <[Answer.author ans := User.updateReputation delta a]> (users s) /\
      User.reputation (User.updateReputation delta a)
        = (User.reputation a + delta)%Z).
Proof.
  split; [| split].
  - intros now reqUser id type s q a Ht Hq Ha Hne; cbv zeta. split.
    + intros Hv. destruct Ht as [-> | ->].
      * rewrite (question_upvote_run now reqUser id s q a Hq Ha Hne Hv).
        simpl. split; [eexists; split; reflexivity | split; reflexivity].
      * rewrite (question_downvote_run now reqUser id s q a Hq Ha Hne Hv).
        simpl. split; [eexists; split; reflexivity | split; reflexivity].
    + intros Hv.
      apply (question_vote_run_invalid now reqUser id type s q a);
        try assumption.
      destruct Ht as [-> | ->]; reflexivity.
  - intros authorId. reflexivity.
  - intros now reqUser id type s ans a [-> | ->] Hans Hlive Ha Hne; cbv zeta.
    + rewrite (answer_upvote_run now reqUser id s ans a Hans Hlive Ha Hne).
      simpl. split; [eexists; split; reflexivity | split; reflexivity].
    + rewrite (answer_downvote_run now reqUser id s ans a Hans Hlive Ha Hne).
      simpl. split; [eexists; split; reflexivity | split; reflexivity].
Qed.

(** User 3 upvotes question 10 of the sample store twice: the second
    request toggles the vote off and the author's score still rises by 5,
    to 10.  The same user upvotes question 10 as it was created
    ([defaultStore]): answered 500, the store is as it was. *)
Lemma accepted_vote_applies_one_delta_witness :
  (let s1 := final (QuestionsRoute.vote 50 3 10 "upvote" sampleStore) in
   let r := QuestionsRoute.vote 51 3 10 "upvote" s1 in
   (questions (final r) !! 10%N = Some question10) /\
   users (final r)
   = <[1%N := {| User.username := "asker"; User.reputation := 10 |}]>
       (users s1)) /\
  QuestionsRoute.vote 50 3 10 "upvote" defaultStore
  = {| final := defaultStore; history := [];
       outcome := Returned (json 500 "Server error while voting" None) |}.
Proof.
  cbv zeta. split; [split |].
  - vm_compute. reflexivity.
  - apply (proj1 (proj1 accepted_vote_applies_one_delta 51%Z 3%N 10%N "upvote"
             (final (QuestionsRoute.vote 50 3 10 "upvote" sampleStore))
             (Question.addUpvote 50 3 question10)
             {| User.username := "asker"; User.reputation := 5 |}
             (or_introl eq_refl) eq_refl eq_refl
             ltac:(vm_compute; discriminate))).
    reflexivity.
  - apply (proj2 (proj1 accepted_vote_applies_one_delta 50%Z 3%N 10%N "upvote"
             defaultStore defaultQuestion10
             {| User.username := "asker"; User.reputation := 0 |}
             (or_introl eq_refl) eq_refl eq_refl
             ltac:(vm_compute; discriminate))).
    reflexivity.
Defined.

(** ** Rejected requests *)

(** C6. A vote request by the author of an existing question (an existing,
    not deleted answer) answers 400, "You cannot vote on your own ..." for a
    well-formed vote type, and performs no write: the store it leaves is the
    store it found, so the ledger, the tally and every score are unchanged. *)
Theorem self_vote_rejected :
  (forall (now : Date) (id : ObjectId) (type : string) (s : Store)
          (q : Question.t) (a : User.t),
      questions s !! id = Some q ->
      users s !! Question.author q = Some a ->
      QuestionsRoute.vote now (Question.author q) id type s =
      {| final := s; history := [];
         outcome :=
           Returned
             (json 400
                (if isIn type ["upvote"; "downvote"]
                 then "You cannot vote on your own question"
                 else "Validation failed") None) |}) /\
  (forall (now : Date) (id : ObjectId) (type : string) (s : Store)
          (ans : Answer.t) (a : User.t),
      answers s !! id = Some ans ->
      Answer.isDeleted ans = false ->
      users s !! Answer.author ans = Some a ->
      AnswersRoute.vote now (Answer.author ans) id type s =
      {| final := s; history := [];
         outcome :=
           Returned
             (json 400
                (if isIn type ["upvote"; "downvote"]
                 then "You cannot vote on your own answer"
                 else "Validation failed") None) |}).
Proof.
  split.
  - intros now id type s q a Hq Ha. unfold QuestionsRoute.vote, handle.
    destruct (isIn type ["upvote"; "downvote"]); [| reflexivity].
    unfold QuestionModel.findById, UserModel.findById. cbn [negb].
    rewrite bind_read, Hq, bind_read, Ha, sameIdString_refl. reflexivity.
  - intros now id type s ans a Hans Hlive Ha. unfold AnswersRoute.vote, handle.
    destruct (isIn type ["upvote"; "downvote"]); [| reflexivity].
    unfold AnswerModel.findById, UserModel.findById. cbn [negb].
    rewrite bind_read, Hans, Hlive, bind_read, Ha, sameIdString_refl.
    reflexivity.
Qed.

(** User 1 tries to upvote their own question 10; user 2 tries to downvote
    their own answer 20. *)
Lemma self_vote_rejected_witness :
  QuestionsRoute.vote 50 1 10 "upvote" sampleStore =
  {| final := sampleStore; history := [];
     outcome :=
       Returned (json 400 "You cannot vote on your own question" None) |} /\
  AnswersRoute.vote 50 2 20 "downvote" sampleStore =
  {| final := sampleStore; history := [];
     outcome :=
       Returned (json 400 "You cannot vote on your own answer" None) |}.
Proof.
  split.
  - apply (proj1 self_vote_rejected 50%Z 10%N "upvote" sampleStore question10
             {| User.username := "asker"; User.reputation := 0 |}).
    + vm_compute. reflexivity.
    + vm_compute. reflexivity.
  - apply (proj2 self_vote_rejected 50%Z 20%N "downvote" sampleStore
             acceptedAnswer20
             {| User.username := "first"; User.reputation := 0 |}).
    + vm_compute. reflexivity.
    + reflexivity.
    + vm_compute. reflexivity.
Defined.

(** C8. An accept request for an existing, not deleted answer whose question
    exists and was asked by someone other than the requester answers 403 and
    performs no write: no accepted flag, no accepted-answer pointer and no
    score changes. *)
Theorem accept_by_non_author_forbidden :
  forall (now : Date) (reqUser id : ObjectId) (s : Store)
         (ans : Answer.t) (q : Question.t),
    answers s !! id = Some ans ->
    Answer.isDeleted ans = false ->
    questions s !! Answer.question ans = Some q ->
    Question.author q <> reqUser ->
    AnswersRoute.accept now reqUser id s =
    {| final := s; history := [];
       outcome :=
         Returned
           (json 403 "Only the question author can accept answers" None) |}.
Proof.
  intros now reqUser id s ans q Hans Hlive Hq Hne.
  unfold AnswersRoute.accept, handle.
  unfold AnswerModel.findById, UserModel.findById, QuestionModel.findById.
  rewrite bind_read, Hans, Hlive, bind_read, bind_read, Hq.
  rewrite (sameIdString_false _ _ Hne). reflexivity.
Qed.

(** User 3, who did not ask question 10, tries to accept answer 21. *)
Lemma accept_by_non_author_forbidden_witness :
  AnswersRoute.accept 50 3 21 sampleStore =
  {| final := sampleStore; history := [];
     outcome :=
       Returned
         (json 403 "Only the question author can accept answers" None) |}.
Proof.
  apply (accept_by_non_author_forbidden 50%Z 3%N 21%N sampleStore
           (Answer.create 10 3) question10).
  - vm_compute. reflexivity.
  - reflexivity.
  - vm_compute. reflexivity.
  - vm_compute. discriminate.
Defined.

(** ** Voting on a closed question *)

(** C9, as stated, fails: user 3 upvotes the closed question 10 of
    [closedStore]; the request is not answered 400 with the store left as
    it was. *)
Lemma vote_on_closed_question_counterexample :
  Question.isClosed closedQuestion10 = true /\
  questions closedStore !! 10%N = Some closedQuestion10 /\
  ~ (let r := QuestionsRoute.vote 50 3 10 "upvote" closedStore in
     (exists body, outcome r = Returned body /\ status body = 400) /\
     final r = closedStore).
Proof.
  split; [reflexivity | split; [vm_compute; reflexivity |]].
  cbv zeta. intros [[body [Hbody Hstatus]] _].
  vm_compute in Hbody. injection Hbody as <-. discriminate Hstatus.
Qed.

(** C9, amended. The vote route does not consult [isClosed]: a vote request
    (upvote or downvote) on a closed question whose [closedReason] is one of
    the listed values and whose author is a registered user other than the
    voter is answered 200 like on an open one; the stored question becomes
    the document the vote method returned (still closed), the answer
    carries its new tally, and the author's score receives the delta of the
    direction. *)
Theorem vote_on_closed_question_applied :
  forall (now : Date) (reqUser id : ObjectId) (type : string) (s : Store)
         (q : Question.t) (a : User.t),
    Question.isClosed q = true ->
    Question.validate q = true ->
    type = "upvote" \/ type = "downvote" ->
    questions s !! id = Some q ->
    users s !! Question.author q = Some a ->
    Question.author q <> reqUser ->
    let r := QuestionsRoute.vote now reqUser id type s in
    let voted :=
      if String.eqb type "upvote" then Question.addUpvote now reqUser q
      else Question.addDownvote now reqUser q in
    let delta := if String.eqb type "upvote" then 5%Z else (-2)%Z in
    outcome r
      = Returned (json 200 (type ++ " recorded successfully")
                       (Some (Question.votes voted))) /\
    questions (final r) = <[id := voted]> (questions s) /\
    Question.isClosed voted = true /\
    users (final r)
      = <[Question.author q := User.updateReputation delta a]> (users s).
Proof.
  intros now reqUser id type s q a Hclosed Hv [-> | ->] Hq Ha Hne; cbv zeta.
  - rewrite (question_upvote_run now reqUser id s q a Hq Ha Hne Hv). simpl.
    repeat split; try reflexivity.
    unfold Question.addUpvote. simpl.
    destruct (List.find _ (Question.upvotes q)); exact Hclosed.
  - rewrite (question_downvote_run now reqUser id s q a Hq Ha Hne Hv). simpl.
    repeat split; try reflexivity.
    unfold Question.addDownvote. simpl.
    destruct (List.find _ (Question.downvotes q)); exact Hclosed.
Qed.

(** User 3 upvotes the closed question 10: answered 200 with tally 1. *)
Lemma vote_on_closed_question_applied_witness :
  outcome (QuestionsRoute.vote 50 3 10 "upvote" closedStore)
  = Returned (json 200 "upvote recorded successfully" (Some 1%Z)).
Proof.
  apply (vote_on_closed_question_applied 50%Z 3%N 10%N "upvote" closedStore
           closedQuestion10
           {| User.username := "asker"; User.reputation := 0 |}).
  - reflexivity.
  - reflexivity.
  - left. reflexivity.
  - vm_compute. reflexivity.
  - vm_compute. reflexivity.
  - vm_compute. discriminate.
Defined.

(** ** Ledgers the vote methods build

    The hypotheses the next results put on a ledger (no user twice in an
    array, [votes] in step with the arrays) hold of every document the vote
    methods produce from a created one. *)

Lemma question_call_nodup (c : VoteCall) (this : Question.t) :
  List.NoDup (voters (Question.upvotes this)) ->
  List.NoDup (voters (Question.downvotes this)) ->
  List.NoDup (voters (Question.upvotes (questionCall c this))) /\
  List.NoDup (voters (Question.downvotes (questionCall c this))) /\
  tallied (Question.votes (questionCall c this))
          (Question.upvotes (questionCall c this))
          (Question.downvotes (questionCall c this)).
Proof.
  intros Hup Hdown. destruct c as [now u | now u]; cbn [questionCall].
  - destruct (question_addUpvote_paths now u this) as (-> & -> & ->).
    repeat split; [apply toggle_nodup | apply without_nodup]; assumption.
  - destruct (question_addDownvote_paths now u this) as (-> & -> & ->).
    repeat split; [apply without_nodup | apply toggle_nodup]; assumption.
Qed.

Lemma answer_call_nodup (c : VoteCall) (this : Answer.t) :
  List.NoDup (voters (Answer.upvotes this)) ->
  List.NoDup (voters (Answer.downvotes this)) ->
  List.NoDup (voters (Answer.upvotes (answerCall c this))) /\
  List.NoDup (voters (Answer.downvotes (answerCall c this))) /\
  tallied (Answer.votes (answerCall c this))
          (Answer.upvotes (answerCall c this))
          (Answer.downvotes (answerCall c this)).
Proof.
  intros Hup Hdown. destruct c as [now u | now u]; cbn [answerCall].
  - destruct (answer_addUpvote_paths now u this) as (-> & -> & ->).
    repeat split; [apply toggle_nodup | apply without_nodup]; assumption.
  - destruct (answer_addDownvote_paths now u this) as (-> & -> & ->).
    repeat split; [apply without_nodup | apply toggle_nodup]; assumption.
Qed.

Lemma question_states_well_formed (this : Question.t)
    (calls : list VoteCall) :
  List.NoDup (voters (Question.upvotes this)) ->
  List.NoDup (voters (Question.downvotes this)) ->
  Forall (fun q =>
            List.NoDup (voters (Question.upvotes q)) /\
            List.NoDup (voters (Question.downvotes q)) /\
            tallied (Question.votes q) (Question.upvotes q)
                    (Question.downvotes q))
         (questionStates this calls).
Proof.
  revert this. induction calls as [| c rest IH]; intros this Hup Hdown; simpl.
  - constructor.
  - pose proof (question_call_nodup c this Hup Hdown) as Hnext.
    constructor; [exact Hnext |]. apply IH; tauto.
Qed.

Lemma answer_states_well_formed (this : Answer.t) (calls : list VoteCall) :
  List.NoDup (voters (Answer.upvotes this)) ->
  List.NoDup (voters (Answer.downvotes this)) ->
  Forall (fun a =>
            List.NoDup (voters (Answer.upvotes a)) /\
            List.NoDup (voters (Answer.downvotes a)) /\
            tallied (Answer.votes a) (Answer.upvotes a)
                    (Answer.downvotes a))
         (answerStates this calls).
Proof.
  revert this. induction calls as [| c rest IH]; intros this Hup Hdown; simpl.
  - constructor.
  - pose proof (answer_call_nodup c this Hup Hdown) as Hnext.
    constructor; [exact Hnext |]. apply IH; tauto.
Qed.

Lemma created_states_well_formed (questionId authorId : ObjectId)
    (calls : list VoteCall) :
  Forall (fun q =>
            List.NoDup (voters (Question.upvotes q)) /\
            List.NoDup (voters (Question.downvotes q)) /\
            tallied (Question.votes q) (Question.upvotes q)
                    (Question.downvotes q))
         (questionStates (Question.create authorId) calls) /\
  Forall (fun a =>
            List.NoDup (voters (Answer.upvotes a)) /\
            List.NoDup (voters (Answer.downvotes a)) /\
            tallied (Answer.votes a) (Answer.upvotes a)
                    (Answer.downvotes a))
         (answerStates (Answer.create questionId authorId) calls).
Proof.
  split.
  - apply question_states_well_formed; constructor.
  - apply answer_states_well_formed; constructor.
Qed.

(** ** Two calls in a row *)

Lemma not_in_without (u : ObjectId) (l : list Vote) :
  ~ In u (voters (without u l)).
Proof. rewrite in_voters_without. tauto. Qed.

Lemma toggle_twice (now1 now2 : Date) (u : ObjectId) (l : list Vote) :
  List.NoDup (voters l) ->
  Permutation (voters (toggle now2 u (toggle now1 u l))) (voters l) /\
  length (toggle now2 u (toggle now1 u l)) = length l.
Proof.
  intros Hnd. destruct (in_dec N.eq_dec u (voters l)) as [Hin | Hout].
  - rewrite (toggle_present now1) by exact Hin.
    rewrite toggle_absent by apply not_in_without. split.
    + apply without_pushed_perm; assumption.
    + rewrite length_app. simpl.
      rewrite <- (without_length u l Hnd Hin). lia.
  - rewrite (toggle_absent now1) by exact Hout.
    rewrite toggle_present.
    + rewrite without_pushed, without_absent by exact Hout.
      split; reflexivity.
    + unfold voters. rewrite map_app, in_app_iff. simpl. tauto.
Qed.

Lemma without_twice (u : ObjectId) (l : list Vote) :
  without u (without u l) = without u l.
Proof. apply without_absent, not_in_without. Qed.

(** C4, as stated, fails: user 7 (not the author, user 1) holds a downvote
    on a question; two [addUpvote] calls in a row leave the question with
    no vote of user 7 and tally 0, not with the downvote and tally -1 it
    had. *)
Lemma upvote_twice_counterexample :
  let this := Question.addDownvote 5 7 (Question.create 1) in
  let twice := Question.addUpvote 11 7 (Question.addUpvote 10 7 this) in
  7%N <> Question.author this /\
  ~ (Permutation (voters (Question.upvotes twice))
                 (voters (Question.upvotes this)) /\
     Permutation (voters (Question.downvotes twice))
                 (voters (Question.downvotes this)) /\
     Question.votes twice = Question.votes this).
Proof.
  cbv zeta. split; [discriminate |].
  intros (_ & _ & H). vm_compute in H. discriminate H.
Qed.

(** C4, amended. On a question or an answer whose [upvotes] list no user
    twice and whose [votes] equals upvotes minus downvotes, for a user [u]
    who holds no downvote, two [addUpvote(u)] calls in a row leave the same
    upvoters (as a set: a vote [u] held before moves to the end of the
    array), the same [downvotes] array and the same [votes].  For a user
    [u] who holds a downvote, the first call removes it and the second does
    not restore it: [u] is among the downvoters neither after one call nor
    after two, so the downvoters are not the ones before the first call. *)
Theorem upvote_twice_restores :
  (forall (now1 now2 : Date) (u : ObjectId) (this : Question.t),
      let once := Question.addUpvote now1 u this in
      let twice := Question.addUpvote now2 u once in
      (~ In u (voters (Question.downvotes this)) ->
       List.NoDup (voters (Question.upvotes this)) ->
       tallied (Question.votes this) (Question.upvotes this)
               (Question.downvotes this) ->
       Permutation (voters (Question.upvotes twice))
                   (voters (Question.upvotes this)) /\
       Question.downvotes twice = Question.downvotes this /\
       Question.votes twice = Question.votes this) /\
      (In u (voters (Question.downvotes this)) ->
       ~ In u (voters (Question.downvotes once)) /\
       ~ In u (voters (Question.downvotes twice)) /\
       ~ Permutation (voters (Question.downvotes twice))
                     (voters (Question.downvotes this)))) /\
  (forall (now1 now2 : Date) (u : ObjectId) (this : Answer.t),
      let once := Answer.addUpvote now1 u this in
      let twice := Answer.addUpvote now2 u once in
      (~ In u (voters (Answer.downvotes this)) ->
       List.NoDup (voters (Answer.upvotes this)) ->
       tallied (Answer.votes this) (Answer.upvotes this)
               (Answer.downvotes this) ->
       Permutation (voters (Answer.upvotes twice))
                   (voters (Answer.upvotes this)) /\
       Answer.downvotes twice = Answer.downvotes this /\
       Answer.votes twice = Answer.votes this) /\
      (In u (voters (Answer.downvotes this)) ->
       ~ In u (voters (Answer.downvotes once)) /\
       ~ In u (voters (Answer.downvotes twice)) /\
       ~ Permutation (voters (Answer.downvotes twice))
                     (voters (Answer.downvotes this)))).
Proof.
  split.
  - intros now1 now2 u this. cbv zeta.
    destruct (question_addUpvote_paths now2 u
                (Question.addUpvote now1 u this)) as (-> & -> & ->).
    destruct (question_addUpvote_paths now1 u this) as (-> & -> & _).
    split.
    + intros Hout Hnd Htally.
      rewrite without_twice, (without_absent u _ Hout).
      destruct (toggle_twice now1 now2 u _ Hnd) as [Hperm Hlen].
      rewrite Hlen. repeat split; [exact Hperm | symmetry; exact Htally].
    + intros Hin. split; [apply not_in_without |].
      split; [apply not_in_without |].
      intros Hperm. apply (not_in_without u (without u (Question.downvotes this))).
      apply (Permutation_in _ (Permutation_sym Hperm)). exact Hin.
  - intros now1 now2 u this. cbv zeta.
    destruct (answer_addUpvote_paths now2 u
                (Answer.addUpvote now1 u this)) as (-> & -> & ->).
    destruct (answer_addUpvote_paths now1 u this) as (-> & -> & _).
    split.
    + intros Hout Hnd Htally.
      rewrite without_twice, (without_absent u _ Hout).
      destruct (toggle_twice now1 now2 u _ Hnd) as [Hperm Hlen].
      rewrite Hlen. repeat split; [exact Hperm | symmetry; exact Htally].
    + intros Hin. split; [apply not_in_without |].
      split; [apply not_in_without |].
      intros Hperm. apply (not_in_without u (without u (Answer.downvotes this))).
      apply (Permutation_in _ (Permutation_sym Hperm)). exact Hin.
Qed.

(** User 7 upvotes a fresh question twice; user 7, who already upvoted an
    answer, upvotes it twice more; user 7, who holds a downvote on a
    question, upvotes it twice and is left without a vote. *)
Lemma upvote_twice_restores_witness :
  (let this := Question.create 1 in
   let twice := Question.addUpvote 11 7 (Question.addUpvote 10 7 this) in
   Permutation (voters (Question.upvotes twice))
               (voters (Question.upvotes this)) /\
   Question.downvotes twice = Question.downvotes this /\
   Question.votes twice = Question.votes this) /\
  (let this := Answer.addUpvote 5 7 (Answer.create 10 2) in
   let twice := Answer.addUpvote 11 7 (Answer.addUpvote 10 7 this) in
   Permutation (voters (Answer.upvotes twice))
               (voters (Answer.upvotes this)) /\
   Answer.downvotes twice = Answer.downvotes this /\
   Answer.votes twice = Answer.votes this) /\
  (let this := Question.addDownvote 5 7 (Question.create 1) in
   let once := Question.addUpvote 10 7 this in
   let twice := Question.addUpvote 11 7 once in
   ~ In 7%N (voters (Question.downvotes once)) /\
   ~ In 7%N (voters (Question.downvotes twice)) /\
   ~ Permutation (voters (Question.downvotes twice))
                 (voters (Question.downvotes this))).
Proof.
  split; [| split].
  - apply (proj1 (proj1 upvote_twice_restores 10%Z 11%Z 7%N
                    (Question.create 1))).
    + simpl. tauto.
    + constructor.
    + reflexivity.
  - apply (proj1 (proj2 upvote_twice_restores 10%Z 11%Z 7%N
                    (Answer.addUpvote 5 7 (Answer.create 10 2)))).
    + simpl. tauto.
    + repeat constructor. simpl. tauto.
    + reflexivity.
  - apply (proj2 (proj1 upvote_twice_restores 10%Z 11%Z 7%N
                    (Question.addDownvote 5 7 (Question.create 1)))).
    simpl. tauto.
Defined.

Lemma upvote_then_downvote_lists (now1 now2 : Date) (u : ObjectId)
    (up down : list Vote) :
  In u (voters (toggle now2 u (without u down))) /\
  ~ In u (voters (without u (toggle now1 u up))) /\
  (~ In u (voters up) -> ~ In u (voters down) ->
   length (without u (toggle now1 u up)) = length up /\
   length (toggle now1 u up) = S (length up) /\
   without u down = down /\
   length (toggle now2 u (without u down)) = S (length down)).
Proof.
  split; [| split].
  - rewrite in_voters_toggle. right. split; [reflexivity |].
    apply not_in_without.
  - apply not_in_without.
  - intros Hup Hdown.
    rewrite (toggle_absent now1 u up Hup), without_pushed.
    rewrite (without_absent u up Hup), (without_absent u down Hdown).
    rewrite (toggle_absent now2 u down Hdown), !length_app. simpl.
    repeat split; lia.
Qed.

(** C5, as stated, fails: user 7 already holds an upvote on a question with
    tally 1; [addUpvote(7)] (a toggle-off) then [addDownvote(7)] leave the
    tally at -1, two below the tally before the first call, not one. *)
Lemma upvote_then_downvote_counterexample :
  let this := Question.addUpvote 5 7 (Question.create 1) in
  let after := Question.addDownvote 11 7 (Question.addUpvote 10 7 this) in
  ~ (In 7%N (voters (Question.downvotes after)) /\
     ~ In 7%N (voters (Question.upvotes after)) /\
     Question.votes after = (Question.votes this - 1)%Z).
Proof.
  cbv zeta. intros (_ & _ & H). vm_compute in H. discriminate H.
Qed.

(** C5, amended. On a question or an answer, after [addUpvote(u)] then
    [addDownvote(u)] the user [u] is among the downvoters and not among the
    upvoters, whatever the ledger was; if moreover [u] held no vote before
    the first call and [votes] then equalled upvotes minus downvotes, [votes]
    ends one below that baseline and two below its value after the
    upvote. *)
Theorem upvote_then_downvote :
  (forall (now1 now2 : Date) (u : ObjectId) (this : Question.t),
      let upvoted := Question.addUpvote now1 u this in
      let after := Question.addDownvote now2 u upvoted in
      In u (voters (Question.downvotes after)) /\
      ~ In u (voters (Question.upvotes after)) /\
      (~ In u (voters (Question.upvotes this)) ->
       ~ In u (voters (Question.downvotes this)) ->
       tallied (Question.votes this) (Question.upvotes this)
               (Question.downvotes this) ->
       Question.votes after = (Question.votes this - 1)%Z /\
       Question.votes after = (Question.votes upvoted - 2)%Z)) /\
  (forall (now1 now2 : Date) (u : ObjectId) (this : Answer.t),
      let upvoted := Answer.addUpvote now1 u this in
      let after := Answer.addDownvote now2 u upvoted in
      In u (voters (Answer.downvotes after)) /\
      ~ In u (voters (Answer.upvotes after)) /\
      (~ In u (voters (Answer.upvotes this)) ->
       ~ In u (voters (Answer.downvotes this)) ->
       tallied (Answer.votes this) (Answer.upvotes this)
               (Answer.downvotes this) ->
       Answer.votes after = (Answer.votes this - 1)%Z /\
       Answer.votes after = (Answer.votes upvoted - 2)%Z)).
Proof.
  split.
  - intros now1 now2 u this. cbv zeta.
    destruct (question_addDownvote_paths now2 u
                (Question.addUpvote now1 u this)) as (-> & -> & ->).
    destruct (question_addUpvote_paths now1 u this) as (-> & -> & ->).
    destruct (upvote_then_downvote_lists now1 now2 u
                (Question.upvotes this) (Question.downvotes this))
      as (Hin & Hout & Hlen).
    split; [exact Hin | split; [exact Hout |]].
    intros Hup Hdown Htally.
    destruct (Hlen Hup Hdown) as (H1 & H2 & H3 & H4).
    rewrite H1, H2, H4, H3. unfold tallied in Htally. lia.
  - intros now1 now2 u this. cbv zeta.
    destruct (answer_addDownvote_paths now2 u
                (Answer.addUpvote now1 u this)) as (-> & -> & ->).
    destruct (answer_addUpvote_paths now1 u this) as (-> & -> & ->).
    destruct (upvote_then_downvote_lists now1 now2 u
                (Answer.upvotes this) (Answer.downvotes this))
      as (Hin & Hout & Hlen).
    split; [exact Hin | split; [exact Hout |]].
    intros Hup Hdown Htally.
    destruct (Hlen Hup Hdown) as (H1 & H2 & H3 & H4).
    rewrite H1, H2, H4, H3. unfold tallied in Htally. lia.
Qed.

(** User 7 upvotes then downvotes a question on which user 8 holds an
    upvote: the tally goes from 1 to 0. *)
Lemma upvote_then_downvote_witness :
  let this := Question.addUpvote 5 8 (Question.create 1) in
  let upvoted := Question.addUpvote 10 7 this in
  let after := Question.addDownvote 11 7 upvoted in
  Question.votes after = (Question.votes this - 1)%Z /\
  Question.votes after = (Question.votes upvoted - 2)%Z.
Proof.
  cbv zeta.
  apply (proj1 upvote_then_downvote 10%Z 11%Z 7%N
           (Question.addUpvote 5 8 (Question.create 1))).
  - simpl. intros [H | []]. discriminate H.
  - simpl. tauto.
  - reflexivity.
Defined.

(** ** The accept route *)

(** The run of an accept request that passes every check, write by write:
    the previous accepted answer is unmarked in the store, the requested
    answer is saved, the question is saved, the answer's author is notified
    unless they accepted their own answer, and their score is raised. *)
Lemma accept_run (now : Date) (reqUser id : ObjectId) (s : Store)
    (ans : Answer.t) (q : Question.t) (author : User.t) :
  answers s !! id = Some ans ->
  Answer.isDeleted ans = false ->
  questions s !! Answer.question ans = Some q ->
  Question.author q = reqUser ->
  users s !! Answer.author ans = Some author ->
  Question.validate q = true ->
  let unmark :=
    fun stored =>
      Answer.set_acceptedAt None (Answer.set_isAccepted false stored) in
  let s1 :=
    match Question.acceptedAnswer q with
    | Some previous =>
        match answers s !! previous with
        | Some stored =>
            set_answers (<[previous := unmark stored]> (answers s)) s
        | None => s
        end
    | None => s
    end in
  let h1 :=
    match Question.acceptedAnswer q with
    | Some previous =>
        match answers s !! previous with
        | Some _ => [s1]
        | None => []
        end
    | None => []
    end in
  forall stored : Answer.t,
    answers s1 !! id = Some stored ->
    let s2 :=
      set_answers
        (<[id := Answer.applyChanges ans (Answer.accept now ans) stored]>
           (answers s1)) s1 in
    let s3 :=
      set_questions
        (<[Answer.question ans :=
             Question.preSave (Question.set_acceptedAnswer (Some id) q)]>
           (questions s)) s2 in
    let notice :=
      {| Notification.recipient := Answer.author ans;
         Notification.sender := reqUser;
         Notification.type := "accept";
         Notification.relatedQuestion := Some (Answer.question ans);
         Notification.relatedAnswer := Some id |} in
    let s4 :=
      if sameIdString (Answer.author ans) reqUser then s3
      else set_notifications (notifications s ++ [notice])%list s3 in
    let h4 :=
      if sameIdString (Answer.author ans) reqUser then [] else [s4] in
    let s5 :=
      set_users
        (<[Answer.author ans := User.updateReputation 15 author]> (users s))
        s4 in
    AnswersRoute.accept now reqUser id s =
    {| final := s5; history := (h1 ++ [s2; s3] ++ h4 ++ [s5])%list;
       outcome := Returned (json 200 "Answer accepted successfully" None) |}.
Proof.
  intros Hans Hlive Hq Hauth Hu Hv unmark s1 h1 stored Hstored.
  assert (Hq1 : questions s1 = questions s).
  { subst s1. destruct (Question.acceptedAnswer q) as [previous |];
      [destruct (answers s !! previous) |]; reflexivity. }
  assert (Hu1 : users s1 = users s).
  { subst s1. destruct (Question.acceptedAnswer q) as [previous |];
      [destruct (answers s !! previous) |]; reflexivity. }
  assert (Hn1 : notifications s1 = notifications s).
  { subst s1. destruct (Question.acceptedAnswer q) as [previous |];
      [destruct (answers s !! previous) |]; reflexivity. }
  assert (Hfirst :
    forall (B : Type) (k : unit -> Async B),
      bind match Question.acceptedAnswer q with
           | Some previous => AnswerModel.findByIdAndUpdate previous unmark
           | None => ret tt
           end k s
      = {| final := final (k tt s1);
           history := (h1 ++ history (k tt s1))%list;
           outcome := outcome (k tt s1) |}).
  { intros B k. subst s1 h1.
    destruct (Question.acceptedAnswer q) as [previous |].
    - destruct (answers s !! previous) as [p |] eqn:Hp.
      + rewrite (bind_answer_update _ _ p) by exact Hp. reflexivity.
      + rewrite bind_answer_update_missing by exact Hp.
        symmetry. apply run_eta.
    - rewrite bind_ret. symmetry. apply run_eta. }
  cbv zeta. unfold AnswersRoute.accept, handle.
  unfold AnswerModel.findById, UserModel.findById, QuestionModel.findById.
  rewrite bind_read, Hans, Hlive, bind_read, Hu, bind_read, Hq.
  rewrite Hauth, sameIdString_refl. cbn [negb].
  fold unmark. rewrite Hfirst.
  rewrite (bind_answer_save _ _ _ stored) by exact Hstored. cbv zeta.
  rewrite (bind_question_save _ _ _ q)
    by (try exact Hv; cbn [questions set_answers]; rewrite Hq1; exact Hq).
  rewrite question_applyChanges_same. cbv zeta.
  cbn [questions set_answers]. rewrite Hq1.
  destruct (sameIdString (Answer.author ans) reqUser) eqn:Hself; cbn [negb].
  - rewrite bind_ret.
    rewrite (bind_updateReputation _ author)
      by (cbn [users set_questions set_answers]; rewrite Hu1; exact Hu).
    cbv zeta. cbn [users set_questions set_answers]. rewrite Hu1.
    reflexivity.
  - unfold NotificationModel.notifyAcceptedAnswer.
    rewrite bind_createNotification.
    + cbv zeta.
      rewrite (bind_updateReputation _ author)
        by (cbn [users set_notifications set_questions set_answers];
            rewrite Hu1; exact Hu).
      cbv zeta.
      cbn [users notifications set_notifications set_questions set_answers].
      rewrite Hu1, Hn1. reflexivity.
    + cbn [Notification.sender Notification.recipient]. intros E.
      rewrite <- E, sameIdString_refl in Hself. discriminate.
Qed.

(** The run of an accept request that passes every check on a question
    that fails validation: the previous accepted answer is unmarked and the
    requested answer is saved, then [question.save()] rejects and the route
    answers 500; the question, the scores and the notifications are as they
    were. *)
Lemma accept_run_invalid (now : Date) (reqUser id : ObjectId) (s : Store)
    (ans : Answer.t) (q : Question.t) :
  answers s !! id = Some ans ->
  Answer.isDeleted ans = false ->
  questions s !! Answer.question ans = Some q ->
  Question.author q = reqUser ->
  Question.validate q = false ->
  let unmark :=
    fun stored =>
      Answer.set_acceptedAt None (Answer.set_isAccepted false stored) in
  let s1 :=
    match Question.acceptedAnswer q with
    | Some previous =>
        match answers s !! previous with
        | Some stored =>
            set_answers (<[previous := unmark stored]> (answers s)) s
        | None => s
        end
    | None => s
    end in
  let h1 :=
    match Question.acceptedAnswer q with
    | Some previous =>
        match answers s !! previous with
        | Some _ => [s1]
        | None => []
        end
    | None => []
    end in
  forall stored : Answer.t,
    answers s1 !! id = Some stored ->
    let s2 :=
      set_answers
        (<[id := Answer.applyChanges ans (Answer.accept now ans) stored]>
           (answers s1)) s1 in
    AnswersRoute.accept now reqUser id s =
    {| final := s2; history := (h1 ++ [s2])%list;
       outcome :=
         Returned (json 500 "Server error while accepting answer" None) |}.
Proof.
  intros Hans Hlive Hq Hauth Hv unmark s1 h1 stored Hstored.
  assert (Hfirst :
    forall (B : Type) (k : unit -> Async B),
      bind match Question.acceptedAnswer q with
           | Some previous => AnswerModel.findByIdAndUpdate previous unmark
           | None => ret tt
           end k s
      = {| final := final (k tt s1);
           history := (h1 ++ history (k tt s1))%list;
           outcome := outcome (k tt s1) |}).
  { intros B k. subst s1 h1.
    destruct (Question.acceptedAnswer q) as [previous |].
    - destruct (answers s !! previous) as [p |] eqn:Hp.
      + rewrite (bind_answer_update _ _ p) by exact Hp. reflexivity.
      + rewrite bind_answer_update_missing by exact Hp.
        symmetry. apply run_eta.
    - rewrite bind_ret. symmetry. apply run_eta. }
  cbv zeta. unfold AnswersRoute.accept, handle.
  unfold AnswerModel.findById, UserModel.findById, QuestionModel.findById.
  rewrite bind_read, Hans, Hlive, bind_read, bind_read, Hq.
  rewrite Hauth, sameIdString_refl. cbn [negb].
  fold unmark. rewrite Hfirst.
  rewrite (bind_answer_save _ _ _ stored) by exact Hstored. cbv zeta.
  rewrite bind_question_save_invalid by exact Hv.
  reflexivity.
Qed.

(** The accept run when the answer's author is no longer a registered
    user and the question passes validation: the previous answer is
    unmarked, the answer and the question are saved, then reading [answer.author._id] of the unpopulated author
    throws and the handler answers 500. *)
Lemma accept_run_orphan (now : Date) (reqUser id : ObjectId) (s : Store)
    (ans : Answer.t) (q : Question.t) :
  answers s !! id = Some ans ->
  Answer.isDeleted ans = false ->
  questions s !! Answer.question ans = Some q ->
  Question.author q = reqUser ->
  users s !! Answer.author ans = None ->
  Question.validate q = true ->
  let unmark :=
    fun stored =>
      Answer.set_acceptedAt None (Answer.set_isAccepted false stored) in
  let s1 :=
    match Question.acceptedAnswer q with
    | Some previous =>
        match answers s !! previous with
        | Some stored =>
            set_answers (<[previous := unmark stored]> (answers s)) s
        | None => s
        end
    | None => s
    end in
  let h1 :=
    match Question.acceptedAnswer q with
    | Some previous =>
        match answers s !! previous with
        | Some _ => [s1]
        | None => []
        end
    | None => []
    end in
  forall stored : Answer.t,
    answers s1 !! id = Some stored ->
    let s2 :=
      set_answers
        (<[id := Answer.applyChanges ans (Answer.accept now ans) stored]>
           (answers s1)) s1 in
    let s3 :=
      set_questions
        (<[Answer.question ans :=
             Question.preSave (Question.set_acceptedAnswer (Some id) q)]>
           (questions s)) s2 in
    AnswersRoute.accept now reqUser id s =
    {| final := s3; history := (h1 ++ [s2; s3])%list;
       outcome :=
         Returned (json 500 "Server error while accepting answer" None) |}.
Proof.
  intros Hans Hlive Hq Hauth Hu Hv unmark s1 h1 stored Hstored.
  assert (Hq1 : questions s1 = questions s).
  { subst s1. destruct (Question.acceptedAnswer q) as [previous |];
      [destruct (answers s !! previous) |]; reflexivity. }
  assert (Hfirst :
    forall (B : Type) (k : unit -> Async B),
      bind match Question.acceptedAnswer q with
           | Some previous => AnswerModel.findByIdAndUpdate previous unmark
           | None => ret tt
           end k s
      = {| final := final (k tt s1);
           history := (h1 ++ history (k tt s1))%list;
           outcome := outcome (k tt s1) |}).
  { intros B k. subst s1 h1.
    destruct (Question.acceptedAnswer q) as [previous |].
    - destruct (answers s !! previous) as [p |] eqn:Hp.
      + rewrite (bind_answer_update _ _ p) by exact Hp. reflexivity.
      + rewrite bind_answer_update_missing by exact Hp.
        symmetry. apply run_eta.
    - rewrite bind_ret. symmetry. apply run_eta. }
  cbv zeta. unfold AnswersRoute.accept, handle.
  unfold AnswerModel.findById, UserModel.findById, QuestionModel.findById.
  rewrite bind_read, Hans, Hlive, bind_read, Hu, bind_read, Hq.
  rewrite Hauth, sameIdString_refl. cbn [negb].
  fold unmark. rewrite Hfirst.
  rewrite (bind_answer_save _ _ _ stored) by exact Hstored. cbv zeta.
  rewrite (bind_question_save _ _ _ q)
    by (try exact Hv; cbn [questions set_answers]; rewrite Hq1; exact Hq).
  rewrite question_applyChanges_same. cbv zeta.
  cbn [questions set_answers]. rewrite Hq1. reflexivity.
Qed.

(** The stored answer [save()] meets in an accept run: the document as
    loaded, or, when the question already pointed at this answer, the
    loaded document unmarked. *)
Lemma accept_stored (id : ObjectId) (s : Store) (ans : Answer.t)
    (q : Question.t) :
  answers s !! id = Some ans ->
  let unmark :=
    fun stored =>
      Answer.set_acceptedAt None (Answer.set_isAccepted false stored) in
  let s1 :=
    match Question.acceptedAnswer q with
    | Some previous =>
        match answers s !! previous with
        | Some stored =>
            set_answers (<[previous := unmark stored]> (answers s)) s
        | None => s
        end
    | None => s
    end in
  (Question.acceptedAnswer q <> Some id /\ answers s1 !! id = Some ans) \/
  (Question.acceptedAnswer q = Some id /\
   answers s1 !! id = Some (unmark ans)).
Proof.
  intros Hans. cbv zeta.
  destruct (Question.acceptedAnswer q) as [previous |].
  - destruct (decide (previous = id)) as [-> | Hne].
    + right. rewrite Hans. split; [reflexivity |].
      cbn [answers set_answers]. apply lookup_insert_eq.
    + left. split; [congruence |].
      destruct (answers s !! previous);
        [cbn [answers set_answers]; rewrite lookup_insert_ne by exact Hne |];
        exact Hans.
  - left. split; [discriminate | exact Hans].
Qed.

(** An accept request for a stored answer of a stored question succeeds
    exactly when the answer is not deleted, the requester asked the
    question, the question passes validation and the answer's author is a
    registered user. *)
Lemma accept_success_iff (now : Date) (reqUser id : ObjectId) (s : Store)
    (ans : Answer.t) (q : Question.t) :
  answers s !! id = Some ans ->
  questions s !! Answer.question ans = Some q ->
  outcome (AnswersRoute.accept now reqUser id s)
    = Returned (json 200 "Answer accepted successfully" None) <->
  Answer.isDeleted ans = false /\
  Question.author q = reqUser /\
  Question.validate q = true /\
  exists author : User.t, users s !! Answer.author ans = Some author.
Proof.
  intros Hans Hq. split.
  - intros Hsucc.
    destruct (Answer.isDeleted ans) eqn:Hlive.
    { exfalso. revert Hsucc. unfold AnswersRoute.accept, handle.
      unfold AnswerModel.findById. rewrite bind_read, Hans, Hlive.
      discriminate. }
    destruct (sameIdString (Question.author q) reqUser) eqn:Hself.
    2: { exfalso. revert Hsucc. unfold AnswersRoute.accept, handle.
         unfold AnswerModel.findById, UserModel.findById,
           QuestionModel.findById.
         rewrite bind_read, Hans, Hlive, bind_read, bind_read, Hq, Hself.
         discriminate. }
    assert (Hauth : Question.author q = reqUser)
      by (unfold sameIdString in Hself; apply N.eqb_eq in Hself; exact Hself).
    destruct (accept_stored id s ans q Hans) as [[_ Hst] | [_ Hst]].
    + destruct (Question.validate q) eqn:Hv.
      * destruct (users s !! Answer.author ans) as [author |] eqn:Hu.
        { repeat split; try assumption. exists author. reflexivity. }
        exfalso. revert Hsucc.
        rewrite (accept_run_orphan now reqUser id s ans q
                   Hans Hlive Hq Hauth Hu Hv _ Hst).
        discriminate.
      * exfalso. revert Hsucc.
        rewrite (accept_run_invalid now reqUser id s ans q
                   Hans Hlive Hq Hauth Hv _ Hst).
        discriminate.
    + destruct (Question.validate q) eqn:Hv.
      * destruct (users s !! Answer.author ans) as [author |] eqn:Hu.
        { repeat split; try assumption. exists author. reflexivity. }
        exfalso. revert Hsucc.
        rewrite (accept_run_orphan now reqUser id s ans q
                   Hans Hlive Hq Hauth Hu Hv _ Hst).
        discriminate.
      * exfalso. revert Hsucc.
        rewrite (accept_run_invalid now reqUser id s ans q
                   Hans Hlive Hq Hauth Hv _ Hst).
        discriminate.
  - intros (Hlive & Hauth & Hv & author & Hu).
    destruct (accept_stored id s ans q Hans) as [[_ Hst] | [_ Hst]];
      rewrite (accept_run now reqUser id s ans q author
                 Hans Hlive Hq Hauth Hu Hv _ Hst); reflexivity.
Qed.

Lemma markedAccepted_answers (s s' : Store) (id : ObjectId) :
  answers s' = answers s -> markedAccepted s' id = markedAccepted s id.
Proof. intros H. unfold markedAccepted. rewrite H. reflexivity. Qed.




(** C10. What the code does when the author of a question accepts again the
    answer the question already points at, the answer being marked accepted:
    the stored answer ends with [isAccepted = false], pointed at by the
    question all the same.  The route first clears the flag of the
    "previous" accepted answer in the store, which is this very answer;
    [accept()] then assigns [true] to a document that was loaded with
    [true], so the path is not modified and [save()] does not write it.
    On a question that passes validation the request succeeds, the question
    keeps pointing at the answer and the answer's author receives +15 once
    more; on a question that fails validation the request is answered 500
    after the answer was unmarked, and no score changes. *)
Theorem repeated_accept_unmarks_answer :
  forall (now : Date) (reqUser b : ObjectId) (s : Store)
         (ansB : Answer.t) (q : Question.t) (authorB : User.t),
    answers s !! b = Some ansB ->
    Answer.isDeleted ansB = false ->
    questions s !! Answer.question ansB = Some q ->
    Question.author q = reqUser ->
    users s !! Answer.author ansB = Some authorB ->
    Question.acceptedAnswer q = Some b ->
    Answer.isAccepted ansB = true ->
    let r := AnswersRoute.accept now reqUser b s in
    (exists ansB' : Answer.t,
        answers (final r) !! b = Some ansB' /\
        Answer.isAccepted ansB' = false) /\
    (exists q' : Question.t,
        questions (final r) !! Answer.question ansB = Some q' /\
        Question.acceptedAnswer q' = Some b) /\
    pointsAtAccepted (final r) (Answer.question ansB) = false /\
    (Question.validate q = true ->
     outcome r = Returned (json 200 "Answer accepted successfully" None) /\
     users (final r)
       = <[Answer.author ansB := User.updateReputation 15 authorB]>
           (users s) /\
     User.reputation (User.updateReputation 15 authorB)
       = (User.reputation authorB + 15)%Z) /\
    (Question.validate q = false ->
     outcome r
       = Returned (json 500 "Server error while accepting answer" None) /\
     users (final r) = users s).
Proof.
  intros now reqUser b s ansB q authorB Hans Hlive Hq Hauth Hu Hprev Hacc.
  cbv zeta.
  set (saved := Answer.applyChanges ansB (Answer.accept now ansB)
                  (Answer.set_acceptedAt None
                     (Answer.set_isAccepted false ansB))).
  assert (Hsaved : Answer.isAccepted saved = false).
  { subst saved. unfold Answer.applyChanges. simpl. rewrite Hacc.
    reflexivity. }
  destruct (Question.validate q) eqn:Hv.
  - pose proof (accept_run now reqUser b s ansB q authorB
                  Hans Hlive Hq Hauth Hu Hv) as Hrun.
    cbv zeta in Hrun. rewrite Hprev, Hans in Hrun.
    specialize (Hrun (Answer.set_acceptedAt None
                        (Answer.set_isAccepted false ansB))).
    rewrite Hrun by (cbn [answers set_answers]; apply lookup_insert_eq).
    clear Hrun. cbn [final history outcome]. fold saved.
    split; [| split; [| split; [| split]]].
    + exists saved. split; [| exact Hsaved].
      destruct (sameIdString (Answer.author ansB) reqUser);
        cbn [answers set_users set_notifications set_questions set_answers];
        apply lookup_insert_eq.
    + exists (Question.preSave (Question.set_acceptedAnswer (Some b) q)).
      split; [| reflexivity].
      destruct (sameIdString (Answer.author ansB) reqUser);
        cbn [questions set_users set_notifications set_questions set_answers];
        apply lookup_insert_eq.
    + unfold pointsAtAccepted, markedAccepted.
      destruct (sameIdString (Answer.author ansB) reqUser);
        cbn [questions answers set_users set_notifications set_questions
             set_answers];
        rewrite lookup_insert_eq; simpl (Question.acceptedAnswer _);
        cbv iota beta; rewrite lookup_insert_eq; exact Hsaved.
    + intros _. split; [reflexivity |]. split; [| reflexivity].
      destruct (sameIdString (Answer.author ansB) reqUser); reflexivity.
    + discriminate.
  - pose proof (accept_run_invalid now reqUser b s ansB q
                  Hans Hlive Hq Hauth Hv) as Hrun.
    cbv zeta in Hrun. rewrite Hprev, Hans in Hrun.
    specialize (Hrun (Answer.set_acceptedAt None
                        (Answer.set_isAccepted false ansB))).
    rewrite Hrun by (cbn [answers set_answers]; apply lookup_insert_eq).
    clear Hrun. cbn [final history outcome]. fold saved.
    split; [| split; [| split; [| split]]].
    + exists saved. split; [| exact Hsaved].
      cbn [answers set_answers]. apply lookup_insert_eq.
    + exists q. split; [exact Hq | exact Hprev].
    + unfold pointsAtAccepted, markedAccepted.
      cbn [questions answers set_answers]. rewrite Hq, Hprev.
      rewrite lookup_insert_eq. exact Hsaved.
    + discriminate.
    + intros _. split; reflexivity.
Qed.

(** User 1 accepts answer 20 of question 10 a second time, in the sample
    store and in the store that holds question 10 with the [closedReason]
    it was created with. *)
Lemma repeated_accept_unmarks_answer_witness :
  (let r := AnswersRoute.accept 200 1 20 sampleStore in
   markedAccepted sampleStore 20 = true /\
   markedAccepted (final r) 20 = false /\
   outcome r = Returned (json 200 "Answer accepted successfully" None) /\
   users (final r)
     = <[2%N := {| User.username := "first"; User.reputation := 15 |}]>
         (users sampleStore)) /\
  (let r := AnswersRoute.accept 200 1 20 defaultStore in
   markedAccepted defaultStore 20 = true /\
   markedAccepted (final r) 20 = false /\
   outcome r
     = Returned (json 500 "Server error while accepting answer" None) /\
   users (final r) = users defaultStore).
Proof.
  cbv zeta.
  pose proof (repeated_accept_unmarks_answer 200%Z 1%N 20%N sampleStore
                acceptedAnswer20 question10
                {| User.username := "first"; User.reputation := 0 |}
                eq_refl eq_refl eq_refl eq_refl eq_refl eq_refl eq_refl)
    as (_ & _ & _ & Hvalid & _).
  pose proof (repeated_accept_unmarks_answer 200%Z 1%N 20%N defaultStore
                acceptedAnswer20 defaultQuestion10
                {| User.username := "first"; User.reputation := 0 |}
                eq_refl eq_refl eq_refl eq_refl eq_refl eq_refl eq_refl)
    as (_ & _ & _ & _ & Hinvalid).
  cbv zeta in Hvalid, Hinvalid.
  destruct (Hvalid eq_refl) as (Hout & Husers & _).
  destruct (Hinvalid eq_refl) as (Hout' & Husers').
  split.
  - split; [vm_compute; reflexivity |].
    split; [vm_compute; reflexivity |].
    split; [exact Hout | exact Husers].
  - split; [vm_compute; reflexivity |].
    split; [vm_compute; reflexivity |].
    split; [exact Hout' | exact Husers'].
Defined.

(** * Further properties of the modelled code *)

(** ** The vote methods and the other users *)

(** X1. A call of [addUpvote(u)] or [addDownvote(u)] on a question or an
    answer changes the vote of no other user: every [v] other than [u] is
    among the upvoters (the downvoters) after the call exactly when it was
    before. *)
Theorem vote_leaves_other_users :
  (forall (now : Date) (u v : ObjectId) (this : Question.t),
      v <> u ->
      let up := Question.addUpvote now u this in
      let down := Question.addDownvote now u this in
      (In v (voters (Question.upvotes up))
         <-> In v (voters (Question.upvotes this))) /\
      (In v (voters (Question.downvotes up))
         <-> In v (voters (Question.downvotes this))) /\
      (In v (voters (Question.upvotes down))
         <-> In v (voters (Question.upvotes this))) /\
      (In v (voters (Question.downvotes down))
         <-> In v (voters (Question.downvotes this)))) /\
  (forall (now : Date) (u v : ObjectId) (this : Answer.t),
      v <> u ->
      let up := Answer.addUpvote now u this in
      let down := Answer.addDownvote now u this in
      (In v (voters (Answer.upvotes up))
         <-> In v (voters (Answer.upvotes this))) /\
      (In v (voters (Answer.downvotes up))
         <-> In v (voters (Answer.downvotes this))) /\
      (In v (voters (Answer.upvotes down))
         <-> In v (voters (Answer.upvotes this))) /\
      (In v (voters (Answer.downvotes down))
         <-> In v (voters (Answer.downvotes this)))).
Proof.
  split.
  - intros now u v this Hne. cbv zeta.
    destruct (question_addUpvote_paths now u this) as (-> & -> & _).
    destruct (question_addDownvote_paths now u this) as (-> & -> & _).
    rewrite !in_voters_toggle, !in_voters_without. tauto.
  - intros now u v this Hne. cbv zeta.
    destruct (answer_addUpvote_paths now u this) as (-> & -> & _).
    destruct (answer_addDownvote_paths now u this) as (-> & -> & _).
    rewrite !in_voters_toggle, !in_voters_without. tauto.
Qed.

(** User 8 holds an upvote on a question; user 7 upvotes or downvotes it. *)
Lemma vote_leaves_other_users_witness :
  let this := Question.addUpvote 5 8 (Question.create 1) in
  In 8%N (voters (Question.upvotes (Question.addDownvote 10 7 this)))
  <-> In 8%N (voters (Question.upvotes this)).
Proof.
  cbv zeta.
  apply (proj1 vote_leaves_other_users 10%Z 7%N 8%N
           (Question.addUpvote 5 8 (Question.create 1))).
  discriminate.
Defined.

(** ** By how much one call moves the tally *)

Lemma vote_step (now : Date) (u : ObjectId) (l other : list Vote) :
  List.NoDup (voters l) ->
  List.NoDup (voters other) ->
  exclusive l other ->
  let moved :=
    (Z.of_nat (length (toggle now u l))
     - Z.of_nat (length (without u other))
     - (Z.of_nat (length l) - Z.of_nat (length other)))%Z in
  (~ In u (voters l) -> ~ In u (voters other) -> moved = 1%Z) /\
  (In u (voters l) -> moved = (-1)%Z) /\
  (In u (voters other) -> moved = 2%Z).
Proof.
  intros Hl Hother Hex. cbv zeta. split; [| split].
  - intros Hout Hout'.
    rewrite (toggle_absent now u l Hout), (without_absent u other Hout').
    rewrite length_app. simpl. lia.
  - intros Hin.
    assert (Hout' : ~ In u (voters other)) by (intros H; exact (Hex u Hin H)).
    rewrite (toggle_present now u l Hin), (without_absent u other Hout').
    pose proof (without_length u l Hl Hin). lia.
  - intros Hin'.
    assert (Hout : ~ In u (voters l)) by (intros H; exact (Hex u H Hin')).
    rewrite (toggle_absent now u l Hout), length_app. simpl.
    pose proof (without_length u other Hother Hin'). lia.
Qed.

(** X2. On a question or an answer whose ledger lists no user twice, has no
    user in both arrays and is in step with [votes], [addUpvote(u)] moves
    [votes] by +1 when [u] held no vote, by -1 when [u] held an upvote
    (toggle-off) and by +2 when [u] held a downvote (switch);
    [addDownvote(u)] moves it by -1, +1 and -2 in the mirrored cases. *)
Theorem vote_moves_tally :
  (forall (now : Date) (u : ObjectId) (this : Question.t),
      List.NoDup (voters (Question.upvotes this)) ->
      List.NoDup (voters (Question.downvotes this)) ->
      exclusive (Question.upvotes this) (Question.downvotes this) ->
      tallied (Question.votes this) (Question.upvotes this)
              (Question.downvotes this) ->
      let up := Question.votes (Question.addUpvote now u this) in
      let down := Question.votes (Question.addDownvote now u this) in
      (~ In u (voters (Question.upvotes this)) ->
       ~ In u (voters (Question.downvotes this)) ->
       up = (Question.votes this + 1)%Z /\
       down = (Question.votes this - 1)%Z) /\
      (In u (voters (Question.upvotes this)) ->
       up = (Question.votes this - 1)%Z /\
       down = (Question.votes this - 2)%Z) /\
      (In u (voters (Question.downvotes this)) ->
       up = (Question.votes this + 2)%Z /\
       down = (Question.votes this + 1)%Z)) /\
  (forall (now : Date) (u : ObjectId) (this : Answer.t),
      List.NoDup (voters (Answer.upvotes this)) ->
      List.NoDup (voters (Answer.downvotes this)) ->
      exclusive (Answer.upvotes this) (Answer.downvotes this) ->
      tallied (Answer.votes this) (Answer.upvotes this)
              (Answer.downvotes this) ->
      let up := Answer.votes (Answer.addUpvote now u this) in
      let down := Answer.votes (Answer.addDownvote now u this) in
      (~ In u (voters (Answer.upvotes this)) ->
       ~ In u (voters (Answer.downvotes this)) ->
       up = (Answer.votes this + 1)%Z /\
       down = (Answer.votes this - 1)%Z) /\
      (In u (voters (Answer.upvotes this)) ->
       up = (Answer.votes this - 1)%Z /\
       down = (Answer.votes this - 2)%Z) /\
      (In u (voters (Answer.downvotes this)) ->
       up = (Answer.votes this + 2)%Z /\
       down = (Answer.votes this + 1)%Z)).
Proof.
  split.
  - intros now u this Hup Hdown Hex Htally. cbv zeta.
    destruct (question_addUpvote_paths now u this) as (_ & _ & ->).
    destruct (question_addDownvote_paths now u this) as (_ & _ & ->).
    destruct (vote_step now u _ _ Hup Hdown Hex) as (U1 & U2 & U3).
    destruct (vote_step now u _ _ Hdown Hup (exclusive_sym _ _ Hex))
      as (D1 & D2 & D3).
    unfold tallied in Htally. cbv zeta in U1, U2, U3, D1, D2, D3.
    split; [| split].
    + intros H1 H2. specialize (U1 H1 H2). specialize (D1 H2 H1). lia.
    + intros H. specialize (U2 H). specialize (D3 H). lia.
    + intros H. specialize (U3 H). specialize (D2 H). lia.
  - intros now u this Hup Hdown Hex Htally. cbv zeta.
    destruct (answer_addUpvote_paths now u this) as (_ & _ & ->).
    destruct (answer_addDownvote_paths now u this) as (_ & _ & ->).
    destruct (vote_step now u _ _ Hup Hdown Hex) as (U1 & U2 & U3).
    destruct (vote_step now u _ _ Hdown Hup (exclusive_sym _ _ Hex))
      as (D1 & D2 & D3).
    unfold tallied in Htally. cbv zeta in U1, U2, U3, D1, D2, D3.
    split; [| split].
    + intros H1 H2. specialize (U1 H1 H2). specialize (D1 H2 H1). lia.
    + intros H. specialize (U2 H). specialize (D3 H). lia.
    + intros H. specialize (U3 H). specialize (D2 H). lia.
Qed.

(** User 7 holds a downvote on an answer user 8 upvoted (tally 0): an
    upvote of user 7 brings the tally to 2, another downvote to 1. *)
Lemma vote_moves_tally_witness :
  let this := Answer.addDownvote 6 7 (Answer.addUpvote 5 8 (Answer.create 10 2)) in
  Answer.votes (Answer.addUpvote 10 7 this) = (Answer.votes this + 2)%Z /\
  Answer.votes (Answer.addDownvote 10 7 this) = (Answer.votes this + 1)%Z.
Proof.
  cbv zeta.
  apply (proj2 vote_moves_tally 10%Z 7%N
           (Answer.addDownvote 6 7 (Answer.addUpvote 5 8 (Answer.create 10 2)))).
  - repeat constructor. simpl. tauto.
  - repeat constructor. simpl. tauto.
  - intros v Hup Hdown. simpl in Hup, Hdown.
    destruct Hup as [<- | []]. destruct Hdown as [H | []]. discriminate H.
  - reflexivity.
  - simpl. left. reflexivity.
Defined.

(** X3. The mirror of the double upvote: on a ledger whose [downvotes] list
    no user twice and that is in step with [votes], for a user who holds no
    upvote, two [addDownvote(u)] calls in a row leave the same downvoters,
    the same [upvotes] array and the same [votes]. *)
Theorem downvote_twice_restores :
  (forall (now1 now2 : Date) (u : ObjectId) (this : Question.t),
      ~ In u (voters (Question.upvotes this)) ->
      List.NoDup (voters (Question.downvotes this)) ->
      tallied (Question.votes this) (Question.upvotes this)
              (Question.downvotes this) ->
      let twice :=
        Question.addDownvote now2 u (Question.addDownvote now1 u this) in
      Permutation (voters (Question.downvotes twice))
                  (voters (Question.downvotes this)) /\
      Question.upvotes twice = Question.upvotes this /\
      Question.votes twice = Question.votes this) /\
  (forall (now1 now2 : Date) (u : ObjectId) (this : Answer.t),
      ~ In u (voters (Answer.upvotes this)) ->
      List.NoDup (voters (Answer.downvotes this)) ->
      tallied (Answer.votes this) (Answer.upvotes this)
              (Answer.downvotes this) ->
      let twice :=
        Answer.addDownvote now2 u (Answer.addDownvote now1 u this) in
      Permutation (voters (Answer.downvotes twice))
                  (voters (Answer.downvotes this)) /\
      Answer.upvotes twice = Answer.upvotes this /\
      Answer.votes twice = Answer.votes this).
Proof.
  split.
  - intros now1 now2 u this Hout Hnd Htally. cbv zeta.
    destruct (question_addDownvote_paths now2 u
                (Question.addDownvote now1 u this)) as (-> & -> & ->).
    destruct (question_addDownvote_paths now1 u this) as (-> & -> & _).
    rewrite without_twice, (without_absent u _ Hout).
    destruct (toggle_twice now1 now2 u _ Hnd) as [Hperm Hlen].
    rewrite Hlen. repeat split; [exact Hperm | symmetry; exact Htally].
  - intros now1 now2 u this Hout Hnd Htally. cbv zeta.
    destruct (answer_addDownvote_paths now2 u
                (Answer.addDownvote now1 u this)) as (-> & -> & ->).
    destruct (answer_addDownvote_paths now1 u this) as (-> & -> & _).
    rewrite without_twice, (without_absent u _ Hout).
    destruct (toggle_twice now1 now2 u _ Hnd) as [Hperm Hlen].
    rewrite Hlen. repeat split; [exact Hperm | symmetry; exact Htally].
Qed.

(** User 7 downvotes twice a question user 8 upvoted. *)
Lemma downvote_twice_restores_witness :
  let this := Question.addUpvote 5 8 (Question.create 1) in
  let twice := Question.addDownvote 11 7 (Question.addDownvote 10 7 this) in
  Permutation (voters (Question.downvotes twice))
              (voters (Question.downvotes this)) /\
  Question.upvotes twice = Question.upvotes this /\
  Question.votes twice = Question.votes this.
Proof.
  cbv zeta.
  apply (proj1 downvote_twice_restores 10%Z 11%Z 7%N
           (Question.addUpvote 5 8 (Question.create 1))).
  - simpl. intros [H | []]. discriminate H.
  - constructor.
  - reflexivity.
Defined.

(** ** What a vote request can do to the store *)

Lemma isIn_vote_type (type : string) :
  isIn type ["upvote"; "downvote"] = true ->
  type = "upvote" \/ type = "downvote".
Proof.
  unfold isIn. simpl. rewrite orb_false_r. intros H.
  apply orb_true_iff in H as [H | H]; apply String.eqb_eq in H; auto.
Qed.

(** A vote request on a question either writes nothing and answers with a
    status other than 200, or it is a well-formed request by a user other
    than the registered author of an existing question. *)
Lemma question_vote_cases (now : Date) (reqUser id : ObjectId)
    (type : string) (s : Store) :
  let r := QuestionsRoute.vote now reqUser id type s in
  (final r = s /\ history r = [] /\
   exists body, outcome r = Returned body /\ status body <> 200) \/
  (exists (q : Question.t) (a : User.t),
      questions s !! id = Some q /\
      users s !! Question.author q = Some a /\
      Question.author q <> reqUser /\
      (type = "upvote" \/ type = "downvote")).
Proof.
  cbv zeta. unfold QuestionsRoute.vote, handle.
  destruct (isIn type ["upvote"; "downvote"]) eqn:Htype; cbn [negb];
    [| left; simpl; repeat split; eexists; split;
       [reflexivity | discriminate]].
  unfold QuestionModel.findById, UserModel.findById. rewrite bind_read.
  destruct (questions s !! id) as [q |] eqn:Hq;
    [| left; simpl; repeat split; eexists; split;
       [reflexivity | discriminate]].
  rewrite bind_read.
  destruct (users s !! Question.author q) as [a |] eqn:Ha;
    [| left; simpl; repeat split; eexists; split;
       [reflexivity | discriminate]].
  destruct (sameIdString (Question.author q) reqUser) eqn:Hself;
    [left; simpl; repeat split; eexists; split;
       [reflexivity | discriminate] |].
  right. exists q, a.
  split; [reflexivity | split; [exact Ha | split]].
  - intros E. rewrite E, sameIdString_refl in Hself. discriminate.
  - apply isIn_vote_type, Htype.
Qed.

Lemma answer_vote_cases (now : Date) (reqUser id : ObjectId)
    (type : string) (s : Store) :
  let r := AnswersRoute.vote now reqUser id type s in
  (final r = s /\ history r = [] /\
   exists body, outcome r = Returned body /\ status body <> 200) \/
  (exists (ans : Answer.t) (a : User.t),
      answers s !! id = Some ans /\
      Answer.isDeleted ans = false /\
      users s !! Answer.author ans = Some a /\
      Answer.author ans <> reqUser /\
      (type = "upvote" \/ type = "downvote")).
Proof.
  cbv zeta. unfold AnswersRoute.vote, handle.
  destruct (isIn type ["upvote"; "downvote"]) eqn:Htype; cbn [negb];
    [| left; simpl; repeat split; eexists; split;
       [reflexivity | discriminate]].
  unfold AnswerModel.findById, UserModel.findById. rewrite bind_read.
  destruct (answers s !! id) as [ans |] eqn:Hans;
    [| left; simpl; repeat split; eexists; split;
       [reflexivity | discriminate]].
  destruct (Answer.isDeleted ans) eqn:Hlive;
    [left; simpl; repeat split; eexists; split;
       [reflexivity | discriminate] |].
  rewrite bind_read.
  destruct (users s !! Answer.author ans) as [a |] eqn:Ha;
    [| left; simpl; repeat split; eexists; split;
       [reflexivity | discriminate]].
  destruct (sameIdString (Answer.author ans) reqUser) eqn:Hself;
    [left; simpl; repeat split; eexists; split;
       [reflexivity | discriminate] |].
  right. exists ans, a.
  split; [reflexivity | split; [first [reflexivity | assumption] | split; [exact Ha | split]]].
  - intros E. rewrite E, sameIdString_refl in Hself. discriminate.
  - apply isIn_vote_type, Htype.
Qed.

(** X4. A vote request, on a question or on an answer, whatever its
    arguments and whatever the store, always answers (no error escapes the
    handler), and unless it answers 200 it has written nothing: the store
    it leaves is the store it found. *)
Theorem vote_fails_without_writing :
  forall (now : Date) (reqUser id : ObjectId) (type : string) (s : Store),
    let onQuestion := QuestionsRoute.vote now reqUser id type s in
    let onAnswer := AnswersRoute.vote now reqUser id type s in
    (exists code, statusOf onQuestion = Some code) /\
    (exists code, statusOf onAnswer = Some code) /\
    (statusOf onQuestion <> Some 200 ->
     final onQuestion = s /\ history onQuestion = []) /\
    (statusOf onAnswer <> Some 200 ->
     final onAnswer = s /\ history onAnswer = []).
Proof.
  intros now reqUser id type s. cbv zeta.
  pose proof (question_vote_cases now reqUser id type s) as HQ.
  pose proof (answer_vote_cases now reqUser id type s) as HA.
  cbv zeta in HQ, HA.
  assert (HQ' :
    (final (QuestionsRoute.vote now reqUser id type s) = s /\
     history (QuestionsRoute.vote now reqUser id type s) = [] /\
     exists code, statusOf (QuestionsRoute.vote now reqUser id type s)
                  = Some code) \/
    statusOf (QuestionsRoute.vote now reqUser id type s) = Some 200).
  { destruct HQ as [(Hf & Hh & body & Hb & _) | (q & a & Hq & Ha & Hne & Ht)].
    - left. repeat split; try assumption. exists (status body).
      unfold statusOf. rewrite Hb. reflexivity.
    - destruct (Question.validate q) eqn:Hv.
      + right. destruct Ht as [-> | ->].
        * rewrite (question_upvote_run now reqUser id s q a Hq Ha Hne Hv).
          reflexivity.
        * rewrite (question_downvote_run now reqUser id s q a Hq Ha Hne Hv).
          reflexivity.
      + left.
        rewrite (question_vote_run_invalid now reqUser id type s q a);
          try assumption.
        * simpl. repeat split. exists 500. reflexivity.
        * destruct Ht as [-> | ->]; reflexivity. }
  assert (HA' :
    (final (AnswersRoute.vote now reqUser id type s) = s /\
     history (AnswersRoute.vote now reqUser id type s) = [] /\
     exists code, statusOf (AnswersRoute.vote now reqUser id type s)
                  = Some code) \/
    statusOf (AnswersRoute.vote now reqUser id type s) = Some 200).
  { destruct HA as [(Hf & Hh & body & Hb & _)
                   | (ans & a & Hans & Hlive & Ha & Hne & Ht)].
    - left. repeat split; try assumption. exists (status body).
      unfold statusOf. rewrite Hb. reflexivity.
    - right. destruct Ht as [-> | ->].
      + rewrite (answer_upvote_run now reqUser id s ans a Hans Hlive Ha Hne).
        reflexivity.
      + rewrite (answer_downvote_run now reqUser id s ans a
                   Hans Hlive Ha Hne).
        reflexivity. }
  split; [| split; [| split]].
  - destruct HQ' as [(_ & _ & H) | H]; eauto.
  - destruct HA' as [(_ & _ & H) | H]; eauto.
  - intros Hne. destruct HQ' as [(Hf & Hh & _) | H]; [tauto | contradiction].
  - intros Hne. destruct HA' as [(Hf & Hh & _) | H]; [tauto | contradiction].
Qed.

(** User 3 votes on question 99, which the sample store does not hold. *)
Lemma vote_fails_without_writing_witness :
  final (QuestionsRoute.vote 50 3 99 "upvote" sampleStore) = sampleStore /\
  history (QuestionsRoute.vote 50 3 99 "upvote" sampleStore) = [].
Proof.
  apply (vote_fails_without_writing 50%Z 3%N 99%N "upvote" sampleStore).
  vm_compute. discriminate.
Defined.

(** X5. Which failure answers what, for a well-formed vote type: a question
    the store does not hold answers 404 "Question not found"; an answer the
    store does not hold, or holds as deleted, answers 404 "Answer not
    found"; content whose author is no longer a registered user answers
    500 "Server error while voting", whoever votes. *)
Theorem vote_failure_statuses :
  forall (now : Date) (reqUser id : ObjectId) (type : string) (s : Store),
    type = "upvote" \/ type = "downvote" ->
    (questions s !! id = None ->
     outcome (QuestionsRoute.vote now reqUser id type s)
     = Returned (json 404 "Question not found" None)) /\
    ((answers s !! id = None \/
      exists ans, answers s !! id = Some ans /\ Answer.isDeleted ans = true) ->
     outcome (AnswersRoute.vote now reqUser id type s)
     = Returned (json 404 "Answer not found" None)) /\
    (forall q : Question.t,
        questions s !! id = Some q ->
        users s !! Question.author q = None ->
        outcome (QuestionsRoute.vote now reqUser id type s)
        = Returned (json 500 "Server error while voting" None)) /\
    (forall ans : Answer.t,
        answers s !! id = Some ans ->
        Answer.isDeleted ans = false ->
        users s !! Answer.author ans = None ->
        outcome (AnswersRoute.vote now reqUser id type s)
        = Returned (json 500 "Server error while voting" None)).
Proof.
  intros now reqUser id type s Htype.
  assert (Hin : isIn type ["upvote"; "downvote"] = true)
    by (destruct Htype as [-> | ->]; reflexivity).
  split; [| split; [| split]].
  - intros Hq. unfold QuestionsRoute.vote, handle. rewrite Hin. cbn [negb].
    unfold QuestionModel.findById. rewrite bind_read, Hq. reflexivity.
  - intros H. unfold AnswersRoute.vote, handle. rewrite Hin. cbn [negb].
    unfold AnswerModel.findById. rewrite bind_read.
    destruct H as [-> | (ans & -> & ->)]; reflexivity.
  - intros q Hq Ha. unfold QuestionsRoute.vote, handle. rewrite Hin.
    cbn [negb]. unfold QuestionModel.findById, UserModel.findById.
    rewrite bind_read, Hq, bind_read, Ha. reflexivity.
  - intros ans Hans Hlive Ha. unfold AnswersRoute.vote, handle. rewrite Hin.
    cbn [negb]. unfold AnswerModel.findById, UserModel.findById.
    rewrite bind_read, Hans, Hlive, bind_read, Ha. reflexivity.
Qed.

(** User 3 downvotes answer 99, which the sample store does not hold. *)
Lemma vote_failure_statuses_witness :
  outcome (AnswersRoute.vote 50 3 99 "downvote" sampleStore)
  = Returned (json 404 "Answer not found" None).
Proof.
  apply (vote_failure_statuses 50%Z 3%N 99%N "downvote" sampleStore).
  - right. reflexivity.
  - left. vm_compute. reflexivity.
Defined.

(** X6. An upvote request that passes the checks, on an answer or on a
    question that passes validation, appends exactly one notification, of
    type "upvote", addressed to the author and sent by the voter, naming
    the question (for an answer: the answer and its question); such a
    downvote request appends none, on either route. *)
Theorem vote_notifications :
  (forall (now : Date) (reqUser id : ObjectId) (s : Store)
          (q : Question.t) (a : User.t),
      questions s !! id = Some q ->
      users s !! Question.author q = Some a ->
      Question.author q <> reqUser ->
      Question.validate q = true ->
      notifications (final (QuestionsRoute.vote now reqUser id "upvote" s))
      = (notifications s ++
           [{| Notification.recipient := Question.author q;
               Notification.sender := reqUser;
               Notification.type := "upvote";
               Notification.relatedQuestion := Some id;
               Notification.relatedAnswer := None |}])%list /\
      notifications (final (QuestionsRoute.vote now reqUser id "downvote" s))
      = notifications s) /\
  (forall (now : Date) (reqUser id : ObjectId) (s : Store)
          (ans : Answer.t) (a : User.t),
      answers s !! id = Some ans ->
      Answer.isDeleted ans = false ->
      users s !! Answer.author ans = Some a ->
      Answer.author ans <> reqUser ->
      notifications (final (AnswersRoute.vote now reqUser id "upvote" s))
      = (notifications s ++
           [{| Notification.recipient := Answer.author ans;
               Notification.sender := reqUser;
               Notification.type := "upvote";
               Notification.relatedQuestion := Some (Answer.question ans);
               Notification.relatedAnswer := Some id |}])%list /\
      notifications (final (AnswersRoute.vote now reqUser id "downvote" s))
      = notifications s).
Proof.
  split.
  - intros now reqUser id s q a Hq Ha Hne Hv.
    rewrite (question_upvote_run now reqUser id s q a Hq Ha Hne Hv).
    rewrite (question_downvote_run now reqUser id s q a Hq Ha Hne Hv).
    split; reflexivity.
  - intros now reqUser id s ans a Hans Hlive Ha Hne.
    rewrite (answer_upvote_run now reqUser id s ans a Hans Hlive Ha Hne).
    rewrite (answer_downvote_run now reqUser id s ans a Hans Hlive Ha Hne).
    split; reflexivity.
Qed.

(** User 3 upvotes, or downvotes, answer 20 and question 10 of the sample
    store. *)
Lemma vote_notifications_witness :
  (notifications (final (AnswersRoute.vote 50 3 20 "upvote" sampleStore))
   = [{| Notification.recipient := 2; Notification.sender := 3;
         Notification.type := "upvote";
         Notification.relatedQuestion := Some 10%N;
         Notification.relatedAnswer := Some 20%N |}] /\
   notifications (final (AnswersRoute.vote 50 3 20 "downvote" sampleStore))
   = []) /\
  (notifications (final (QuestionsRoute.vote 50 3 10 "upvote" sampleStore))
   = [{| Notification.recipient := 1; Notification.sender := 3;
         Notification.type := "upvote";
         Notification.relatedQuestion := Some 10%N;
         Notification.relatedAnswer := None |}] /\
   notifications (final (QuestionsRoute.vote 50 3 10 "downvote" sampleStore))
   = []).
Proof.
  split.
  - apply (proj2 vote_notifications 50%Z 3%N 20%N sampleStore
             acceptedAnswer20
             {| User.username := "first"; User.reputation := 0 |}).
    + vm_compute. reflexivity.
    + reflexivity.
    + vm_compute. reflexivity.
    + vm_compute. discriminate.
  - apply (proj1 vote_notifications 50%Z 3%N 10%N sampleStore question10
             {| User.username := "asker"; User.reputation := 0 |}).
    + vm_compute. reflexivity.
    + vm_compute. reflexivity.
    + vm_compute. discriminate.
    + reflexivity.
Defined.

(** ** Requests one after the other *)

Lemma question_vote_keeps_author (now : Date) (u : ObjectId)
    (this : Question.t) :
  Question.author (Question.addUpvote now u this) = Question.author this /\
  Question.author (Question.addDownvote now u this) = Question.author this /\
  Question.isClosed (Question.addUpvote now u this)
    = Question.isClosed this /\
  Question.isClosed (Question.addDownvote now u this)
    = Question.isClosed this /\
  Question.acceptedAnswer (Question.addUpvote now u this)
    = Question.acceptedAnswer this /\
  Question.acceptedAnswer (Question.addDownvote now u this)
    = Question.acceptedAnswer this.
Proof.
  unfold Question.addUpvote, Question.addDownvote. simpl.
  destruct (List.find _ (Question.upvotes this));
    destruct (List.find _ (Question.downvotes this)); repeat split.
Qed.

Lemma answer_vote_keeps_paths (now : Date) (u : ObjectId) (this : Answer.t) :
  let up := Answer.addUpvote now u this in
  let down := Answer.addDownvote now u this in
  (Answer.author up = Answer.author this /\
   Answer.question up = Answer.question this /\
   Answer.isDeleted up = Answer.isDeleted this /\
   Answer.isAccepted up = Answer.isAccepted this /\
   Answer.acceptedAt up = Answer.acceptedAt this) /\
  (Answer.author down = Answer.author this /\
   Answer.question down = Answer.question this /\
   Answer.isDeleted down = Answer.isDeleted this /\
   Answer.isAccepted down = Answer.isAccepted this /\
   Answer.acceptedAt down = Answer.acceptedAt this).
Proof.
  cbv zeta. unfold Answer.addUpvote, Answer.addDownvote. simpl.
  destruct (List.find _ (Answer.upvotes this));
    destruct (List.find _ (Answer.downvotes this)); repeat split.
Qed.

(** One vote request that passes the checks on a question that passes
    validation, seen from the next request: the question is still there
    with the same author, it still passes validation, and the author's
    score moved by the delta of the type. *)
Lemma question_vote_step (now : Date) (reqUser id : ObjectId)
    (type : string) (s : Store) (q : Question.t) (a : User.t) :
  type = "upvote" \/ type = "downvote" ->
  questions s !! id = Some q ->
  users s !! Question.author q = Some a ->
  Question.author q <> reqUser ->
  Question.validate q = true ->
  let s' := final (QuestionsRoute.vote now reqUser id type s) in
  let delta := if String.eqb type "upvote" then 5%Z else (-2)%Z in
  (exists q', questions s' !! id = Some q' /\
              Question.author q' = Question.author q /\
              Question.validate q' = true) /\
  users s' !! Question.author q = Some (User.updateReputation delta a).
Proof.
  intros [-> | ->] Hq Ha Hne Hv; cbv zeta.
  - rewrite (question_upvote_run now reqUser id s q a Hq Ha Hne Hv). simpl.
    split; [| apply lookup_insert_eq].
    exists (Question.addUpvote now reqUser q).
    split; [apply lookup_insert_eq |].
    split; [apply question_vote_keeps_author |].
    rewrite validate_addUpvote. exact Hv.
  - rewrite (question_downvote_run now reqUser id s q a Hq Ha Hne Hv). simpl.
    split; [| apply lookup_insert_eq].
    exists (Question.addDownvote now reqUser q).
    split; [apply lookup_insert_eq |].
    split; [apply question_vote_keeps_author |].
    rewrite validate_addDownvote. exact Hv.
Qed.

(** X7. Vote requests that pass the checks, served one after the other on
    a question that passes validation, leave the author's score at the
    score before plus 5 per upvote request and minus 2 per downvote
    request, whoever the voters are and whether the requests cast, switch
    or withdraw votes: the score follows the requests, not the ledger.  On
    a question that fails validation the same requests leave the whole
    store as it was. *)
Theorem reputation_follows_requests :
  forall (id : ObjectId) (requests : list VoteRequest) (s : Store)
         (q : Question.t) (a : User.t),
    questions s !! id = Some q ->
    users s !! Question.author q = Some a ->
    Forall (fun r =>
              (requestedType r = "upvote" \/ requestedType r = "downvote") /\
              requestedBy r <> Question.author q) requests ->
    (Question.validate q = true ->
     exists a' : User.t,
       users (serveQuestionVotes id requests s) !! Question.author q
       = Some a' /\
       User.reputation a'
       = (User.reputation a + questionDeltas requests)%Z) /\
    (Question.validate q = false ->
     serveQuestionVotes id requests s = s).
Proof.
  intros id requests. induction requests as [| r rest IH];
    intros s q a Hq Ha Hall; simpl.
  - split; [| reflexivity]. intros _. exists a. split; [exact Ha | lia].
  - apply List.Forall_cons_iff in Hall as [[Htype Hne] Hall]. split.
    + intros Hv.
      destruct (question_vote_step (requestedAt r) (requestedBy r) id
                  (requestedType r) s q a Htype Hq Ha (not_eq_sym Hne) Hv)
        as [(q' & Hq' & Hauthor & Hv') Ha'].
      cbv zeta in Hq', Ha'. rewrite <- Hauthor in Ha', Hall.
      destruct (proj1 (IH _ q' _ Hq' Ha' Hall) Hv') as (a' & Hlookup & Hrep).
      rewrite Hauthor in Hlookup. exists a'. split; [exact Hlookup |].
      rewrite Hrep. simpl. lia.
    + intros Hv.
      rewrite (question_vote_run_invalid (requestedAt r) (requestedBy r) id
                 (requestedType r) s q a);
        [| destruct Htype as [-> | ->]; reflexivity | assumption
         | assumption | exact (not_eq_sym Hne) | exact Hv].
      cbn [final]. exact (proj2 (IH s q a Hq Ha Hall) Hv).
Qed.

(** User 3 upvotes question 10 three times (cast, withdraw, cast) and
    user 2 downvotes it once: the asker's score is 5 + 5 + 5 - 2 = 13.  On
    question 10 as it was created, one upvote request of user 3 leaves the
    store as it was. *)
Lemma reputation_follows_requests_witness :
  (exists a' : User.t,
     users (serveQuestionVotes 10
              [{| requestedAt := 50; requestedBy := 3;
                  requestedType := "upvote" |};
               {| requestedAt := 51; requestedBy := 3;
                  requestedType := "upvote" |};
               {| requestedAt := 52; requestedBy := 3;
                  requestedType := "upvote" |};
               {| requestedAt := 53; requestedBy := 2;
                  requestedType := "downvote" |}]
              sampleStore) !! 1%N = Some a' /\
     User.reputation a' = (0 + 13)%Z) /\
  serveQuestionVotes 10
    [{| requestedAt := 50; requestedBy := 3; requestedType := "upvote" |}]
    defaultStore = defaultStore.
Proof.
  split.
  - apply (proj1 (reputation_follows_requests 10%N
             [{| requestedAt := 50; requestedBy := 3;
                 requestedType := "upvote" |};
              {| requestedAt := 51; requestedBy := 3;
                 requestedType := "upvote" |};
              {| requestedAt := 52; requestedBy := 3;
                 requestedType := "upvote" |};
              {| requestedAt := 53; requestedBy := 2;
                 requestedType := "downvote" |}]
             sampleStore question10
             {| User.username := "asker"; User.reputation := 0 |}
             eq_refl eq_refl
             ltac:(repeat constructor; simpl; auto; discriminate))).
    reflexivity.
  - apply (proj2 (reputation_follows_requests 10%N
             [{| requestedAt := 50; requestedBy := 3;
                 requestedType := "upvote" |}]
             defaultStore defaultQuestion10
             {| User.username := "asker"; User.reputation := 0 |}
             eq_refl eq_refl
             ltac:(repeat constructor; simpl; auto; discriminate))).
    reflexivity.
Defined.

(** X8. Two upvote requests in a row by the same user, who held no downvote
    on the question, leave the stored question (one that passes validation)
    with the upvoters, the [downvotes] array and the [votes] it had (for a
    ledger that lists no upvoter twice and is in step with [votes]), while
    the author's score has gone through [updateReputation(5)] twice. *)
Theorem upvote_requests_twice :
  forall (now1 now2 : Date) (reqUser id : ObjectId) (s : Store)
         (q : Question.t) (a : User.t),
    questions s !! id = Some q ->
    users s !! Question.author q = Some a ->
    Question.author q <> reqUser ->
    Question.validate q = true ->
    ~ In reqUser (voters (Question.downvotes q)) ->
    List.NoDup (voters (Question.upvotes q)) ->
    tallied (Question.votes q) (Question.upvotes q) (Question.downvotes q) ->
    let s1 := final (QuestionsRoute.vote now1 reqUser id "upvote" s) in
    let s2 := final (QuestionsRoute.vote now2 reqUser id "upvote" s1) in
    (exists q' : Question.t,
        questions s2 !! id = Some q' /\
        Permutation (voters (Question.upvotes q'))
                    (voters (Question.upvotes q)) /\
        Question.downvotes q' = Question.downvotes q /\
        Question.votes q' = Question.votes q) /\
    (exists a' : User.t,
        users s2 !! Question.author q = Some a' /\
        User.reputation a' = (User.reputation a + 10)%Z).
Proof.
  intros now1 now2 reqUser id s q a Hq Ha Hne Hv Hout Hnd Htally. cbv zeta.
  rewrite (question_upvote_run now1 reqUser id s q a Hq Ha Hne Hv).
  cbn [final].
  set (q1 := Question.addUpvote now1 reqUser q).
  assert (Hauthor : Question.author q1 = Question.author q)
    by apply question_vote_keeps_author.
  match goal with
  | |- context [QuestionsRoute.vote now2 reqUser id "upvote" ?s1] =>
      rewrite (question_upvote_run now2 reqUser id s1 q1
                 (User.updateReputation 5 a))
  end.
  - cbn [final questions users set_users set_notifications set_questions].
    split.
    + exists (Question.addUpvote now2 reqUser q1).
      split; [apply lookup_insert_eq |]. subst q1.
      destruct (question_addUpvote_paths now2 reqUser
                  (Question.addUpvote now1 reqUser q)) as (-> & -> & ->).
      destruct (question_addUpvote_paths now1 reqUser q) as (-> & -> & _).
      rewrite without_twice, (without_absent reqUser _ Hout).
      destruct (toggle_twice now1 now2 reqUser _ Hnd) as [Hperm Hlen].
      rewrite Hlen. repeat split; [exact Hperm | symmetry; exact Htally].
    + eexists. rewrite Hauthor. split; [apply lookup_insert_eq |].
      simpl. lia.
  - simpl. apply lookup_insert_eq.
  - rewrite Hauthor. simpl. apply lookup_insert_eq.
  - rewrite Hauthor. exact Hne.
  - subst q1. rewrite validate_addUpvote. exact Hv.
Qed.

(** User 3 clicks upvote twice on question 10 of the sample store. *)
Lemma upvote_requests_twice_witness :
  let s1 := final (QuestionsRoute.vote 50 3 10 "upvote" sampleStore) in
  let s2 := final (QuestionsRoute.vote 51 3 10 "upvote" s1) in
  (exists q' : Question.t,
      questions s2 !! 10%N = Some q' /\
      Permutation (voters (Question.upvotes q'))
                  (voters (Question.upvotes question10)) /\
      Question.downvotes q' = Question.downvotes question10 /\
      Question.votes q' = Question.votes question10) /\
  (exists a' : User.t,
      users s2 !! 1%N = Some a' /\ User.reputation a' = (0 + 10)%Z).
Proof.
  apply (upvote_requests_twice 50%Z 51%Z 3%N 10%N sampleStore question10
           {| User.username := "asker"; User.reputation := 0 |}).
  - vm_compute. reflexivity.
  - vm_compute. reflexivity.
  - vm_compute. discriminate.
  - reflexivity.
  - simpl. tauto.
  - constructor.
  - reflexivity.
Defined.

(** ** How the stored documents evolve *)

Lemma questionStep_refl (q : Question.t) : questionStep q q.
Proof. unfold questionStep. tauto. Qed.

Lemma answerStep_refl (a : Answer.t) : answerStep a a.
Proof. unfold answerStep. tauto. Qed.

Lemma questionStep_trans (q1 q2 q3 : Question.t) :
  questionStep q1 q2 -> questionStep q2 q3 -> questionStep q1 q3.
Proof.
  unfold questionStep. intros (A1 & B1 & C1 & D1) (A2 & B2 & C2 & D2).
  repeat split; try congruence; auto.
Qed.

Lemma answerStep_trans (a1 a2 a3 : Answer.t) :
  answerStep a1 a2 -> answerStep a2 a3 -> answerStep a1 a3.
Proof.
  unfold answerStep.
  intros (A1 & B1 & C1 & D1 & E1) (A2 & B2 & C2 & D2 & E2).
  repeat split; try congruence; auto.
Qed.

Lemma evolves_refl (s : Store) : evolves s s.
Proof.
  unfold evolves. repeat split.
  - intros id. destruct (questions s !! id); [apply questionStep_refl | exact I].
  - intros id. destruct (answers s !! id); [apply answerStep_refl | exact I].
  - intros id. destruct (users s !! id); [reflexivity | exact I].
  - exists []. split; [symmetry; apply app_nil_r | constructor].
Qed.

Lemma evolves_trans (s1 s2 s3 : Store) :
  evolves s1 s2 -> evolves s2 s3 -> evolves s1 s3.
Proof.
  intros (Q1 & A1 & U1 & added1 & N1 & F1) (Q2 & A2 & U2 & added2 & N2 & F2).
  unfold evolves. repeat split.
  - intros id. specialize (Q1 id). specialize (Q2 id).
    destruct (questions s1 !! id), (questions s2 !! id),
      (questions s3 !! id); try tauto.
    eapply questionStep_trans; eassumption.
  - intros id. specialize (A1 id). specialize (A2 id).
    destruct (answers s1 !! id), (answers s2 !! id),
      (answers s3 !! id); try tauto.
    eapply answerStep_trans; eassumption.
  - intros id. specialize (U1 id). specialize (U2 id).
    destruct (users s1 !! id), (users s2 !! id), (users s3 !! id);
      try tauto.
    congruence.
  - exists (added1 ++ added2)%list. split.
    + rewrite N2, N1. symmetry. apply app_assoc.
    + apply Forall_app. split; assumption.
Qed.

Lemma evolves_question (s : Store) (id : ObjectId) (q q' : Question.t) :
  questions s !! id = Some q ->
  questionStep q q' ->
  evolves s (set_questions (<[id := q']> (questions s)) s).
Proof.
  intros Hq Hstep. destruct (evolves_refl s) as (_ & A & U & N).
  unfold evolves. split; [| split; [exact A | split; [exact U | exact N]]].
  intros x. cbn [questions set_questions].
  destruct (decide (x = id)) as [-> | Hne].
  - rewrite lookup_insert_eq, Hq. exact Hstep.
  - rewrite lookup_insert_ne by congruence.
    destruct (questions s !! x); [apply questionStep_refl | exact I].
Qed.

Lemma evolves_answer (s : Store) (id : ObjectId) (a a' : Answer.t) :
  answers s !! id = Some a ->
  answerStep a a' ->
  evolves s (set_answers (<[id := a']> (answers s)) s).
Proof.
  intros Ha Hstep. destruct (evolves_refl s) as (Q & _ & U & N).
  unfold evolves. split; [exact Q | split; [| split; [exact U | exact N]]].
  intros x. cbn [answers set_answers].
  destruct (decide (x = id)) as [-> | Hne].
  - rewrite lookup_insert_eq, Ha. exact Hstep.
  - rewrite lookup_insert_ne by congruence.
    destruct (answers s !! x); [apply answerStep_refl | exact I].
Qed.

Lemma evolves_user (s : Store) (id : ObjectId) (u : User.t) (points : Z) :
  users s !! id = Some u ->
  evolves s (set_users (<[id := User.updateReputation points u]> (users s)) s).
Proof.
  intros Hu. destruct (evolves_refl s) as (Q & A & _ & N).
  unfold evolves. split; [exact Q | split; [exact A | split; [| exact N]]].
  intros x. cbn [users set_users].
  destruct (decide (x = id)) as [-> | Hne].
  - rewrite lookup_insert_eq, Hu. reflexivity.
  - rewrite lookup_insert_ne by congruence.
    destruct (users s !! x); [reflexivity | exact I].
Qed.

Lemma evolves_notification (s : Store) (n : Notification.t) :
  Notification.sender n <> Notification.recipient n ->
  evolves s (set_notifications (notifications s ++ [n])%list s).
Proof.
  intros Hn. destruct (evolves_refl s) as (Q & A & U & _).
  unfold evolves. split; [exact Q | split; [exact A | split; [exact U |]]].
  exists [n]. split; [reflexivity | repeat constructor; exact Hn].
Qed.

Lemma questionStep_vote (c : VoteCall) (q : Question.t) :
  questionStep q (questionCall c q).
Proof.
  unfold questionStep. split; [| split; [| split]].
  - destruct c; apply question_vote_keeps_author.
  - destruct c; apply question_vote_keeps_author.
  - apply question_call_exclusive.
  - intros _. destruct c; reflexivity.
Qed.

Lemma answerStep_vote (c : VoteCall) (a : Answer.t) :
  answerStep a (answerCall c a).
Proof.
  unfold answerStep. split; [| split; [| split; [| split]]].
  - destruct c as [now u | now u];
      apply (answer_vote_keeps_paths now u a).
  - destruct c as [now u | now u];
      apply (answer_vote_keeps_paths now u a).
  - destruct c as [now u | now u];
      apply (answer_vote_keeps_paths now u a).
  - apply answer_call_exclusive.
  - intros _. destruct c; reflexivity.
Qed.

Lemma question_vote_evolves (now : Date) (reqUser id : ObjectId)
    (type : string) (s : Store) :
  let r := QuestionsRoute.vote now reqUser id type s in
  evolves s (final r) /\ Forall (evolves s) (history r).
Proof.
  cbv zeta.
  destruct (question_vote_cases now reqUser id type s)
    as [(Hf & Hh & _) | (q & a & Hq & Ha & Hne & Htype)].
  - rewrite Hf, Hh. split; [apply evolves_refl | constructor].
  - assert (Hne' : reqUser <> Question.author q) by congruence.
    destruct (Question.validate q) eqn:Hv.
    2: { rewrite (question_vote_run_invalid now reqUser id type s q a);
           try assumption.
         - cbn [final history]. split; [apply evolves_refl | constructor].
         - destruct Htype as [-> | ->]; reflexivity. }
    destruct Htype as [-> | ->].
    + rewrite (question_upvote_run now reqUser id s q a Hq Ha Hne Hv).
      cbn [final history].
      pose proof (evolves_question s id q _ Hq
                    (questionStep_vote (CallUpvote now reqUser) q)) as E1.
      cbn [questionCall] in E1.
      match goal with
      | |- context [set_notifications (_ ++ [?n])%list ?s1] =>
          pose proof (evolves_trans _ _ _ E1
                        (evolves_notification s1 n Hne')) as E2
      end.
      match type of E2 with
      | evolves _ ?s2 =>
          pose proof (evolves_trans _ _ _ E2
                        (evolves_user s2 (Question.author q) a 5 Ha)) as E3
      end.
      split; [exact E3 |].
      constructor; [exact E1 |]. constructor; [exact E2 |].
      constructor; [exact E3 | constructor].
    + rewrite (question_downvote_run now reqUser id s q a Hq Ha Hne Hv).
      cbn [final history].
      pose proof (evolves_question s id q _ Hq
                    (questionStep_vote (CallDownvote now reqUser) q)) as E1.
      cbn [questionCall] in E1.
      match type of E1 with
      | evolves _ ?s1 =>
          pose proof (evolves_trans _ _ _ E1
                        (evolves_user s1 (Question.author q) a (-2) Ha))
            as E2
      end.
      split; [exact E2 |].
      constructor; [exact E1 |]. constructor; [exact E2 | constructor].
Qed.

Lemma answer_vote_evolves (now : Date) (reqUser id : ObjectId)
    (type : string) (s : Store) :
  let r := AnswersRoute.vote now reqUser id type s in
  evolves s (final r) /\ Forall (evolves s) (history r).
Proof.
  cbv zeta.
  destruct (answer_vote_cases now reqUser id type s)
    as [(Hf & Hh & _) | (ans & a & Hans & Hlive & Ha & Hne & Htype)].
  - rewrite Hf, Hh. split; [apply evolves_refl | constructor].
  - assert (Hne' : reqUser <> Answer.author ans) by congruence.
    destruct Htype as [-> | ->].
    + rewrite (answer_upvote_run now reqUser id s ans a Hans Hlive Ha Hne).
      cbn [final history].
      pose proof (evolves_answer s id ans _ Hans
                    (answerStep_vote (CallUpvote now reqUser) ans)) as E1.
      cbn [answerCall] in E1.
      match goal with
      | |- context [set_notifications (_ ++ [?n])%list ?s1] =>
          pose proof (evolves_trans _ _ _ E1
                        (evolves_notification s1 n Hne')) as E2
      end.
      match type of E2 with
      | evolves _ ?s2 =>
          pose proof (evolves_trans _ _ _ E2
                        (evolves_user s2 (Answer.author ans) a 10 Ha)) as E3
      end.
      split; [exact E3 |].
      constructor; [exact E1 |]. constructor; [exact E2 |].
      constructor; [exact E3 | constructor].
    + rewrite (answer_downvote_run now reqUser id s ans a Hans Hlive Ha Hne).
      cbn [final history].
      pose proof (evolves_answer s id ans _ Hans
                    (answerStep_vote (CallDownvote now reqUser) ans)) as E1.
      cbn [answerCall] in E1.
      match type of E1 with
      | evolves _ ?s1 =>
          pose proof (evolves_trans _ _ _ E1
                        (evolves_user s1 (Answer.author ans) a (-2) Ha))
            as E2
      end.
      split; [exact E2 |].
      constructor; [exact E1 |]. constructor; [exact E2 | constructor].
Qed.

(** ** What an accept request can do to the store *)

(** An accept request either writes nothing and answers with a status other
    than 200, or it comes from the author of the question of an existing,
    not deleted answer. *)
Lemma accept_cases (now : Date) (reqUser id : ObjectId) (s : Store) :
  let r := AnswersRoute.accept now reqUser id s in
  (final r = s /\ history r = [] /\
   exists body, outcome r = Returned body /\ status body <> 200) \/
  (exists (ans : Answer.t) (q : Question.t),
      answers s !! id = Some ans /\
      Answer.isDeleted ans = false /\
      questions s !! Answer.question ans = Some q /\
      Question.author q = reqUser).
Proof.
  cbv zeta. unfold AnswersRoute.accept, handle.
  unfold AnswerModel.findById, UserModel.findById, QuestionModel.findById.
  rewrite bind_read.
  destruct (answers s !! id) as [ans |] eqn:Hans;
    [| left; simpl; repeat split; eexists; split;
       [reflexivity | discriminate]].
  destruct (Answer.isDeleted ans) eqn:Hlive;
    [left; simpl; repeat split; eexists; split;
       [reflexivity | discriminate] |].
  rewrite bind_read, bind_read.
  destruct (questions s !! Answer.question ans) as [q |] eqn:Hq;
    [| left; simpl; repeat split; eexists; split;
       [reflexivity | discriminate]].
  destruct (sameIdString (Question.author q) reqUser) eqn:Hself; cbn [negb];
    [| left; simpl; repeat split; eexists; split;
       [reflexivity | discriminate]].
  right. exists ans, q.
  split; [reflexivity | split; [exact Hlive | split; [exact Hq |]]].
  unfold sameIdString in Hself. apply N.eqb_eq in Hself. exact Hself.
Qed.

Lemma answerStep_unmark (p : Answer.t) :
  answerStep p (Answer.set_acceptedAt None (Answer.set_isAccepted false p)).
Proof. unfold answerStep. simpl. tauto. Qed.

(** What [answer.save()] stores in an accept run is a step of the stored
    answer: the ledger and the paths accept never assigns are the stored
    ones, and [votes] is in step with them whenever it was. *)
Lemma answerStep_accept (now : Date) (ans stored : Answer.t) :
  stored = ans \/
  stored = Answer.set_acceptedAt None (Answer.set_isAccepted false ans) ->
  let saved := Answer.applyChanges ans (Answer.accept now ans) stored in
  answerStep stored saved /\
  Answer.upvotes saved = Answer.upvotes ans /\
  Answer.downvotes saved = Answer.downvotes ans /\
  tallied (Answer.votes saved) (Answer.upvotes saved)
          (Answer.downvotes saved).
Proof.
  intros Hstored. cbv zeta.
  assert (Hpaths :
    Answer.author stored = Answer.author ans /\
    Answer.question stored = Answer.question ans /\
    Answer.isDeleted stored = Answer.isDeleted ans /\
    Answer.upvotes stored = Answer.upvotes ans /\
    Answer.downvotes stored = Answer.downvotes ans /\
    Answer.votes stored = Answer.votes ans)
    by (destruct Hstored as [-> | ->]; repeat split).
  destruct Hpaths as (P1 & P2 & P3 & P4 & P5 & P6).
  unfold answerStep, Answer.applyChanges, Answer.accept, persisted, tallied.
  simpl.
  repeat match goal with
         | |- context [decide (?x = ?x)] =>
             destruct (decide (x = x)) as [_ | Hneq]; [| congruence]
         end.
  rewrite P4, P5.
  destruct (decide (_ = Answer.votes ans)) as [E | E].
  - repeat split; auto. rewrite P6. symmetry. exact E.
  - repeat split; auto.
Qed.

(** The run of an accept request that passes the checks, with the store
    left by the unmarking of the previous answer (and the stores persisted
    up to there) described by what they satisfy. *)
Lemma accept_written (now : Date) (reqUser id : ObjectId) (s : Store)
    (ans : Answer.t) (q : Question.t) :
  answers s !! id = Some ans ->
  Answer.isDeleted ans = false ->
  questions s !! Answer.question ans = Some q ->
  Question.author q = reqUser ->
  let unmark :=
    fun stored =>
      Answer.set_acceptedAt None (Answer.set_isAccepted false stored) in
  exists (s1 : Store) (h1 : list Store) (stored : Answer.t),
    evolves s s1 /\ Forall (evolves s) h1 /\
    questions s1 = questions s /\ users s1 = users s /\
    notifications s1 = notifications s /\
    answers s1 !! id = Some stored /\
    ((Question.acceptedAnswer q <> Some id /\ stored = ans) \/
     (Question.acceptedAnswer q = Some id /\ stored = unmark ans)) /\
    (forall x : ObjectId,
        Question.acceptedAnswer q <> Some x ->
        answers s1 !! x = answers s !! x) /\
    (forall x : ObjectId,
        Question.acceptedAnswer q = Some x ->
        answers s1 !! x = unmark <$> answers s !! x) /\
    let s2 :=
      set_answers
        (<[id := Answer.applyChanges ans (Answer.accept now ans) stored]>
           (answers s1)) s1 in
    let s3 :=
      set_questions
        (<[Answer.question ans :=
             Question.preSave (Question.set_acceptedAnswer (Some id) q)]>
           (questions s)) s2 in
    (Question.validate q = false ->
     AnswersRoute.accept now reqUser id s =
     {| final := s2; history := (h1 ++ [s2])%list;
        outcome :=
          Returned (json 500 "Server error while accepting answer" None) |}) /\
    (Question.validate q = true ->
     users s !! Answer.author ans = None ->
     AnswersRoute.accept now reqUser id s =
     {| final := s3; history := (h1 ++ [s2; s3])%list;
        outcome :=
          Returned (json 500 "Server error while accepting answer" None) |}) /\
    (forall author : User.t,
        Question.validate q = true ->
        users s !! Answer.author ans = Some author ->
        let notice :=
          {| Notification.recipient := Answer.author ans;
             Notification.sender := reqUser;
             Notification.type := "accept";
             Notification.relatedQuestion := Some (Answer.question ans);
             Notification.relatedAnswer := Some id |} in
        let s4 :=
          if sameIdString (Answer.author ans) reqUser then s3
          else set_notifications (notifications s ++ [notice])%list s3 in
        let h4 :=
          if sameIdString (Answer.author ans) reqUser then [] else [s4] in
        let s5 :=
          set_users
            (<[Answer.author ans := User.updateReputation 15 author]>
               (users s)) s4 in
        AnswersRoute.accept now reqUser id s =
        {| final := s5; history := (h1 ++ [s2; s3] ++ h4 ++ [s5])%list;
           outcome :=
             Returned (json 200 "Answer accepted successfully" None) |}).
Proof.
  intros Hans Hlive Hq Hauth unmark.
  pose proof (accept_stored id s ans q Hans) as Hst. cbv zeta in Hst.
  pose proof (accept_run_orphan now reqUser id s ans q Hans Hlive Hq Hauth)
    as Horphan.
  pose proof (fun author => accept_run now reqUser id s ans q author
                              Hans Hlive Hq Hauth) as Hrun.
  pose proof (accept_run_invalid now reqUser id s ans q Hans Hlive Hq Hauth)
    as Hinvalid.
  cbv zeta in Horphan, Hrun, Hinvalid.
  fold unmark in Hst, Horphan, Hrun, Hinvalid.
  assert (Hfinish :
    forall (s1 : Store) (h1 : list Store) (stored : Answer.t),
      evolves s s1 -> Forall (evolves s) h1 ->
      questions s1 = questions s -> users s1 = users s ->
      notifications s1 = notifications s ->
      answers s1 !! id = Some stored ->
      ((Question.acceptedAnswer q <> Some id /\ stored = ans) \/
       (Question.acceptedAnswer q = Some id /\ stored = unmark ans)) ->
      (forall x, Question.acceptedAnswer q <> Some x ->
                 answers s1 !! x = answers s !! x) ->
      (forall x, Question.acceptedAnswer q = Some x ->
                 answers s1 !! x = unmark <$> answers s !! x) ->
      s1 = match Question.acceptedAnswer q with
           | Some previous =>
               match answers s !! previous with
               | Some stored =>
                   set_answers (<[previous := unmark stored]> (answers s)) s
               | None => s
               end
           | None => s
           end ->
      h1 = match Question.acceptedAnswer q with
           | Some previous =>
               match answers s !! previous with
               | Some _ => [s1]
               | None => []
               end
           | None => []
           end ->
      exists (s1 : Store) (h1 : list Store) (stored : Answer.t),
        evolves s s1 /\ Forall (evolves s) h1 /\
        questions s1 = questions s /\ users s1 = users s /\
        notifications s1 = notifications s /\
        answers s1 !! id = Some stored /\
        ((Question.acceptedAnswer q <> Some id /\ stored = ans) \/
         (Question.acceptedAnswer q = Some id /\ stored = unmark ans)) /\
        (forall x : ObjectId,
            Question.acceptedAnswer q <> Some x ->
            answers s1 !! x = answers s !! x) /\
        (forall x : ObjectId,
            Question.acceptedAnswer q = Some x ->
            answers s1 !! x = unmark <$> answers s !! x) /\
        let s2 :=
          set_answers
            (<[id := Answer.applyChanges ans (Answer.accept now ans) stored]>
               (answers s1)) s1 in
        let s3 :=
          set_questions
            (<[Answer.question ans :=
                 Question.preSave (Question.set_acceptedAnswer (Some id) q)]>
               (questions s)) s2 in
        (Question.validate q = false ->
         AnswersRoute.accept now reqUser id s =
         {| final := s2; history := (h1 ++ [s2])%list;
            outcome :=
              Returned
                (json 500 "Server error while accepting answer" None) |}) /\
        (Question.validate q = true ->
         users s !! Answer.author ans = None ->
         AnswersRoute.accept now reqUser id s =
         {| final := s3; history := (h1 ++ [s2; s3])%list;
            outcome :=
              Returned
                (json 500 "Server error while accepting answer" None) |}) /\
        (forall author : User.t,
            Question.validate q = true ->
            users s !! Answer.author ans = Some author ->
            let notice :=
              {| Notification.recipient := Answer.author ans;
                 Notification.sender := reqUser;
                 Notification.type := "accept";
                 Notification.relatedQuestion := Some (Answer.question ans);
                 Notification.relatedAnswer := Some id |} in
            let s4 :=
              if sameIdString (Answer.author ans) reqUser then s3
              else set_notifications (notifications s ++ [notice])%list s3 in
            let h4 :=
              if sameIdString (Answer.author ans) reqUser then []
              else [s4] in
            let s5 :=
              set_users
                (<[Answer.author ans := User.updateReputation 15 author]>
                   (users s)) s4 in
            AnswersRoute.accept now reqUser id s =
            {| final := s5; history := (h1 ++ [s2; s3] ++ h4 ++ [s5])%list;
               outcome :=
                 Returned (json 200 "Answer accepted successfully" None) |})).
  { intros s1 h1 stored E1 Eh1 Hq1 Hu1 Hn1 Hstored Hcase Hother Hthis Es1 Eh.
    exists s1, h1, stored.
    split; [exact E1 |]. split; [exact Eh1 |]. split; [exact Hq1 |].
    split; [exact Hu1 |]. split; [exact Hn1 |]. split; [exact Hstored |].
    split; [exact Hcase |]. split; [exact Hother |]. split; [exact Hthis |].
    rewrite Es1 in Hstored. subst s1 h1. split; [| split].
    - intros Hv. exact (Hinvalid Hv stored Hstored).
    - intros Hv Hu. exact (Horphan Hu Hv stored Hstored).
    - intros author Hv Hu. exact (Hrun author Hu Hv stored Hstored). }
  clear Horphan Hrun Hinvalid.
  destruct (Question.acceptedAnswer q) as [previous |] eqn:Hprev.
  - destruct (answers s !! previous) as [p |] eqn:Hp.
    + set (s1 := set_answers (<[previous := unmark p]> (answers s)) s) in *.
      assert (E1 : evolves s s1)
        by (apply (evolves_answer s previous p _ Hp), answerStep_unmark).
      assert (Hother : forall x, Some previous <> Some x ->
                                 answers s1 !! x = answers s !! x).
      { intros x Hx. subst s1. cbn [answers set_answers].
        apply lookup_insert_ne. congruence. }
      assert (Hthis : forall x, Some previous = Some x ->
                                answers s1 !! x = unmark <$> answers s !! x).
      { intros x [= <-]. subst s1. cbn [answers set_answers].
        rewrite lookup_insert_eq, Hp. reflexivity. }
      assert (Eh1 : Forall (evolves s) [s1])
        by (constructor; [exact E1 | constructor]).
      destruct Hst as [[Hne Hst] | [Heq Hst]].
      * apply (Hfinish s1 [s1] ans); auto.
      * apply (Hfinish s1 [s1] (unmark ans)); auto.
    + assert (Hthis : forall x, Some previous = Some x ->
                                answers s !! x = unmark <$> answers s !! x).
      { intros x [= <-]. rewrite Hp. reflexivity. }
      destruct Hst as [[Hne Hst] | [Heq Hst]].
      * apply (Hfinish s [] ans); auto using evolves_refl.
      * injection Heq as ->. congruence.
  - destruct Hst as [[Hne Hst] | [Heq Hst]]; [| discriminate].
    apply (Hfinish s [] ans); auto using evolves_refl.
    intros x [=].
Qed.

Lemma accept_evolves (now : Date) (reqUser id : ObjectId) (s : Store) :
  let r := AnswersRoute.accept now reqUser id s in
  evolves s (final r) /\ Forall (evolves s) (history r).
Proof.
  cbv zeta.
  destruct (accept_cases now reqUser id s)
    as [(Hf & Hh & _) | (ans & q & Hans & Hlive & Hq & Hauth)].
  { rewrite Hf, Hh. split; [apply evolves_refl | constructor]. }
  destruct (accept_written now reqUser id s ans q Hans Hlive Hq Hauth)
    as (s1 & h1 & stored & E1 & Eh1 & Hq1 & Hu1 & Hn1 & Hst & Hcase
        & _ & _ & Hinvalid & Horphan & Hrun).
  cbv zeta in Hinvalid, Horphan, Hrun.
  assert (Hstored :
    stored = ans \/
    stored = Answer.set_acceptedAt None (Answer.set_isAccepted false ans))
    by (destruct Hcase as [[_ ->] | [_ ->]]; auto).
  destruct (answerStep_accept now ans stored Hstored) as (Hstep & _).
  pose proof (evolves_trans _ _ _ E1
                (evolves_answer s1 id stored _ Hst Hstep)) as E2.
  destruct (Question.validate q) eqn:Hv.
  2: { rewrite (Hinvalid eq_refl). cbn [final history].
       split; [exact E2 |].
       apply Forall_app. split; [exact Eh1 |].
       constructor; [exact E2 | constructor]. }
  match type of E2 with
  | evolves _ ?s2 =>
      assert (E3 : evolves s
                     (set_questions
                        (<[Answer.question ans :=
                             Question.preSave
                               (Question.set_acceptedAnswer (Some id) q)]>
                           (questions s)) s2))
  end.
  { eapply evolves_trans; [exact E2 |]. rewrite <- Hq1.
    match goal with
    | |- evolves ?s2 (set_questions (<[?k := ?v]> _) _) =>
        change (evolves s2 (set_questions (<[k := v]> (questions s2)) s2))
    end.
    apply (evolves_question _ (Answer.question ans) q).
    - cbn [questions set_answers]. rewrite Hq1. exact Hq.
    - unfold questionStep. simpl. repeat split; auto. }
  destruct (users s !! Answer.author ans) as [author |] eqn:Hu.
  - rewrite (Hrun author eq_refl eq_refl). cbn [final history].
    destruct (sameIdString (Answer.author ans) reqUser) eqn:Hself.
    + match type of E3 with
      | evolves _ ?s3 =>
          assert (E5 : evolves s
                         (set_users
                            (<[Answer.author ans :=
                                 User.updateReputation 15 author]> (users s))
                            s3))
      end.
      { eapply evolves_trans; [exact E3 |]. rewrite <- Hu1.
        match goal with
        | |- evolves ?s3 (set_users (<[?k := ?v]> _) _) =>
            change (evolves s3 (set_users (<[k := v]> (users s3)) s3))
        end.
        apply evolves_user.
        cbn [users set_questions set_answers]. rewrite Hu1. exact Hu. }
      split; [exact E5 |].
      apply Forall_app. split; [exact Eh1 |].
      constructor; [exact E2 |]. constructor; [exact E3 |].
      constructor; [exact E5 | constructor].
    + assert (Hne : reqUser <> Answer.author ans).
      { intros E. rewrite E, sameIdString_refl in Hself. discriminate. }
      match type of E3 with
      | evolves _ ?s3 =>
          assert (E4 : evolves s
                         (set_notifications
                            (notifications s ++
                               [{| Notification.recipient := Answer.author ans;
                                   Notification.sender := reqUser;
                                   Notification.type := "accept";
                                   Notification.relatedQuestion :=
                                     Some (Answer.question ans);
                                   Notification.relatedAnswer := Some id |}])%list
                            s3))
      end.
      { eapply evolves_trans; [exact E3 |]. rewrite <- Hn1.
        match goal with
        | |- evolves ?s3 (set_notifications (_ ++ [?n])%list _) =>
            change (evolves s3
                      (set_notifications (notifications s3 ++ [n])%list s3))
        end.
        apply evolves_notification. exact Hne. }
      match type of E4 with
      | evolves _ ?s4 =>
          assert (E5 : evolves s
                         (set_users
                            (<[Answer.author ans :=
                                 User.updateReputation 15 author]> (users s))
                            s4))
      end.
      { eapply evolves_trans; [exact E4 |]. rewrite <- Hu1.
        match goal with
        | |- evolves ?s4 (set_users (<[?k := ?v]> _) _) =>
            change (evolves s4 (set_users (<[k := v]> (users s4)) s4))
        end.
        apply evolves_user.
        cbn [users set_notifications set_questions set_answers].
        rewrite Hu1. exact Hu. }
      split; [exact E5 |].
      apply Forall_app. split; [exact Eh1 |].
      constructor; [exact E2 |]. constructor; [exact E3 |].
      constructor; [exact E4 |]. constructor; [exact E5 | constructor].
  - rewrite (Horphan eq_refl eq_refl). cbn [final history].
    split; [exact E3 |].
    apply Forall_app. split; [exact Eh1 |].
    constructor; [exact E2 |]. constructor; [exact E3 | constructor].
Qed.

(** ** What no vote or accept request ever does *)

Lemma requests_evolve (now : Date) (reqUser id : ObjectId) (type : string)
    (s : Store) :
  Forall (fun r => evolves s (final r) /\ Forall (evolves s) (history r))
         [QuestionsRoute.vote now reqUser id type s;
          AnswersRoute.vote now reqUser id type s;
          AnswersRoute.accept now reqUser id s].
Proof.
  constructor; [apply question_vote_evolves |].
  constructor; [apply answer_vote_evolves |].
  constructor; [apply accept_evolves | constructor].
Qed.

Lemma evolves_sameDocuments (s s' : Store) :
  evolves s s' -> sameDocuments s s'.
Proof.
  intros (Q & A & U & added & N & _). unfold sameDocuments.
  split; [| split; [| split; [exact U | exists added; exact N]]].
  - intros id. specialize (Q id).
    destruct (questions s !! id), (questions s' !! id); try tauto.
    unfold questionStep in Q. tauto.
  - intros id. specialize (A id).
    destruct (answers s !! id), (answers s' !! id); try tauto.
    unfold answerStep in A. tauto.
Qed.

Lemma evolves_exclusive (s s' : Store) :
  evolves s s' -> ledgersExclusive s -> ledgersExclusive s'.
Proof.
  intros (Q & A & _) [HQ HA]. split.
  - intros id q' Hq'. specialize (Q id). rewrite Hq' in Q.
    destruct (questions s !! id) as [q |] eqn:Hq; [| contradiction].
    unfold questionStep in Q. apply Q, (HQ id q Hq).
  - intros id a' Ha'. specialize (A id). rewrite Ha' in A.
    destruct (answers s !! id) as [a |] eqn:Ha; [| contradiction].
    unfold answerStep in A. apply A, (HA id a Ha).
Qed.

Lemma evolves_tallied (s s' : Store) :
  evolves s s' -> ledgersTallied s -> ledgersTallied s'.
Proof.
  intros (Q & A & _) [HQ HA]. split.
  - intros id q' Hq'. specialize (Q id). rewrite Hq' in Q.
    destruct (questions s !! id) as [q |] eqn:Hq; [| contradiction].
    unfold questionStep in Q. apply Q, (HQ id q Hq).
  - intros id a' Ha'. specialize (A id). rewrite Ha' in A.
    destruct (answers s !! id) as [a |] eqn:Ha; [| contradiction].
    unfold answerStep in A. apply A, (HA id a Ha).
Qed.

Lemma evolves_noSelfNotification (s s' : Store) :
  evolves s s' -> noSelfNotification s -> noSelfNotification s'.
Proof.
  intros (_ & _ & _ & added & N & F) H. unfold noSelfNotification.
  rewrite N. apply Forall_app. split; assumption.
Qed.

(** X9. Whatever its arguments and outcome, a vote request on a question,
    a vote request on an answer and an accept request create and delete no
    question, no answer and no user, never change the author or the closed
    flag of a question, the author, the question or the deleted flag of an
    answer, or a user name, and only append to the notifications; this
    holds of the store the request leaves and of every store it persists on
    the way. *)
Theorem requests_keep_documents :
  forall (now : Date) (reqUser id : ObjectId) (type : string) (s : Store),
    Forall (fun r =>
              sameDocuments s (final r) /\
              Forall (sameDocuments s) (history r))
           [QuestionsRoute.vote now reqUser id type s;
            AnswersRoute.vote now reqUser id type s;
            AnswersRoute.accept now reqUser id s].
Proof.
  intros now reqUser id type s.
  eapply Forall_impl; [apply (requests_evolve now reqUser id type s) |].
  intros r [Hf Hh]. split; [apply evolves_sameDocuments, Hf |].
  eapply Forall_impl; [exact Hh |]. intros s'. apply evolves_sameDocuments.
Qed.

(** X10. Invariant I1 over the whole store survives every request: if no
    stored question or answer has a user in both vote arrays, the same
    holds of the store a vote or accept request leaves and of every store
    it persists on the way, whether the request succeeds or fails. *)
Theorem requests_keep_ledgers_exclusive :
  forall (now : Date) (reqUser id : ObjectId) (type : string) (s : Store),
    ledgersExclusive s ->
    Forall (fun r =>
              ledgersExclusive (final r) /\
              Forall ledgersExclusive (history r))
           [QuestionsRoute.vote now reqUser id type s;
            AnswersRoute.vote now reqUser id type s;
            AnswersRoute.accept now reqUser id s].
Proof.
  intros now reqUser id type s H.
  eapply Forall_impl; [apply (requests_evolve now reqUser id type s) |].
  intros r [Hf Hh]. split; [exact (evolves_exclusive _ _ Hf H) |].
  eapply Forall_impl; [exact Hh |].
  intros s' E. exact (evolves_exclusive _ _ E H).
Qed.

(** X11. Invariant I2 over the whole store survives every request: if
    every stored question and answer has [votes] equal to upvotes minus
    downvotes, the same holds of the store a vote or accept request leaves
    and of every store it persists on the way. *)
Theorem requests_keep_ledgers_tallied :
  forall (now : Date) (reqUser id : ObjectId) (type : string) (s : Store),
    ledgersTallied s ->
    Forall (fun r =>
              ledgersTallied (final r) /\ Forall ledgersTallied (history r))
           [QuestionsRoute.vote now reqUser id type s;
            AnswersRoute.vote now reqUser id type s;
            AnswersRoute.accept now reqUser id s].
Proof.
  intros now reqUser id type s H.
  eapply Forall_impl; [apply (requests_evolve now reqUser id type s) |].
  intros r [Hf Hh]. split; [exact (evolves_tallied _ _ Hf H) |].
  eapply Forall_impl; [exact Hh |].
  intros s' E. exact (evolves_tallied _ _ E H).
Qed.

(** X12. No request notifies a user of their own action: if no stored
    notification was sent by its own recipient, none is after a vote or
    accept request, in the store it leaves and in every store it persists
    on the way. *)
Theorem requests_never_notify_sender :
  forall (now : Date) (reqUser id : ObjectId) (type : string) (s : Store),
    noSelfNotification s ->
    Forall (fun r =>
              noSelfNotification (final r) /\
              Forall noSelfNotification (history r))
           [QuestionsRoute.vote now reqUser id type s;
            AnswersRoute.vote now reqUser id type s;
            AnswersRoute.accept now reqUser id s].
Proof.
  intros now reqUser id type s H.
  eapply Forall_impl; [apply (requests_evolve now reqUser id type s) |].
  intros r [Hf Hh]. split; [exact (evolves_noSelfNotification _ _ Hf H) |].
  eapply Forall_impl; [exact Hh |].
  intros s' E. exact (evolves_noSelfNotification _ _ E H).
Qed.

Lemma sampleStore_ledgers :
  ledgersExclusive sampleStore /\ ledgersTallied sampleStore /\
  noSelfNotification sampleStore.
Proof.
  assert (HQ : forall id q, questions sampleStore !! id = Some q ->
                            q = question10).
  { intros id q H. unfold sampleStore in H. cbn [questions] in H.
    apply lookup_insert_Some in H as [[_ <-] | [_ H]]; [reflexivity |].
    rewrite lookup_empty in H. discriminate. }
  assert (HA : forall id a, answers sampleStore !! id = Some a ->
                            a = acceptedAnswer20 \/ a = Answer.create 10 3).
  { intros id a H. unfold sampleStore, sampleAnswers in H.
    cbn [answers] in H.
    apply lookup_insert_Some in H as [[_ <-] | [_ H]]; [auto |].
    apply lookup_insert_Some in H as [[_ <-] | [_ H]]; [auto |].
    rewrite lookup_empty in H. discriminate. }
  split; [| split].
  - split.
    + intros id q H. rewrite (HQ id q H). intros u Hu _. exact Hu.
    + intros id a H.
      destruct (HA id a H) as [-> | ->]; intros u Hu _; exact Hu.
  - split.
    + intros id q H. rewrite (HQ id q H). reflexivity.
    + intros id a H. destruct (HA id a H) as [-> | ->]; reflexivity.
  - constructor.
Qed.

(** Requests of user 3 naming document 20 of the sample store. *)
Lemma requests_keep_ledgers_exclusive_witness :
  Forall (fun r =>
            ledgersExclusive (final r) /\ Forall ledgersExclusive (history r))
         [QuestionsRoute.vote 50 3 20 "upvote" sampleStore;
          AnswersRoute.vote 50 3 20 "upvote" sampleStore;
          AnswersRoute.accept 50 3 20 sampleStore].
Proof.
  apply (requests_keep_ledgers_exclusive 50%Z 3%N 20%N "upvote" sampleStore).
  apply sampleStore_ledgers.
Defined.

(** Requests of user 1 naming document 21 of the sample store. *)
Lemma requests_keep_ledgers_tallied_witness :
  Forall (fun r =>
            ledgersTallied (final r) /\ Forall ledgersTallied (history r))
         [QuestionsRoute.vote 50 1 21 "downvote" sampleStore;
          AnswersRoute.vote 50 1 21 "downvote" sampleStore;
          AnswersRoute.accept 50 1 21 sampleStore].
Proof.
  apply (requests_keep_ledgers_tallied 50%Z 1%N 21%N "downvote" sampleStore).
  apply sampleStore_ledgers.
Defined.

(** Requests of user 2 naming document 10 of the sample store. *)
Lemma requests_never_notify_sender_witness :
  Forall (fun r =>
            noSelfNotification (final r) /\
            Forall noSelfNotification (history r))
         [QuestionsRoute.vote 50 2 10 "upvote" sampleStore;
          AnswersRoute.vote 50 2 10 "upvote" sampleStore;
          AnswersRoute.accept 50 2 10 sampleStore].
Proof.
  apply (requests_never_notify_sender 50%Z 2%N 10%N "upvote" sampleStore).
  apply sampleStore_ledgers.
Defined.

(** ** More of the accept route *)

(** X13. An accept request for an answer the store does not hold, or holds
    as deleted, answers 404 "Answer not found"; for an answer whose
    question the store does not hold, 404 "Question not found"; in both
    cases nothing is written, whoever asks. *)
Theorem accept_not_found :
  forall (now : Date) (reqUser id : ObjectId) (s : Store),
    ((answers s !! id = None \/
      exists ans, answers s !! id = Some ans /\ Answer.isDeleted ans = true) ->
     AnswersRoute.accept now reqUser id s =
     {| final := s; history := [];
        outcome := Returned (json 404 "Answer not found" None) |}) /\
    (forall ans : Answer.t,
        answers s !! id = Some ans ->
        Answer.isDeleted ans = false ->
        questions s !! Answer.question ans = None ->
        AnswersRoute.accept now reqUser id s =
        {| final := s; history := [];
           outcome := Returned (json 404 "Question not found" None) |}).
Proof.
  intros now reqUser id s. split.
  - intros H. unfold AnswersRoute.accept, handle.
    unfold AnswerModel.findById. rewrite bind_read.
    destruct H as [-> | (ans & -> & ->)]; reflexivity.
  - intros ans Hans Hlive Hq. unfold AnswersRoute.accept, handle.
    unfold AnswerModel.findById, UserModel.findById, QuestionModel.findById.
    rewrite bind_read, Hans, Hlive, bind_read, bind_read, Hq. reflexivity.
Qed.

(** User 1 tries to accept answer 99, which the sample store does not
    hold. *)
Lemma accept_not_found_witness :
  AnswersRoute.accept 50 1 99 sampleStore =
  {| final := sampleStore; history := [];
     outcome := Returned (json 404 "Answer not found" None) |}.
Proof.
  apply (accept_not_found 50%Z 1%N 99%N sampleStore).
  left. vm_compute. reflexivity.
Defined.

(** X14. Unlike a vote request, an accept request can fail after it wrote.
    On a question that fails validation it answers 500 "Server error while
    accepting answer" when the answer the question pointed at has lost its
    flag and date and the requested answer is stored as accepted (unless
    the question pointed at it before), the question, the scores and the
    notifications being as they were.  On a question that passes validation
    it answers 500 when the answer's author is no longer a registered user,
    and then the question already points at the answer and the answer is
    stored as accepted (unless the question pointed at it before); no score
    and no notification changes. *)
Theorem accept_fails_after_writing :
  forall (now : Date) (reqUser id : ObjectId) (s : Store)
         (ans : Answer.t) (q : Question.t),
    answers s !! id = Some ans ->
    Answer.isDeleted ans = false ->
    questions s !! Answer.question ans = Some q ->
    Question.author q = reqUser ->
    let r := AnswersRoute.accept now reqUser id s in
    (Question.validate q = false ->
     outcome r
       = Returned (json 500 "Server error while accepting answer" None) /\
     questions (final r) = questions s /\
     (Question.acceptedAnswer q <> Some id ->
      answers (final r) !! id = Some (Answer.accept now ans)) /\
     (forall x : ObjectId,
         x <> id ->
         Question.acceptedAnswer q = Some x ->
         answers (final r) !! x
         = (fun stored =>
              Answer.set_acceptedAt None (Answer.set_isAccepted false stored))
             <$> answers s !! x) /\
     users (final r) = users s /\
     notifications (final r) = notifications s) /\
    (Question.validate q = true ->
     users s !! Answer.author ans = None ->
     outcome r
       = Returned (json 500 "Server error while accepting answer" None) /\
     questions (final r)
       = <[Answer.question ans :=
             Question.preSave (Question.set_acceptedAnswer (Some id) q)]>
           (questions s) /\
     (Question.acceptedAnswer q <> Some id ->
      answers (final r) !! id = Some (Answer.accept now ans)) /\
     users (final r) = users s /\
     notifications (final r) = notifications s).
Proof.
  intros now reqUser id s ans q Hans Hlive Hq Hauth. cbv zeta.
  destruct (accept_written now reqUser id s ans q Hans Hlive Hq Hauth)
    as (s1 & h1 & stored & _ & _ & Hq1 & Hu1 & Hn1 & Hst & Hcase
        & _ & Hthis & Hinvalid & Horphan & _).
  cbv zeta in Hinvalid, Horphan. split.
  - intros Hv. rewrite (Hinvalid Hv).
    cbn [final outcome questions answers users notifications set_answers].
    split; [reflexivity |]. split; [exact Hq1 |].
    split; [| split; [| split; assumption]].
    + intros Hne. destruct Hcase as [[_ ->] | [Heq _]]; [| contradiction].
      rewrite answer_applyChanges_same. apply lookup_insert_eq.
    + intros x Hx Hprev. rewrite lookup_insert_ne by congruence.
      apply Hthis, Hprev.
  - intros Hv Hu. rewrite (Horphan Hv Hu).
    cbn [final outcome questions answers users notifications
         set_questions set_answers].
    split; [reflexivity |]. split; [reflexivity |].
    split; [| split; assumption].
    intros Hne. destruct Hcase as [[_ ->] | [Heq _]]; [| contradiction].
    rewrite answer_applyChanges_same. apply lookup_insert_eq.
Qed.

(** User 1 accepts answer 21 of question 10 as it was created: answered
    500 with answer 21 marked, answer 20 unmarked and the question still
    pointing at answer 20.  Answer 22 to question 10 of the sample store
    was written by user 9, who is not registered; user 1 accepts it. *)
Lemma accept_fails_after_writing_witness :
  (let r := AnswersRoute.accept 200 1 21 defaultStore in
   outcome r
     = Returned (json 500 "Server error while accepting answer" None) /\
   questions (final r) = questions defaultStore /\
   markedAccepted (final r) 21 = true /\
   markedAccepted (final r) 20 = false /\
   pointsAtAccepted (final r) 10 = false) /\
  (let s := set_answers (<[22%N := Answer.create 10 9]> sampleAnswers)
              sampleStore in
   let r := AnswersRoute.accept 200 1 22 s in
   outcome r
     = Returned (json 500 "Server error while accepting answer" None) /\
   questions (final r)
     = <[10%N := Question.preSave
                   (Question.set_acceptedAnswer (Some 22%N) question10)]>
         (questions s) /\
   users (final r) = users s /\
   notifications (final r) = notifications s).
Proof.
  split.
  - pose proof (proj1 (accept_fails_after_writing 200%Z 1%N 21%N defaultStore
                         (Answer.create 10 3) defaultQuestion10
                         eq_refl eq_refl eq_refl eq_refl) eq_refl)
      as (Hout & Hquestions & _).
    cbv zeta. split; [exact Hout |]. split; [exact Hquestions |].
    vm_compute. repeat split; reflexivity.
  - pose proof (proj2 (accept_fails_after_writing 200%Z 1%N 22%N
                         (set_answers
                            (<[22%N := Answer.create 10 9]> sampleAnswers)
                            sampleStore)
                         (Answer.create 10 9) question10
                         eq_refl eq_refl eq_refl eq_refl) eq_refl eq_refl)
      as (Hout & Hquestions & _ & Husers & Hnotes).
    cbv zeta. split; [exact Hout |]. split; [exact Hquestions |].
    split; [exact Husers | exact Hnotes].
Defined.

(** X15. A successful accept request adds +15 to the score of the answer's
    author in every case, and notifies that author with one "accept"
    notification unless the author is the requester: the asker who accepts
    their own answer gets the 15 points and no notification. *)
Theorem accept_rewards_and_notifies :
  forall (now : Date) (reqUser id : ObjectId) (s : Store)
         (ans : Answer.t) (q : Question.t),
    answers s !! id = Some ans ->
    questions s !! Answer.question ans = Some q ->
    let r := AnswersRoute.accept now reqUser id s in
    outcome r = Returned (json 200 "Answer accepted successfully" None) ->
    exists author : User.t,
      users s !! Answer.author ans = Some author /\
      users (final r)
        = <[Answer.author ans := User.updateReputation 15 author]>
            (users s) /\
      notifications (final r)
        = (if sameIdString (Answer.author ans) reqUser
           then notifications s
           else (notifications s ++
                   [{| Notification.recipient := Answer.author ans;
                       Notification.sender := reqUser;
                       Notification.type := "accept";
                       Notification.relatedQuestion :=
                         Some (Answer.question ans);
                       Notification.relatedAnswer := Some id |}])%list).
Proof.
  intros now reqUser id s ans q Hans Hq. cbv zeta. intros Hsucc.
  apply (accept_success_iff now reqUser id s ans q Hans Hq) in Hsucc.
  destruct Hsucc as (Hlive & Hauth & Hv & author & Hu).
  exists author. split; [exact Hu |].
  destruct (accept_written now reqUser id s ans q Hans Hlive Hq Hauth)
    as (s1 & h1 & stored & _ & _ & Hq1 & Hu1 & Hn1 & Hst & Hcase
        & _ & _ & _ & _ & Hrun).
  cbv zeta in Hrun. rewrite (Hrun author Hv Hu).
  cbn [final outcome users set_users].
  split; [reflexivity |].
  destruct (sameIdString (Answer.author ans) reqUser);
    cbn [notifications set_users set_notifications set_questions set_answers];
    [exact Hn1 | reflexivity].
Qed.

(** User 1 asked question 11 (since closed as spam and reopened) and
    answered it (answer 23); user 1 accepts that answer. *)
Lemma accept_rewards_and_notifies_witness :
  let question11 :=
    Question.set_closedReason (Some "spam") (Question.create 1) in
  let s :=
    set_questions (<[11%N := question11]> (questions sampleStore))
      (set_answers (<[23%N := Answer.create 11 1]> sampleAnswers)
         sampleStore) in
  let r := AnswersRoute.accept 200 1 23 s in
  exists author : User.t,
    users s !! 1%N = Some author /\
    users (final r)
      = <[1%N := User.updateReputation 15 author]> (users s) /\
    notifications (final r) = [].
Proof.
  apply (accept_rewards_and_notifies 200%Z 1%N 23%N
           (set_questions
              (<[11%N := Question.set_closedReason (Some "spam")
                           (Question.create 1)]>
                 (questions sampleStore))
              (set_answers (<[23%N := Answer.create 11 1]> sampleAnswers)
                 sampleStore))
           (Answer.create 11 1)
           (Question.set_closedReason (Some "spam") (Question.create 1))).
  - vm_compute. reflexivity.
  - vm_compute. reflexivity.
  - vm_compute. reflexivity.
Defined.

(** X16. An accept request that passes the checks touches three documents
    at most: every stored answer other than the requested one and the one
    the question pointed at is left exactly as it was, the one the question
    pointed at (if another) only loses its accepted flag and date, and
    every other question is left exactly as it was. *)
Theorem accept_touches_three_documents :
  forall (now : Date) (reqUser id : ObjectId) (s : Store)
         (ans : Answer.t) (q : Question.t),
    answers s !! id = Some ans ->
    Answer.isDeleted ans = false ->
    questions s !! Answer.question ans = Some q ->
    Question.author q = reqUser ->
    let r := AnswersRoute.accept now reqUser id s in
    (forall x : ObjectId,
        x <> id ->
        Question.acceptedAnswer q <> Some x ->
        answers (final r) !! x = answers s !! x) /\
    (forall x : ObjectId,
        x <> id ->
        Question.acceptedAnswer q = Some x ->
        answers (final r) !! x
        = (fun stored =>
             Answer.set_acceptedAt None (Answer.set_isAccepted false stored))
            <$> answers s !! x) /\
    (forall y : ObjectId,
        y <> Answer.question ans ->
        questions (final r) !! y = questions s !! y).
Proof.
  intros now reqUser id s ans q Hans Hlive Hq Hauth. cbv zeta.
  destruct (accept_written now reqUser id s ans q Hans Hlive Hq Hauth)
    as (s1 & h1 & stored & _ & _ & Hq1 & Hu1 & Hn1 & Hst & Hcase
        & Hother & Hthis & Hinvalid & Horphan & Hrun).
  cbv zeta in Hinvalid, Horphan, Hrun.
  assert (Hfinal :
    answers (final (AnswersRoute.accept now reqUser id s))
    = <[id := Answer.applyChanges ans (Answer.accept now ans) stored]>
        (answers s1) /\
    forall y : ObjectId,
      y <> Answer.question ans ->
      questions (final (AnswersRoute.accept now reqUser id s)) !! y
      = questions s !! y).
  { assert (Hins : forall (y : ObjectId) (q' : Question.t),
              y <> Answer.question ans ->
              <[Answer.question ans := q']> (questions s) !! y
              = questions s !! y)
      by (intros y q' Hy; apply lookup_insert_ne; congruence).
    destruct (Question.validate q) eqn:Hv.
    - destruct (users s !! Answer.author ans) as [author |] eqn:Hu.
      + rewrite (Hrun author eq_refl eq_refl). cbn [final].
        destruct (sameIdString (Answer.author ans) reqUser);
          (split; [reflexivity | intros y Hy; apply Hins; exact Hy]).
      + rewrite (Horphan eq_refl eq_refl).
        split; [reflexivity | intros y Hy; apply Hins; exact Hy].
    - rewrite (Hinvalid eq_refl). cbn [final questions answers set_answers].
      split; [reflexivity |]. intros y _. rewrite Hq1. reflexivity. }
  destruct Hfinal as [-> Hquestions]. split; [| split].
  - intros x Hx Hprev. rewrite lookup_insert_ne by congruence.
    apply Hother, Hprev.
  - intros x Hx Hprev. rewrite lookup_insert_ne by congruence.
    apply Hthis, Hprev.
  - exact Hquestions.
Qed.

(** User 1 accepts answer 21 of the sample store: answer 20, which the
    question pointed at, only loses its flag and date. *)
Lemma accept_touches_three_documents_witness :
  answers (final (AnswersRoute.accept 200 1 21 sampleStore)) !! 20%N
  = (fun stored =>
       Answer.set_acceptedAt None (Answer.set_isAccepted false stored))
      <$> answers sampleStore !! 20%N.
Proof.
  apply (accept_touches_three_documents 200%Z 1%N 21%N sampleStore
           (Answer.create 10 3) question10).
  - vm_compute. reflexivity.
  - reflexivity.
  - vm_compute. reflexivity.
  - reflexivity.
  - discriminate.
  - reflexivity.
Defined.

(** ** JavaScript numbers *)

Lemma round_small (n : Z) :
  (Z.abs n < 2 ^ 53)%Z -> Number.round n = n.
Proof.
  intros H. unfold Number.round.
  assert (He : Z.max 0 (Z.log2 (Z.abs n) - 52) = 0%Z).
  { destruct (Z.eq_dec (Z.abs n) 0%Z) as [E | E].
    - rewrite E. reflexivity.
    - assert (Hlog : (Z.log2 (Z.abs n) < 53)%Z)
        by (apply Z.log2_lt_pow2; lia).
      lia. }
  rewrite He. cbv zeta. change (2 ^ 0)%Z with 1%Z.
  rewrite Z.div_1_r, Z.mod_1_r. simpl. lia.
Qed.

Lemma round_exact (n : Z) :
  (Z.abs n <= 2 ^ 53)%Z -> Number.round n = n.
Proof.
  intros H.
  destruct (Z.eq_dec (Z.abs n) (2 ^ 53)%Z) as [E | E].
  - destruct (Z.abs_spec n) as [[_ Habs] | [_ Habs]]; rewrite Habs in E.
    + rewrite E. reflexivity.
    + replace n with (- 2 ^ 53)%Z by lia. reflexivity.
  - apply round_small. lia.
Qed.

Lemma round_nonneg (n : Z) : (0 <= n)%Z -> (0 <= Number.round n)%Z.
Proof.
  intros H. unfold Number.round. cbv zeta.
  set (ulp := (2 ^ Z.max 0 (Z.log2 (Z.abs n) - 52))%Z).
  assert (Hulp : (0 < ulp)%Z) by (apply Z.pow_pos_nonneg; lia).
  assert (Hq : (0 <= n / ulp)%Z) by (apply Z.div_pos; lia).
  destruct (2 * (n mod ulp) <? ulp)%Z; [nia |].
  destruct (ulp <? 2 * (n mod ulp))%Z; [nia |].
  destruct (Z.even (n / ulp)); nia.
Qed.

(** Past 2^53 an increment by one is lost or doubled. *)
Lemma round_past_53 :
  Number.add (2 ^ 53) 1 = (2 ^ 53)%Z /\
  Number.add (2 ^ 53 + 2) 1 = (2 ^ 53 + 4)%Z.
Proof. split; reflexivity. Qed.

(** ** The view counter *)

Lemma viewed_spec (u : ObjectId) (l : list QuestionViews.View) :
  existsb (fun view => equals (QuestionViews.user view) u) l = true <->
  In u (List.map QuestionViews.user l).
Proof.
  rewrite existsb_exists, in_map_iff. split.
  - intros (x & Hin & Heq). apply equals_spec in Heq. eauto.
  - intros (x & Heq & Hin). exists x. split; [exact Hin |].
    apply equals_spec. exact Heq.
Qed.

Lemma addView_viewers (now : Date) (u : ObjectId) (this : QuestionViews.t) :
  let after := QuestionViews.addView now (Some u) this in
  QuestionViews.views after
    = Z.of_nat (length (QuestionViews.viewedBy after)) /\
  ((In u (QuestionViews.viewers this) /\
    QuestionViews.viewedBy after = QuestionViews.viewedBy this) \/
   (~ In u (QuestionViews.viewers this) /\
    QuestionViews.viewers after = (QuestionViews.viewers this ++ [u])%list)).
Proof.
  cbv zeta. unfold QuestionViews.addView, QuestionViews.viewers.
  destruct (existsb _ (QuestionViews.viewedBy this)) eqn:E; simpl.
  - split; [reflexivity |]. left. split; [| reflexivity].
    apply viewed_spec, E.
  - split; [reflexivity |]. right. split.
    + intros H. apply viewed_spec in H. congruence.
    + rewrite map_app. reflexivity.
Qed.

Lemma validate_addView (now : Date) (userId : option ObjectId)
    (this : QuestionViews.t) :
  QuestionViews.validate (QuestionViews.addView now userId this)
  = QuestionViews.validate this.
Proof.
  unfold QuestionViews.addView, QuestionViews.validate.
  destruct userId as [u |]; [| reflexivity].
  destruct (existsb _ (QuestionViews.viewedBy this)); reflexivity.
Qed.

Lemma recordView_valid (now : Date) (reqUser : option ObjectId)
    (question : QuestionViews.t) :
  QuestionViews.validate question = true ->
  QuestionViews.recordView now reqUser question
  = (200,
     match reqUser with
     | Some u => QuestionViews.addView now (Some u) question
     | None =>
         {| QuestionViews.views :=
              Number.add (QuestionViews.views question) 1;
            QuestionViews.viewedBy := QuestionViews.viewedBy question;
            QuestionViews.closedReason :=
              QuestionViews.closedReason question |}
     end).
Proof.
  intros Hv. unfold QuestionViews.recordView, QuestionViews.save.
  destruct reqUser as [u |].
  - rewrite validate_addView, Hv. reflexivity.
  - unfold QuestionViews.validate in Hv |- *.
    cbn [QuestionViews.closedReason]. rewrite Hv. reflexivity.
Qed.

Lemma recordView_invalid (now : Date) (reqUser : option ObjectId)
    (question : QuestionViews.t) :
  QuestionViews.validate question = false ->
  QuestionViews.recordView now reqUser question = (500, question).
Proof.
  intros Hv. unfold QuestionViews.recordView, QuestionViews.save.
  destruct reqUser as [u |].
  - rewrite validate_addView, Hv. reflexivity.
  - unfold QuestionViews.validate in Hv |- *.
    cbn [QuestionViews.closedReason]. rewrite Hv. reflexivity.
Qed.

Lemma serve_invalid (requests : list (Date * option ObjectId))
    (question : QuestionViews.t) :
  QuestionViews.validate question = false ->
  QuestionViews.serve requests question = question.
Proof.
  intros Hv. induction requests as [| [now reqUser] rest IH]; simpl.
  - reflexivity.
  - rewrite recordView_invalid by exact Hv. exact IH.
Qed.

(** X17. A second view of a question by the same authenticated user
    changes nothing at all: [addView(u)] applied twice gives the document
    the first call gave, with the first view's date. *)
Theorem addView_again_is_noop :
  forall (now1 now2 : Date) (u : ObjectId) (this : QuestionViews.t),
    QuestionViews.addView now2 (Some u)
      (QuestionViews.addView now1 (Some u) this)
    = QuestionViews.addView now1 (Some u) this.
Proof.
  intros now1 now2 u this.
  assert (Hseen :
    existsb (fun view => equals (QuestionViews.user view) u)
      (QuestionViews.viewedBy (QuestionViews.addView now1 (Some u) this))
    = true).
  { apply viewed_spec.
    destruct (addView_viewers now1 u this) as (_ & [[Hin ->] | [_ Heq]]).
    - exact Hin.
    - fold (QuestionViews.viewers
              (QuestionViews.addView now1 (Some u) this)).
      rewrite Heq. apply in_app_iff. right. left. reflexivity. }
  unfold QuestionViews.addView at 1. rewrite Hseen. simpl.
  unfold QuestionViews.addView.
  destruct (existsb _ (QuestionViews.viewedBy this)); reflexivity.
Qed.

Lemma serve_authenticated (requests : list (Date * ObjectId))
    (this : QuestionViews.t) :
  QuestionViews.validate this = true ->
  List.NoDup (QuestionViews.viewers this) ->
  let after :=
    QuestionViews.serve
      (List.map (fun r => (fst r, Some (snd r))) requests) this in
  List.NoDup (QuestionViews.viewers after) /\
  (forall u : ObjectId,
      In u (QuestionViews.viewers after) <->
      In u (QuestionViews.viewers this) \/ In u (List.map snd requests)) /\
  (requests <> [] ->
   QuestionViews.views after
   = Z.of_nat (length (QuestionViews.viewedBy after))).
Proof.
  revert this. induction requests as [| [now u] rest IH]; intros this Hv Hnd.
  - simpl. split; [exact Hnd |]. split; [tauto | congruence].
  - cbv zeta. simpl. rewrite recordView_valid by exact Hv. cbn [snd].
    destruct (addView_viewers now u this) as (Hviews & Hcase).
    cbv zeta in Hviews.
    pose proof (validate_addView now (Some u) this) as Hv'.
    rewrite Hv in Hv'.
    set (next := QuestionViews.addView now (Some u) this) in *.
    assert (Hnext : List.NoDup (QuestionViews.viewers next) /\
                    forall v, In v (QuestionViews.viewers next) <->
                              In v (QuestionViews.viewers this) \/ v = u).
    { destruct Hcase as [[Hin Heq] | [Hout Heq]].
      - unfold QuestionViews.viewers. rewrite Heq.
        split; [exact Hnd |].
        intros v. split; [intros H; left; exact H |].
        intros [H | ->]; [exact H | exact Hin].
      - rewrite Heq. split.
        + clear - Hnd Hout. induction (QuestionViews.viewers this) as [| x l IH];
            simpl.
          * constructor; [tauto | constructor].
          * apply List.NoDup_cons_iff in Hnd as [Hx Hnd].
            constructor; [| apply IH; [exact Hnd | simpl in Hout; tauto]].
            rewrite in_app_iff. simpl in *. intuition congruence.
        + intros v. rewrite in_app_iff. simpl. intuition congruence. }
    destruct Hnext as [Hnd' Hmem].
    destruct (IH next Hv' Hnd') as (Hnd'' & Hmem' & Hviews').
    cbv zeta in Hnd'', Hmem', Hviews'.
    split; [exact Hnd'' |]. split.
    + intros v. rewrite Hmem', Hmem. intuition congruence.
    + intros _. destruct rest as [| r rest'].
      * simpl. exact Hviews.
      * apply Hviews'. discriminate.
Qed.

(** X18. On a question no one has viewed yet, views by authenticated users
    are counted as follows.  If the question passes validation, after any
    series of such views [views] is the number of distinct users who
    viewed it, and each of them is recorded once in [viewedBy].  If it
    fails validation, as every question does with the [closedReason] it is
    created with, every [save()] is rejected and the stored question stays
    as it was. *)
Theorem views_count_distinct_viewers :
  forall (requests : list (Date * ObjectId)) (question : QuestionViews.t),
    QuestionViews.views question = 0%Z ->
    QuestionViews.viewedBy question = [] ->
    let after :=
      QuestionViews.serve
        (List.map (fun r => (fst r, Some (snd r))) requests) question in
    (QuestionViews.validate question = true ->
     QuestionViews.views after
     = Z.of_nat (length (List.nodup N.eq_dec (List.map snd requests))) /\
     List.NoDup (QuestionViews.viewers after) /\
     (forall u : ObjectId,
         In u (QuestionViews.viewers after)
         <-> In u (List.map snd requests))) /\
    (QuestionViews.validate question = false -> after = question) /\
    QuestionViews.validate QuestionViews.create = false.
Proof.
  intros requests question Hviews0 Hby0. cbv zeta.
  split; [| split; [apply serve_invalid | reflexivity]].
  intros Hv.
  assert (Hnone : QuestionViews.viewers question = [])
    by (unfold QuestionViews.viewers; rewrite Hby0; reflexivity).
  destruct requests as [| r rest].
  { simpl. rewrite Hnone. split; [exact Hviews0 |].
    split; [constructor | simpl; tauto]. }
  assert (Hne : r :: rest <> []) by discriminate.
  set (requests := r :: rest) in *. clearbody requests.
  destruct (serve_authenticated requests question Hv)
    as (Hnd & Hmem & Hviews); [rewrite Hnone; constructor |].
  cbv zeta in Hnd, Hmem, Hviews.
  assert (Hmem' : forall u,
    In u (QuestionViews.viewers
            (QuestionViews.serve
               (List.map (fun r => (fst r, Some (snd r))) requests)
               question))
    <-> In u (List.map snd requests)).
  { intros u. rewrite Hmem, Hnone. simpl. tauto. }
  split; [| split; [exact Hnd | exact Hmem']].
  rewrite (Hviews Hne). f_equal.
  transitivity
    (length (QuestionViews.viewers
               (QuestionViews.serve
                  (List.map (fun r => (fst r, Some (snd r))) requests)
                  question))).
  { unfold QuestionViews.viewers. symmetry. apply length_map. }
  apply Permutation_length, Permutation.NoDup_Permutation.
  - exact Hnd.
  - apply List.NoDup_nodup.
  - intros u. rewrite Hmem', List.nodup_In. tauto.
Qed.

(** Users 3, 2 and 3 again view a question closed as a duplicate and
    reopened: two viewers.  The same views of a question as created leave
    it as it was. *)
Lemma views_count_distinct_viewers_witness :
  let requests := [(50%Z, 3%N); (51%Z, 2%N); (52%Z, 3%N)] in
  let question :=
    {| QuestionViews.views := 0; QuestionViews.viewedBy := [];
       QuestionViews.closedReason := Some "duplicate" |} in
  QuestionViews.views
    (QuestionViews.serve
       (List.map (fun r => (fst r, Some (snd r))) requests) question)
  = 2%Z /\
  QuestionViews.serve
    (List.map (fun r => (fst r, Some (snd r))) requests)
    QuestionViews.create
  = QuestionViews.create.
Proof.
  cbv zeta. split.
  - apply (proj1 (views_count_distinct_viewers
                    [(50%Z, 3%N); (51%Z, 2%N); (52%Z, 3%N)]
                    {| QuestionViews.views := 0;
                       QuestionViews.viewedBy := [];
                       QuestionViews.closedReason := Some "duplicate" |}
                    eq_refl eq_refl) eq_refl).
  - apply (proj1 (proj2 (views_count_distinct_viewers
                           [(50%Z, 3%N); (51%Z, 2%N); (52%Z, 3%N)]
                           QuestionViews.create eq_refl eq_refl)) eq_refl).
Defined.

Lemma anonymous_views (now : Date) (n : nat) (question : QuestionViews.t) :
  QuestionViews.validate question = true ->
  let after :=
    Nat.iter n (fun q => snd (QuestionViews.recordView now None q))
             question in
  QuestionViews.validate after = true /\
  QuestionViews.viewedBy after = QuestionViews.viewedBy question /\
  QuestionViews.closedReason after = QuestionViews.closedReason question /\
  ((0 <= QuestionViews.views question)%Z ->
   (QuestionViews.views question + Z.of_nat n <= 2 ^ 53)%Z ->
   QuestionViews.views after
   = (QuestionViews.views question + Z.of_nat n)%Z).
Proof.
  intros Hv. cbv zeta. induction n as [| n (IHv & IH1 & IH2 & IH3)].
  - simpl. repeat split; try assumption; try reflexivity. intros _ _. lia.
  - rewrite Nat.iter_succ. rewrite recordView_valid by exact IHv.
    cbn [snd QuestionViews.viewedBy QuestionViews.views
         QuestionViews.closedReason].
    split; [| split; [exact IH1 | split; [exact IH2 |]]].
    + unfold QuestionViews.validate in IHv |- *.
      cbn [QuestionViews.closedReason]. exact IHv.
    + intros H0 Hmax. rewrite IH3 by lia.
      unfold Number.add. rewrite round_exact by lia. lia.
Qed.

(** X19. On a question that passes validation, anonymous views are counted
    only until the next authenticated view: [n] anonymous views raise
    [views] by [n] (as long as the sum does not exceed 2^53), and the view
    of an authenticated user that follows sets [views] back to the number
    of recorded viewers, exactly as if the anonymous views had not
    happened. *)
Theorem authenticated_view_drops_anonymous_views :
  forall (now now' : Date) (u : ObjectId) (n : nat)
         (question : QuestionViews.t),
    QuestionViews.validate question = true ->
    let anonymous :=
      Nat.iter n (fun q => snd (QuestionViews.recordView now' None q))
               question in
    ((0 <= QuestionViews.views question)%Z ->
     (QuestionViews.views question + Z.of_nat n <= 2 ^ 53)%Z ->
     QuestionViews.views anonymous
     = (QuestionViews.views question + Z.of_nat n)%Z) /\
    QuestionViews.recordView now (Some u) anonymous
      = QuestionViews.recordView now (Some u) question /\
    QuestionViews.views
      (snd (QuestionViews.recordView now (Some u) anonymous))
      = Z.of_nat
          (length (QuestionViews.viewedBy
                     (snd (QuestionViews.recordView now (Some u)
                             question)))).
Proof.
  intros now now' u n question Hv. cbv zeta.
  destruct (anonymous_views now' n question Hv) as (Hv' & Hby & Hreason & Hviews).
  cbv zeta in Hv', Hby, Hreason, Hviews. split; [exact Hviews |].
  assert (Heq :
    QuestionViews.recordView now (Some u)
      (Nat.iter n (fun q => snd (QuestionViews.recordView now' None q))
                question)
    = QuestionViews.recordView now (Some u) question).
  { rewrite !recordView_valid by assumption. f_equal.
    unfold QuestionViews.addView. rewrite Hby, Hreason.
    destruct (existsb _ (QuestionViews.viewedBy question)); simpl;
      rewrite ?Hby, ?Hreason; reflexivity. }
  split; [exact Heq |]. rewrite Heq.
  rewrite recordView_valid by exact Hv. cbn [snd].
  apply (addView_viewers now u question).
Qed.

(** A question with one recorded viewer, user 2, and [views] 1 is viewed
    anonymously three times, then by user 2 again: [views] goes to 4 and
    back to 1. *)
Lemma authenticated_view_drops_anonymous_views_witness :
  let question :=
    {| QuestionViews.views := 1;
       QuestionViews.viewedBy :=
         [{| QuestionViews.user := 2; QuestionViews.viewedAt := 10 |}];
       QuestionViews.closedReason := Some "unclear" |} in
  let anonymous :=
    Nat.iter 3 (fun q => snd (QuestionViews.recordView 20 None q))
             question in
  QuestionViews.views anonymous = (1 + Z.of_nat 3)%Z /\
  QuestionViews.recordView 30 (Some 2%N) anonymous = (200, question).
Proof.
  cbv zeta.
  pose proof (authenticated_view_drops_anonymous_views 30%Z 20%Z 2%N 3%nat
                {| QuestionViews.views := 1;
                   QuestionViews.viewedBy :=
                     [{| QuestionViews.user := 2;
                         QuestionViews.viewedAt := 10 |}];
                   QuestionViews.closedReason := Some "unclear" |}
                eq_refl) as (Hviews & Heq & _).
  cbv zeta in Hviews, Heq. split.
  - apply Hviews; vm_compute; discriminate.
  - etransitivity; [exact Heq | reflexivity].
Defined.

(** ** The usage counter of a tag *)

Lemma tag_call_bounds (c : Tag.Call) (this : Tag.t) :
  (0 <= Tag.questionCount this)%Z ->
  (0 <= Tag.questionCount (Tag.call c this))%Z /\
  ((Tag.questionCount this <= 2 ^ 53)%Z ->
   (Tag.questionCount (Tag.call c this) <= Tag.questionCount this + 1)%Z /\
   (Tag.questionCount (Tag.call c this) <= 2 ^ 53)%Z).
Proof.
  intros H0. destruct c as [now |]; cbn [Tag.call].
  - unfold Tag.incrementUsage, Number.add. cbn [Tag.questionCount].
    split; [apply round_nonneg; lia |]. intros Hmax.
    destruct (Z.eq_dec (Tag.questionCount this) (2 ^ 53)%Z) as [E | E].
    + rewrite E. change (Number.round (2 ^ 53 + 1)) with (2 ^ 53)%Z. lia.
    + rewrite round_exact by lia. lia.
  - unfold Tag.decrementUsage, Number.sub. cbn [Tag.questionCount].
    split; [lia |]. intros Hmax. rewrite round_exact by lia. lia.
Qed.

(** X20. A tag's question count never goes below zero: from a count that
    is not negative, any series of [incrementUsage] / [decrementUsage]
    calls leaves a count that is not negative; and from a count of at most
    2^53 it leaves a count of at most 2^53, at most the old count plus the
    number of calls. *)
Theorem tag_usage_never_negative :
  forall (calls : list Tag.Call) (this : Tag.t),
    (0 <= Tag.questionCount this)%Z ->
    let after := fold_left (fun tag c => Tag.call c tag) calls this in
    (0 <= Tag.questionCount after)%Z /\
    ((Tag.questionCount this <= 2 ^ 53)%Z ->
     (Tag.questionCount after
      <= Tag.questionCount this + Z.of_nat (length calls))%Z /\
     (Tag.questionCount after <= 2 ^ 53)%Z).
Proof.
  intros calls. induction calls as [| c rest IH]; intros this H; cbv zeta.
  - simpl. lia.
  - simpl fold_left.
    destruct (tag_call_bounds c this H) as [Hc0 Hc].
    destruct (IH (Tag.call c this) Hc0) as [H1 H2].
    cbv zeta in H1, H2. split; [exact H1 |].
    intros Hmax. destruct (Hc Hmax) as [Hstep Hc53].
    destruct (H2 Hc53) as [H3 H4].
    change (length (c :: rest)) with (S (length rest)). lia.
Qed.

(** A tag used by one question loses it twice, then gains one. *)
Lemma tag_usage_never_negative_witness :
  let this :=
    {| Tag.questionCount := 1; Tag.totalViews := 0;
       Tag.weeklyQuestions := 0; Tag.lastUsed := 0 |} in
  let after :=
    fold_left (fun tag c => Tag.call c tag)
      [Tag.Decrement; Tag.Decrement; Tag.Increment 5] this in
  (0 <= Tag.questionCount after)%Z /\
  (Tag.questionCount after <= Tag.questionCount this + 3)%Z.
Proof.
  cbv zeta.
  pose proof (tag_usage_never_negative
                [Tag.Decrement; Tag.Decrement; Tag.Increment 5]
                {| Tag.questionCount := 1; Tag.totalViews := 0;
                   Tag.weeklyQuestions := 0; Tag.lastUsed := 0 |}
                ltac:(simpl; lia)) as [H0 Hmax].
  cbv zeta in H0, Hmax. split; [exact H0 |].
  apply Hmax. vm_compute. discriminate.
Defined.

(** X21. On a question count from 0 to 2^53 - 1, [decrementUsage] undoes
    [incrementUsage]; at 2^53 it does not: the increment is lost in the
    rounding of the double and the decrement leaves 2^53 - 1.  On a count
    from 1 to 2^53, [incrementUsage] undoes [decrementUsage]; at zero the
    decrement does nothing, so the pair leaves the count at one. *)
Theorem tag_usage_round_trip :
  forall (now : Date) (this : Tag.t),
    (0 <= Tag.questionCount this <= 2 ^ 53)%Z ->
    (Tag.questionCount (Tag.decrementUsage (Tag.incrementUsage now this))
       = Tag.questionCount this
     <-> (Tag.questionCount this < 2 ^ 53)%Z) /\
    ((Tag.questionCount this = 2 ^ 53)%Z ->
     Tag.questionCount (Tag.incrementUsage now this) = (2 ^ 53)%Z /\
     Tag.questionCount (Tag.decrementUsage (Tag.incrementUsage now this))
       = (2 ^ 53 - 1)%Z) /\
    (Tag.questionCount (Tag.incrementUsage now (Tag.decrementUsage this))
       = Tag.questionCount this
     <-> (0 < Tag.questionCount this)%Z) /\
    (Tag.questionCount this = 0%Z ->
     Tag.decrementUsage this = this /\
     Tag.questionCount (Tag.incrementUsage now (Tag.decrementUsage this))
       = 1%Z).
Proof.
  intros now this H.
  unfold Tag.decrementUsage, Tag.incrementUsage, Number.add, Number.sub.
  cbn [Tag.questionCount].
  assert (Hat53 : (Tag.questionCount this = 2 ^ 53)%Z ->
                  Number.round (Tag.questionCount this + 1) = (2 ^ 53)%Z /\
                  Z.max 0 (Number.round
                             (Number.round (Tag.questionCount this + 1) - 1))
                  = (2 ^ 53 - 1)%Z)
    by (intros ->; split; reflexivity).
  assert (Hdec : Number.round (Tag.questionCount this - 1)
                 = (Tag.questionCount this - 1)%Z)
    by (apply round_exact; lia).
  split; [| split; [exact Hat53 | split]].
  - split.
    + intros E.
      destruct (Z.eq_dec (Tag.questionCount this) (2 ^ 53)%Z) as [E53 | E53];
        [| lia].
      destruct (Hat53 E53) as [_ E']. rewrite E' in E. lia.
    + intros Hlt. rewrite (round_exact (Tag.questionCount this + 1)) by lia.
      rewrite round_exact by lia. lia.
  - rewrite Hdec. split.
    + intros E.
      destruct (Z.eq_dec (Tag.questionCount this) 0%Z) as [E0 | E0]; [| lia].
      rewrite E0 in E. vm_compute in E. discriminate E.
    + intros Hpos. rewrite Z.max_r by lia. rewrite round_exact by lia. lia.
  - intros E. split.
    + destruct this as [c v w l]. simpl in *. subst c. reflexivity.
    + rewrite E. reflexivity.
Qed.

(** A tag no question uses; a tag whose count has reached 2^53. *)
Lemma tag_usage_round_trip_witness :
  (let this :=
     {| Tag.questionCount := 0; Tag.totalViews := 7;
        Tag.weeklyQuestions := 0; Tag.lastUsed := 3 |} in
   Tag.decrementUsage this = this /\
   Tag.questionCount (Tag.incrementUsage 9 (Tag.decrementUsage this))
     = 1%Z) /\
  (let this :=
     {| Tag.questionCount := 2 ^ 53; Tag.totalViews := 7;
        Tag.weeklyQuestions := 0; Tag.lastUsed := 3 |} in
   Tag.questionCount (Tag.incrementUsage 9 this) = (2 ^ 53)%Z /\
   Tag.questionCount (Tag.decrementUsage (Tag.incrementUsage 9 this))
     = (2 ^ 53 - 1)%Z).
Proof.
  cbv zeta. split.
  - apply (tag_usage_round_trip 9%Z
             {| Tag.questionCount := 0; Tag.totalViews := 7;
                Tag.weeklyQuestions := 0; Tag.lastUsed := 3 |}).
    + vm_compute. split; discriminate.
    + reflexivity.
  - apply (tag_usage_round_trip 9%Z
             {| Tag.questionCount := 2 ^ 53; Tag.totalViews := 7;
                Tag.weeklyQuestions := 0; Tag.lastUsed := 3 |}).
    + vm_compute. split; discriminate.
    + reflexivity.
Defined.

(** ** The authorization middleware *)

(** X22. The role checks are nested: whoever passes [requireAdmin] passes
    [requireModerator], and whoever passes [requireModerator] passes
    [requireOwnershipOrModerator] for every resource, present or not, whoever
    owns it. *)
Theorem role_checks_nested :
  forall (reqUser : option Auth.ReqUser),
    (Auth.requireAdmin reqUser = Auth.Next ->
     Auth.requireModerator reqUser = Auth.Next) /\
    (Auth.requireModerator reqUser = Auth.Next ->
     forall resourceAuthor : option ObjectId,
       Auth.requireOwnershipOrModerator resourceAuthor reqUser = Auth.Next).
Proof.
  intros [u |]; [| split; discriminate].
  unfold Auth.requireAdmin, Auth.requireModerator,
    Auth.requireOwnershipOrModerator.
  cbn [existsb].
  destruct (String.eqb (Auth.role u) "moderator") eqn:E1;
    destruct (String.eqb (Auth.role u) "admin") eqn:E2;
    simpl; split; intros; try discriminate; reflexivity.
Qed.

(** An administrator, on a resource of user 3. *)
Lemma role_checks_nested_witness :
  Auth.requireOwnershipOrModerator (Some 3%N)
    (Some {| Auth._id := 1; Auth.role := "admin";
             Auth.reputation := 0 |})
  = Auth.Next.
Proof.
  apply (proj2 (role_checks_nested
                  (Some {| Auth._id := 1; Auth.role := "admin";
                           Auth.reputation := 0 |}))).
  reflexivity.
Defined.

(** X23. For an authenticated user who is neither administrator nor
    moderator, [requireOwnershipOrModerator] lets the request through
    exactly when the resource has an author and this author is the user;
    it answers 403 for someone else's resource and 404 when the resource
    or its author is missing. *)
Theorem ownership_check :
  forall (u : Auth.ReqUser) (resourceAuthor : option ObjectId),
    Auth.role u <> "admin" ->
    Auth.role u <> "moderator" ->
    (Auth.requireOwnershipOrModerator resourceAuthor (Some u) = Auth.Next
     <-> resourceAuthor = Some (Auth._id u)) /\
    (forall author : ObjectId,
        resourceAuthor = Some author ->
        author <> Auth._id u ->
        Auth.requireOwnershipOrModerator resourceAuthor (Some u)
        = Auth.Reply 403) /\
    (resourceAuthor = None ->
     Auth.requireOwnershipOrModerator resourceAuthor (Some u)
     = Auth.Reply 404).
Proof.
  intros u resourceAuthor Hadmin Hmod.
  unfold Auth.requireOwnershipOrModerator. simpl.
  apply String.eqb_neq in Hadmin, Hmod. rewrite Hadmin, Hmod. simpl.
  destruct resourceAuthor as [author |].
  - destruct (sameIdString author (Auth._id u)) eqn:E; simpl.
    + unfold sameIdString in E. apply N.eqb_eq in E. subst author.
      split; [tauto |]. split; [| discriminate].
      intros a [= <-] Hne. contradiction.
    + unfold sameIdString in E. apply N.eqb_neq in E.
      split; [split; [discriminate | intros [= H]; contradiction] |].
      split; [reflexivity | discriminate].
  - split; [split; discriminate |]. split; [discriminate | reflexivity].
Qed.

(** A plain user, number 3, on a resource of user 4. *)
Lemma ownership_check_witness :
  Auth.requireOwnershipOrModerator (Some 4%N)
    (Some {| Auth._id := 3; Auth.role := "user"; Auth.reputation := 0 |})
  = Auth.Reply 403.
Proof.
  apply (ownership_check
           {| Auth._id := 3; Auth.role := "user"; Auth.reputation := 0 |}
           (Some 4%N)) with (author := 4%N).
  - discriminate.
  - discriminate.
  - reflexivity.
  - discriminate.
Defined.

(** X24. [requireReputation(m)] lets an authenticated user through exactly
    when the user's reputation is at least [m]; so a user who passes a
    threshold passes every lower one, and an unauthenticated request is
    answered 401 whatever the threshold. *)
Theorem reputation_gate :
  forall (minReputation lower : Z) (u : Auth.ReqUser),
    (Auth.requireReputation minReputation (Some u) = Auth.Next
     <-> (minReputation <= Auth.reputation u)%Z) /\
    (Auth.requireReputation minReputation (Some u) = Auth.Next ->
     (lower <= minReputation)%Z ->
     Auth.requireReputation lower (Some u) = Auth.Next) /\
    Auth.requireReputation minReputation None = Auth.Reply 401.
Proof.
  intros m lower u. unfold Auth.requireReputation.
  destruct (Z.ltb_spec (Auth.reputation u) m) as [Hlt | Hge];
    destruct (Z.ltb_spec (Auth.reputation u) lower) as [Hlt' | Hge'].
  all: split; [split; [try discriminate; lia | intros; try reflexivity; lia]
              | split; [intros; try discriminate; try reflexivity; lia
                       | reflexivity]].
Qed.

(** A user with 50 points passes the 50 gate, hence the 10 gate. *)
Lemma reputation_gate_witness :
  Auth.requireReputation 10
    (Some {| Auth._id := 3; Auth.role := "user"; Auth.reputation := 50 |})
  = Auth.Next.
Proof.
  apply (reputation_gate 50%Z 10%Z
           {| Auth._id := 3; Auth.role := "user";
              Auth.reputation := 50 |}).
  - reflexivity.
  - lia.
Defined.

(** ** Read state of notifications *)

(** X25. After [markAllAsReadForUser(u)] the unread count of [u] is zero,
    the unread count of every other user is what it was, and no
    notification was added or removed. *)
Theorem markAllAsRead_clears_unread :
  forall (now : Date) (u : ObjectId) (collection : list Inbox.t),
    let after := Inbox.markAllAsReadForUser now u collection in
    Inbox.getUnreadCount u after = 0 /\
    (forall v : ObjectId,
        v <> u ->
        Inbox.getUnreadCount v after = Inbox.getUnreadCount v collection) /\
    length after = length collection.
Proof.
  intros now u collection. cbv zeta.
  unfold Inbox.getUnreadCount, Inbox.markAllAsReadForUser.
  split; [| split].
  - induction collection as [| n rest IH]; [reflexivity |].
    simpl.
    destruct (equals (Notification.recipient (Inbox.event n)) u) eqn:E;
      destruct (Inbox.isRead n) eqn:R; simpl; rewrite ?E, ?R; simpl;
      exact IH.
  - intros v Hne. induction collection as [| n rest IH]; [reflexivity |].
    simpl.
    destruct (equals (Notification.recipient (Inbox.event n)) u) eqn:E;
      destruct (Inbox.isRead n) eqn:R; simpl; rewrite ?R.
    + destruct (_ && _ && _); simpl; rewrite IH; reflexivity.
    + apply equals_spec in E.
      assert (Ev : equals (Notification.recipient (Inbox.event n)) v = false)
        by (apply equals_false; congruence).
      rewrite Ev. simpl. exact IH.
    + destruct (_ && _ && _); simpl; rewrite IH; reflexivity.
    + destruct (_ && _ && _); simpl; rewrite IH; reflexivity.
  - apply length_map.
Qed.

(** A notification is kept by [cleanupOld] unless it is archived and older
    than the cutoff. *)
(** What the [deleteMany] of [cleanupOld] keeps, whatever the cutoff. *)
Lemma cleanupOld_keeps (cutoffDate : Date) (collection : list Inbox.t) :
  let kept :=
    List.filter
      (fun n =>
         negb (Z.ltb (Inbox.createdAt n) cutoffDate && Inbox.isArchived n))
      collection in
  (forall n : Inbox.t,
      In n collection -> Inbox.isArchived n = false -> In n kept) /\
  (forall n : Inbox.t, In n kept -> In n collection) /\
  (forall u : ObjectId,
      Inbox.getUnreadCount u kept = Inbox.getUnreadCount u collection).
Proof.
  cbv zeta. split; [| split].
  - intros n Hin Harch. apply filter_In.
    split; [exact Hin |]. rewrite Harch, andb_false_r. reflexivity.
  - intros n H. apply filter_In in H. tauto.
  - intros u. unfold Inbox.getUnreadCount.
    induction collection as [| n rest IH]; [reflexivity |].
    simpl.
    destruct (Inbox.isArchived n) eqn:A.
    + rewrite andb_false_r, andb_true_r.
      destruct (Z.ltb _ _); simpl; rewrite ?A, ?andb_false_r; exact IH.
    + rewrite andb_false_r. simpl. rewrite A.
      destruct (_ && _ && _); simpl; rewrite IH; reflexivity.
Qed.

(** X26. [cleanupOld] deletes archived notifications only: every
    notification that is not archived survives it, however old, and the
    unread count of every user is the same before and after, whatever the
    date and the age limit; when the query is rejected with a [CastError]
    the collection is as it was. *)
Theorem cleanupOld_keeps_unread :
  forall (now : Date) (daysOld : option Z) (collection : list Inbox.t),
    let after := fst (Inbox.cleanupOld now daysOld collection) in
    (forall n : Inbox.t,
        In n collection -> Inbox.isArchived n = false -> In n after) /\
    (forall n : Inbox.t, In n after -> In n collection) /\
    (forall u : ObjectId,
        Inbox.getUnreadCount u after = Inbox.getUnreadCount u collection) /\
    (forall name : string,
        snd (Inbox.cleanupOld now daysOld collection) = Thrown name ->
        after = collection).
Proof.
  intros now daysOld collection. cbv zeta. unfold Inbox.cleanupOld.
  cbv zeta. destruct (Z.abs _ <=? 8640000000000000)%Z; cbn [fst snd].
  - destruct (cleanupOld_keeps
                (Number.sub now
                   (Number.mul
                      (Number.mul
                         (Number.mul
                            (Number.mul
                               match daysOld with
                               | Some d => d
                               | None => 30%Z
                               end 24) 60) 60) 1000)) collection)
      as (H1 & H2 & H3).
    cbv zeta in H1, H2, H3.
    split; [exact H1 |]. split; [exact H2 |]. split; [exact H3 |].
    intros name [=].
  - split; [intros n H _; exact H |]. split; [intros n H; exact H |].
    split; reflexivity.
Qed.

(** Users 2 and 3 each have one unread notification; user 2 marks all as
    read. *)
Lemma markAllAsRead_clears_unread_witness :
  let note := fun recipient =>
    {| Inbox.event :=
         {| Notification.recipient := recipient; Notification.sender := 1;
            Notification.type := "answer";
            Notification.relatedQuestion := Some 10%N;
            Notification.relatedAnswer := None |};
       Inbox.isRead := false; Inbox.readAt := None;
       Inbox.isArchived := false; Inbox.archivedAt := None;
       Inbox.createdAt := 5 |} in
  Inbox.getUnreadCount 3
    (Inbox.markAllAsReadForUser 9 2 [note 2%N; note 3%N])
  = Inbox.getUnreadCount 3 [note 2%N; note 3%N].
Proof.
  cbv zeta.
  match goal with
  | |- _ = Inbox.getUnreadCount _ ?l =>
      apply (proj1 (proj2 (markAllAsRead_clears_unread 9%Z 2%N l)) 3%N)
  end.
  discriminate.
Defined.

(** An unread notification created at time 0 is still there after a
    cleanup run a year later with a limit of 30 days. *)
Lemma cleanupOld_keeps_unread_witness :
  let note :=
    {| Inbox.event :=
         {| Notification.recipient := 2; Notification.sender := 1;
            Notification.type := "answer";
            Notification.relatedQuestion := Some 10%N;
            Notification.relatedAnswer := None |};
       Inbox.isRead := false; Inbox.readAt := None;
       Inbox.isArchived := false; Inbox.archivedAt := None;
       Inbox.createdAt := 0 |} in
  In note (fst (Inbox.cleanupOld 31536000000 (Some 30%Z) [note])).
Proof.
  cbv zeta.
  match goal with
  | |- In ?n (fst (Inbox.cleanupOld _ _ ?l)) =>
      apply (proj1 (cleanupOld_keeps_unread 31536000000%Z (Some 30%Z) l) n)
  end.
  - left. reflexivity.
  - reflexivity.
Defined.
